(** * Mockmate backend: interview session lifecycle and AI gateway

    A shallow embedding of

    - [app/db/session.py]            (session factory, [get_db]),
    - [app/services/ai_service.py]   ([AIService]),
    - [app/services/interview_service.py] ([InterviewService]),
    - [app/schemas/interview.py]     (request and response schemas),
    - [app/api/v1/endpoints/interviews.py] (the endpoints),
    - the table definitions of the initial Alembic migration,
    - and, for the accounts, [app/models/user.py], [app/schemas/auth.py],
      [app/core/security.py], [app/services/auth_service.py] and
      [app/api/v1/endpoints/auth.py],

    followed by the properties of the session lifecycle, of the
    dashboard and of the accounts.

    Conventions of the embedding.

    - Values that come out of [json.loads] are dynamically typed; they are
      values of [PyVal], and the Python operations the services apply to
      them ([int], [len], slicing, truthiness, [dict.get]) are functions
      that raise the exception Python raises.
    - A SQLAlchemy [Session] is a unit of work over a database: writes are
      first [pending], [flush] sends them to the open transaction, [commit]
      makes the transaction durable.  Queries read the open transaction.
    - What a request cannot determine itself (the reply of the Groq API,
      the values of [uuid.uuid4()], the clock of the database server) is
      collected in [Env].
    - [final_score] is a Python float; it is embedded as the exact rational
      [sum / len], without rounding.  Strings are strings of bytes, whose
      length is Python's on ASCII text.

    The properties follow the definitions: the gateway, the lookups that
    fail, answer submission (write-once answers, gateway failures, frame,
    completion), session creation, history, the invariants of the
    databases the application can reach, and then the analytics, the
    unpacking of the provider's response, and the accounts. *)

From Stdlib Require Import ZArith QArith String Ascii List Bool Lia.
From Stdlib Require Import Sorted Permutation.
Import ListNotations.

Local Open Scope string_scope.
Local Open Scope Z_scope.

(* ================================================================= *)
(** ** Exceptions *)

(** [HTTPException] is FastAPI's; the other constructors stand for the
    exceptions that no handler of the application catches and that the
    framework turns into a 500 response. *)
Inductive Exception : Type :=
| HTTPException (status_code : Z) (detail : string)
| IntegrityError                 (* sqlalchemy.exc.IntegrityError *)
| StatementError                 (* a value the driver cannot bind or run *)
| PyError (name : string).       (* TypeError, ValueError, KeyError, ... *)

Definition Result (A : Type) : Type := (Exception + A)%type.

Definition HTTP_400_BAD_REQUEST : Z := 400.
Definition HTTP_404_NOT_FOUND : Z := 404.
Definition HTTP_422_UNPROCESSABLE : Z := 422.
Definition HTTP_502_BAD_GATEWAY : Z := 502.
Definition HTTP_503_SERVICE_UNAVAILABLE : Z := 503.

(** The error kinds of the specification, by the status code that carries
    them at the request boundary. *)
Definition status_of (e : Exception) : option Z :=
  match e with
  | HTTPException c _ => Some c
  | _ => None
  end.

Definition NotFound (e : Exception) : Prop := status_of e = Some 404.
Definition AlreadyAnswered (e : Exception) : Prop := status_of e = Some 400.
Definition UpstreamInvalid (e : Exception) : Prop := status_of e = Some 502.
Definition UpstreamUnavailable (e : Exception) : Prop := status_of e = Some 503.

Module ResultMonad.
Definition ret {A} (a : A) : Result A := inr a.
Definition bind {A B} (m : Result A) (k : A -> Result B) : Result B :=
  match m with
  | inl e => inl e
  | inr a => k a
  end.
End ResultMonad.

Declare Scope result_scope.
Delimit Scope result_scope with result.
Notation "'let?' x ':=' m 'in' k" :=
  (ResultMonad.bind m (fun x => k))
    (at level 10, x pattern, m at level 100, k at level 200) : result_scope.

(* ================================================================= *)
(** ** Python values *)

(** What [json.loads] returns.  Floats carry the rational they denote;
    the non-finite floats that Python's parser also accepts are left
    out. *)
#[warnings="-register-all"]
Inductive PyVal : Type :=
| VNone
| VBool (b : bool)
| VInt (z : Z)
| VFloat (q : Q)
| VStr (s : string)
| VList (l : list PyVal)
| VDict (d : list (string * PyVal)).

Module Py.

(** [bool(v)] *)
Definition truthy (v : PyVal) : bool :=
  match v with
  | VNone => false
  | VBool b => b
  | VInt z => negb (z =? 0)
  | VFloat q => negb (Qnum q =? 0)
  | VStr s => negb (String.eqb s "")
  | VList l => match l with [] => false | _ => true end
  | VDict d => match d with [] => false | _ => true end
  end.

(** [len(v)] *)
Definition len (v : PyVal) : Result Z :=
  match v with
  | VStr s => inr (Z.of_nat (String.length s))
  | VList l => inr (Z.of_nat (List.length l))
  | VDict d => inr (Z.of_nat (List.length d))
  | _ => inl (PyError "TypeError")
  end.

(** The stop index of [xs[:n]] on a sequence of length [len]. *)
Definition slice_stop (n : Z) (len : nat) : nat :=
  if n <? 0 then Z.to_nat (Z.max 0 (Z.of_nat len + n)) else Z.to_nat n.

Definition slice_list {A} (n : Z) (l : list A) : list A :=
  firstn (slice_stop n (List.length l)) l.

Definition slice_string (n : Z) (s : string) : string :=
  String.substring 0 (Nat.min (slice_stop n (String.length s)) (String.length s)) s.

(** [v[:n]] *)
Definition slice_to (n : Z) (v : PyVal) : Result PyVal :=
  match v with
  | VList l => inr (VList (slice_list n l))
  | VStr s => inr (VStr (slice_string n s))
  | _ => inl (PyError "TypeError")
  end.

(** The items a [for] loop draws from [v]. *)
Definition iter (v : PyVal) : Result (list PyVal) :=
  match v with
  | VList l => inr l
  | VStr s => inr (List.map (fun c => VStr (String c EmptyString)) (list_ascii_of_string s))
  | VDict d => inr (List.map (fun kv => VStr (fst kv)) d)
  | _ => inl (PyError "TypeError")
  end.

(** *** [int(v)] *)

Definition is_space (c : ascii) : bool :=
  let n := nat_of_ascii c in
  ((9 <=? n) && (n <=? 13))%nat || (n =? 32)%nat.

Definition is_digit (c : ascii) : bool :=
  let n := nat_of_ascii c in ((48 <=? n) && (n <=? 57))%nat.

Definition digit_value (c : ascii) : Z := Z.of_nat (nat_of_ascii c) - 48.

Fixpoint lstrip (l : list ascii) : list ascii :=
  match l with
  | c :: r => if is_space c then lstrip r else l
  | [] => []
  end.

Definition strip (l : list ascii) : list ascii :=
  rev (lstrip (rev (lstrip l))).

(** Decimal digits, single underscores allowed between two digits. *)
Fixpoint digits (acc : Z) (after_digit : bool) (l : list ascii) : option Z :=
  match l with
  | [] => if after_digit then Some acc else None
  | c :: r =>
      if is_digit c then digits (10 * acc + digit_value c) true r
      else if Ascii.eqb c "_"%char && after_digit then digits acc false r
      else None
  end.

Definition int_of_string (s : string) : option Z :=
  match strip (list_ascii_of_string s) with
  | "-"%char :: r => option_map Z.opp (digits 0 false r)
  | "+"%char :: r => digits 0 false r
  | l => digits 0 false l
  end.

Definition int (v : PyVal) : Result Z :=
  match v with
  | VInt z => inr z
  | VBool b => inr (if b then 1 else 0)
  | VFloat q => inr (Z.quot (Qnum q) (Zpos (Qden q)))
  | VStr s =>
      match int_of_string s with
      | Some z => inr z
      | None => inl (PyError "ValueError")
      end
  | _ => inl (PyError "TypeError")
  end.

(** *** Dictionaries, in insertion order *)

Fixpoint dict_lookup (k : string) (d : list (string * PyVal)) : option PyVal :=
  match d with
  | [] => None
  | (k', v) :: r => if String.eqb k k' then Some v else dict_lookup k r
  end.

Fixpoint dict_store (k : string) (v : PyVal) (d : list (string * PyVal))
  : list (string * PyVal) :=
  match d with
  | [] => [(k, v)]
  | (k', v') :: r =>
      if String.eqb k k' then (k', v) :: r else (k', v') :: dict_store k v r
  end.

(** [d.keys()] *)
Definition keys (v : PyVal) : Result (list string) :=
  match v with
  | VDict d => inr (List.map fst d)
  | _ => inl (PyError "AttributeError")
  end.

(** [d.get(k, default)] *)
Definition get (v : PyVal) (k : string) (default : PyVal) : Result PyVal :=
  match v with
  | VDict d =>
      match dict_lookup k d with
      | Some x => inr x
      | None => inr default
      end
  | _ => inl (PyError "AttributeError")
  end.

(** [d[k]] for a string key *)
Definition getitem (v : PyVal) (k : string) : Result PyVal :=
  match v with
  | VDict d =>
      match dict_lookup k d with
      | Some x => inr x
      | None => inl (PyError "KeyError")
      end
  | _ => inl (PyError "TypeError")
  end.

(** [d[k] = x] *)
Definition setitem (v : PyVal) (k : string) (x : PyVal) : Result PyVal :=
  match v with
  | VDict d => inr (VDict (dict_store k x d))
  | _ => inl (PyError "TypeError")
  end.

(** [set(required).issubset(keys)] *)
Definition issubset (required keys : list string) : bool :=
  forallb (fun k => existsb (String.eqb k) keys) required.

(** [max(0, min(100, z))] *)
Definition clamp (lo hi z : Z) : Z := Z.max lo (Z.min hi z).

End Py.

(* ================================================================= *)
(** ** Tables

    The columns are those of the initial Alembic migration
    ([ef572e2f6aff]).  Primary keys are UUID strings.  [created_at] is
    set by the server clock at INSERT; [updated_at], which no code of the
    application reads, is left out, and so is the [users] table: the
    services below only ever receive the id of the authenticated user. *)

Module InterviewSession.
Record t : Type := mk {
  id : string;
  user_id : string;
  role : string;
  difficulty : string;
  question_count : Z;
  final_score : option Q;          (* Float, nullable *)
  is_completed : string;           (* String(10), "false" by default *)
  created_at : Z
}.

Definition set_final_score (v : option Q) (s : t) : t :=
  mk (id s) (user_id s) (role s) (difficulty s) (question_count s)
     v (is_completed s) (created_at s).

Definition set_is_completed (v : string) (s : t) : t :=
  mk (id s) (user_id s) (role s) (difficulty s) (question_count s)
     (final_score s) v (created_at s).
End InterviewSession.

Module InterviewQuestion.
Record t : Type := mk {
  id : string;
  session_id : string;
  question_text : string;
  user_answer : option string;     (* Text, nullable *)
  order_index : Z
}.

Definition set_user_answer (v : option string) (q : t) : t :=
  mk (id q) (session_id q) (question_text q) v (order_index q).
End InterviewQuestion.

Module QuestionFeedback.
Record t : Type := mk {
  id : string;
  question_id : string;            (* unique index *)
  score : Z;
  overall_feedback : string;
  strengths : PyVal;               (* JSON *)
  improvements : PyVal             (* JSON *)
}.
End QuestionFeedback.

(** [is_sqlite] of [app/db/session.py]: the default [DATABASE_URL] is a
    SQLite file, the production one a PostgreSQL server. *)
Inductive Dialect : Type := SQLite | PostgreSQL.

Record Database : Type := mkDatabase {
  dialect : Dialect;
  interview_sessions : list InterviewSession.t;
  interview_questions : list InterviewQuestion.t;
  question_feedback : list QuestionFeedback.t
}.

(** *** Binding Python values to columns *)

(** A [Text NOT NULL] column.  [None] violates the constraint on every
    engine; what a driver does with a value that is not a string differs
    from engine to engine and is embedded as a rejected statement. *)
Definition bind_text (v : PyVal) : Result string :=
  match v with
  | VStr s => inr s
  | VNone => inl IntegrityError
  | _ => inl StatementError
  end.

(** An [Integer NOT NULL] column. *)
Definition bind_integer (v : PyVal) : Result Z :=
  match v with
  | VInt z => inr z
  | VBool b => inr (if b then 1 else 0)
  | VNone => inl IntegrityError
  | _ => inl StatementError
  end.

(* ================================================================= *)
(** ** The SQLAlchemy session ([app/db/session.py]) *)

(** The writes a session has recorded and not yet flushed: objects passed
    to [db.add], with the Python values their constructor was given, and
    attributes assigned on objects it loaded. *)
Inductive Pending : Type :=
| AddSession (s : InterviewSession.t)
| AddQuestion (id session_id : string) (question_text : PyVal) (order_index : Z)
| AddFeedback (id question_id : string)
              (score overall_feedback strengths improvements : PyVal)
| SetUserAnswer (question_id : string) (answer : string)
| SetFinalScore (session_id : string) (v : Q)
| SetIsCompleted (session_id : string) (v : string).

Record OrmSession : Type := mkOrmSession {
  autoflush : bool;
  durable : Database;        (* what every other connection reads *)
  tx : Database;             (* what this connection's statements read *)
  pending : list Pending;    (* recorded, not yet sent to the database *)
  commits : list Database    (* the states made durable, oldest first *)
}.

(** [SessionLocal = sessionmaker(bind=engine, autocommit=False,
    autoflush=False)] and one call of it.  With [autocommit=False]
    nothing is durable before [commit]. *)
Definition SessionLocal (db : Database) : OrmSession :=
  {| autoflush := false; durable := db; tx := db; pending := []; commits := [] |}.

(** *** INSERT and UPDATE statements *)

Definition insert_session (s : InterviewSession.t) (d : Database) : Result Database :=
  if existsb (fun s' => String.eqb (InterviewSession.id s') (InterviewSession.id s))
             (interview_sessions d)
  then inl IntegrityError
  else inr (mkDatabase (dialect d) (interview_sessions d ++ [s])
                       (interview_questions d) (question_feedback d)).

Definition insert_question (id session_id : string) (question_text : PyVal)
           (order_index : Z) (d : Database) : Result Database :=
  match bind_text question_text with
  | inl e => inl e
  | inr text =>
      if existsb (fun q' => String.eqb (InterviewQuestion.id q') id) (interview_questions d)
      then inl IntegrityError
      else inr (mkDatabase (dialect d) (interview_sessions d)
                  (interview_questions d
                     ++ [InterviewQuestion.mk id session_id text None order_index])
                  (question_feedback d))
  end.

(** [question_feedback] has a unique index on [question_id] besides its
    primary key. *)
Definition insert_feedback (id question_id : string)
           (score overall_feedback strengths improvements : PyVal) (d : Database)
  : Result Database :=
  match bind_integer score, bind_text overall_feedback with
  | inl e, _ => inl e
  | _, inl e => inl e
  | inr sc, inr text =>
      if existsb (fun f' => String.eqb (QuestionFeedback.id f') id
                            || String.eqb (QuestionFeedback.question_id f') question_id)
                 (question_feedback d)
      then inl IntegrityError
      else inr (mkDatabase (dialect d) (interview_sessions d) (interview_questions d)
                  (question_feedback d
                     ++ [QuestionFeedback.mk id question_id sc text strengths improvements]))
  end.

Definition update_question (qid : string) (f : InterviewQuestion.t -> InterviewQuestion.t)
           (d : Database) : Database :=
  mkDatabase (dialect d) (interview_sessions d)
             (map (fun q => if String.eqb (InterviewQuestion.id q) qid then f q else q)
                  (interview_questions d))
             (question_feedback d).

Definition update_session (sid : string) (f : InterviewSession.t -> InterviewSession.t)
           (d : Database) : Database :=
  mkDatabase (dialect d)
             (map (fun s => if String.eqb (InterviewSession.id s) sid then f s else s)
                  (interview_sessions d))
             (interview_questions d) (question_feedback d).

Definition execute (p : Pending) (d : Database) : Result Database :=
  match p with
  | AddSession s => insert_session s d
  | AddQuestion id sid text idx => insert_question id sid text idx d
  | AddFeedback id qid sc text ss is_ => insert_feedback id qid sc text ss is_ d
  | SetUserAnswer qid a =>
      inr (update_question qid (InterviewQuestion.set_user_answer (Some a)) d)
  | SetFinalScore sid v =>
      inr (update_session sid (InterviewSession.set_final_score (Some v)) d)
  | SetIsCompleted sid v =>
      inr (update_session sid (InterviewSession.set_is_completed v) d)
  end.

Fixpoint execute_all (ps : list Pending) (d : Database) : Result Database :=
  match ps with
  | [] => inr d
  | p :: r =>
      match execute p d with
      | inl e => inl e
      | inr d' => execute_all r d'
      end
  end.

(** *** The monad of code that holds a session *)

Definition M (A : Type) : Type := OrmSession -> Result A * OrmSession.

Definition ret {A} (a : A) : M A := fun s => (inr a, s).

Definition bind {A B} (m : M A) (k : A -> M B) : M B :=
  fun s =>
    match m s with
    | (inl e, s') => (inl e, s')
    | (inr a, s') => k a s'
    end.

Definition raise {A} (e : Exception) : M A := fun s => (inl e, s).

Definition lift {A} (r : Result A) : M A := fun s => (r, s).

Declare Scope orm_scope.
Delimit Scope orm_scope with orm.
Notation "x <- m ;; k" := (bind m (fun x => k))
  (at level 61, m at next level, right associativity) : orm_scope.
Notation "m ;; k" := (bind m (fun _ => k))
  (at level 61, right associativity) : orm_scope.

Local Open Scope orm_scope.

(** [db.rollback()]: the open transaction and the recorded writes are
    dropped. *)
Definition rollback_state (s : OrmSession) : OrmSession :=
  mkOrmSession (autoflush s) (durable s) (durable s) [] (commits s).

Definition db_rollback : M unit := fun s => (inr tt, rollback_state s).

(** [db.close()] releases the connection; an open transaction is rolled
    back. *)
Definition db_close : M unit := db_rollback.

(** [db.add(obj)], and attribute assignment on a loaded object. *)
Definition db_add (p : Pending) : M unit :=
  fun s => (inr tt, mkOrmSession (autoflush s) (durable s) (tx s)
                                 (pending s ++ [p]) (commits s)).

(** [db.flush()]: the recorded writes become statements of the open
    transaction.  A statement that fails aborts the transaction. *)
Definition db_flush : M unit :=
  fun s =>
    match execute_all (pending s) (tx s) with
    | inr d => (inr tt, mkOrmSession (autoflush s) (durable s) d [] (commits s))
    | inl e => (inl e, rollback_state s)
    end.

(** [db.commit()] *)
Definition db_commit : M unit :=
  db_flush ;;
  fun s => (inr tt, mkOrmSession (autoflush s) (tx s) (tx s) [] (commits s ++ [tx s])).

(** [db.query(...)...]: a SELECT on the open transaction, preceded by a
    flush only when the session was made with [autoflush=True]. *)
Definition db_query {A} (select : Database -> A) : M A :=
  fun s =>
    if autoflush s
    then (db_flush ;; (fun s' => (inr (select (tx s')), s'))) s
    else (inr (select (tx s)), s).

(** [get_db]: the session lives for one request; an exception rolls it
    back before it is closed. *)
Definition get_db {A} (endpoint : M A) (db : Database) : Result A * OrmSession :=
  match endpoint (SessionLocal db) with
  | (inr a, s) => (inr a, snd (db_close s))
  | (inl e, s) => (inl e, snd (db_close (snd (db_rollback s))))
  end.

(* ================================================================= *)
(** ** The environment of a request *)

(** What the Groq API did with the one request an operation sends it, as
    far as [_extract_json] can tell the cases apart. *)
Inductive GroqReply : Type :=
| TransportError (name : string)   (* [client.post] raised: timeout, connection *)
| HTTPStatusError (msg : string)   (* [raise_for_status()] raised: 4xx, 5xx *)
| JSONDecodeError (msg : string)   (* the body or the message is not JSON *)
| KeyError (msg : string)          (* no [choices], [message] or [content] *)
| OtherError (name : string)       (* IndexError, TypeError while unpacking *)
| Content (data : PyVal).          (* [json.loads(raw_text)] *)

Record Env : Type := mkEnv {
  groq : GroqReply;
  uuid4 : nat -> string;     (* the value of the n-th [uuid.uuid4()] call *)
  now : Z                    (* [func.now()] of the database server *)
}.

(* ================================================================= *)
(** ** [AIService] ([app/services/ai_service.py]) *)

Module AIService.
Import ResultMonad.
Local Open Scope result_scope.

(** [client.post(...)] followed by [_extract_json(response, context)]. *)
Definition _extract_json (reply : GroqReply) (context : string) : Result PyVal :=
  match reply with
  | Content data => inr data
  | JSONDecodeError msg | KeyError msg =>
      inl (HTTPException HTTP_502_BAD_GATEWAY
             ("AI returned invalid response during " ++ context ++ ": " ++ msg))
  | HTTPStatusError msg =>
      inl (HTTPException HTTP_503_SERVICE_UNAVAILABLE ("AI service error: " ++ msg))
  | TransportError name | OtherError name => inl (PyError name)
  end.

Definition generate_questions (reply : GroqReply) (role difficulty : string) (count : Z)
  : Result PyVal :=
  let? data := _extract_json reply "question generation" in
  let? questions := Py.get data "questions" (VList []) in
  if negb (Py.truthy questions) then
    inl (HTTPException HTTP_502_BAD_GATEWAY
           "AI did not return the expected number of questions.")
  else
    let? n := Py.len questions in
    if n <? count then
      inl (HTTPException HTTP_502_BAD_GATEWAY
             "AI did not return the expected number of questions.")
    else Py.slice_to count questions.

Definition required_keys : list string :=
  ["score"; "overall_feedback"; "strengths"; "improvements"].

Definition evaluate_answer (reply : GroqReply) (question answer role difficulty : string)
  : Result PyVal :=
  let? data := _extract_json reply "answer evaluation" in
  let? keys := Py.keys data in
  if negb (Py.issubset required_keys keys) then
    inl (HTTPException HTTP_502_BAD_GATEWAY
           "AI response missing required feedback fields.")
  else
    let? raw_score := Py.getitem data "score" in
    let? score := Py.int raw_score in
    let? data := Py.setitem data "score" (VInt (Py.clamp 0 100 score)) in
    let? strengths := Py.get data "strengths" (VList []) in
    let? strengths := Py.slice_to 5 strengths in
    let? data := Py.setitem data "strengths" strengths in
    let? improvements := Py.get data "improvements" (VList []) in
    let? improvements := Py.slice_to 5 improvements in
    let? data := Py.setitem data "improvements" improvements in
    inr data.

End AIService.

(* ================================================================= *)
(** ** Schemas ([app/schemas/interview.py]) *)

Record StartInterviewRequest : Type := mkStartInterviewRequest {
  req_role : string;
  req_difficulty : string;
  req_question_count : Z
}.

(** The [Field] constraints, checked when the request body is parsed. *)
Definition StartInterviewRequest_valid (r : StartInterviewRequest) : bool :=
  ((2 <=? String.length (req_role r)) && (String.length (req_role r) <=? 100))%nat
  && (String.eqb (req_difficulty r) "Easy"
      || String.eqb (req_difficulty r) "Intermediate"
      || String.eqb (req_difficulty r) "Hard")
  && (3 <=? req_question_count r) && (req_question_count r <=? 10).

Record SubmitAnswerRequest : Type := mkSubmitAnswerRequest {
  answer : string
}.

Definition SubmitAnswerRequest_valid (r : SubmitAnswerRequest) : bool :=
  ((1 <=? String.length (answer r)) && (String.length (answer r) <=? 5000))%nat.

Record QuestionResponse : Type := mkQuestionResponse {
  qr_id : string;
  qr_question_text : string;
  qr_order_index : Z;
  qr_user_answer : option string
}.

Record FeedbackResponse : Type := mkFeedbackResponse {
  fr_id : string;
  fr_score : Z;
  fr_overall_feedback : string;
  fr_strengths : list string;
  fr_improvements : list string
}.

Record SessionResponse : Type := mkSessionResponse {
  sr_id : string;
  sr_role : string;
  sr_difficulty : string;
  sr_question_count : Z;
  sr_final_score : option Q;
  sr_is_completed : string;
  sr_created_at : Z;
  sr_questions : list QuestionResponse
}.

Record SubmitAnswerResponse : Type := mkSubmitAnswerResponse {
  question_id : string;
  feedback : FeedbackResponse;
  is_last_question : bool;
  session_complete : bool
}.

Record SessionHistoryItem : Type := mkSessionHistoryItem {
  hi_id : string;
  hi_role : string;
  hi_difficulty : string;
  hi_question_count : Z;
  hi_score : Q;
  hi_completed_at : Z
}.

(** [list[str]]: every item must already be a string. *)
Fixpoint validate_str_list (l : list PyVal) : Result (list string) :=
  match l with
  | [] => inr []
  | VStr s :: r =>
      match validate_str_list r with
      | inr r' => inr (s :: r')
      | inl e => inl e
      end
  | _ :: _ => inl (PyError "ValidationError")
  end.

Definition validate_list_of_str (v : PyVal) : Result (list string) :=
  match v with
  | VList l => validate_str_list l
  | _ => inl (PyError "ValidationError")
  end.

(** [FeedbackResponse.model_validate(feedback)] *)
Definition FeedbackResponse_model_validate (f : QuestionFeedback.t)
  : Result FeedbackResponse :=
  match validate_list_of_str (QuestionFeedback.strengths f),
        validate_list_of_str (QuestionFeedback.improvements f) with
  | inr ss, inr is_ =>
      inr (mkFeedbackResponse (QuestionFeedback.id f) (QuestionFeedback.score f)
                              (QuestionFeedback.overall_feedback f) ss is_)
  | inl e, _ => inl e
  | _, inl e => inl e
  end.

Definition QuestionResponse_model_validate (q : InterviewQuestion.t) : QuestionResponse :=
  mkQuestionResponse (InterviewQuestion.id q) (InterviewQuestion.question_text q)
                     (InterviewQuestion.order_index q) (InterviewQuestion.user_answer q).

(* ================================================================= *)
(** ** [InterviewService] ([app/services/interview_service.py]) *)

Module InterviewService.

(** [if value:] on a nullable text column *)
Definition truthy_text (v : option string) : bool :=
  match v with
  | None => false
  | Some s => negb (String.eqb s "")
  end.

(** [column.isnot(None)] *)
Definition isnot_None {A} (v : option A) : bool :=
  match v with
  | None => false
  | Some _ => true
  end.

(** [sum(xs)] *)
Definition sum (xs : list Z) : Z := fold_left Z.add xs 0.

(** [a / b] on two ints *)
Definition truediv (a b : Z) : Result Q :=
  match b with
  | Zpos p => inr (Qmake a p)
  | Zneg p => inr (Qmake (- a) p)
  | Z0 => inl (PyError "ZeroDivisionError")
  end.

(** The integer held by a Python int. *)
Definition as_int (v : PyVal) : Result Z :=
  match v with
  | VInt z => inr z
  | VBool b => inr (if b then 1 else 0)
  | _ => inl (PyError "TypeError")
  end.

(** [db.refresh(obj)]: the row is read again by primary key. *)
Definition session_by_id (sid : string) (d : Database) : option InterviewSession.t :=
  find (fun s => String.eqb (InterviewSession.id s) sid) (interview_sessions d).

Definition feedback_by_id (fid : string) (d : Database) : option QuestionFeedback.t :=
  find (fun f => String.eqb (QuestionFeedback.id f) fid) (question_feedback d).

Definition refresh_session (sid : string) : M InterviewSession.t :=
  row <- db_query (session_by_id sid) ;;
  match row with
  | Some s => ret s
  | None => raise (PyError "InvalidRequestError")
  end.

Definition refresh_feedback (fid : string) : M QuestionFeedback.t :=
  row <- db_query (feedback_by_id fid) ;;
  match row with
  | Some f => ret f
  | None => raise (PyError "InvalidRequestError")
  end.

(** Modelled from the spec: the [questions] relationship of
    [InterviewSession], declared in [app/models/interview.py]; a Session
    "owns an ordered list of Questions", read here as the rows of the
    session in the order of the table, which is the order of insertion. *)
Definition session_questions (sid : string) (d : Database) : list InterviewQuestion.t :=
  filter (fun q => String.eqb (InterviewQuestion.session_id q) sid)
         (interview_questions d).

(** [SessionResponse.model_validate(session)] *)
Definition SessionResponse_model_validate (s : InterviewSession.t) : M SessionResponse :=
  qs <- db_query (session_questions (InterviewSession.id s)) ;;
  ret (mkSessionResponse
         (InterviewSession.id s) (InterviewSession.role s)
         (InterviewSession.difficulty s) (InterviewSession.question_count s)
         (InterviewSession.final_score s) (InterviewSession.is_completed s)
         (InterviewSession.created_at s)
         (map QuestionResponse_model_validate qs)).

(** *** Helpers *)

(** [db.query(InterviewSession).filter(id == ..., user_id == ...).first()] *)
Definition session_of_user (session_id user_id : string) (d : Database)
  : option InterviewSession.t :=
  find (fun s => String.eqb (InterviewSession.id s) session_id
                 && String.eqb (InterviewSession.user_id s) user_id)
       (interview_sessions d).

Definition _get_session_for_user (session_id user_id : string) : M InterviewSession.t :=
  row <- db_query (session_of_user session_id user_id) ;;
  match row with
  | Some session => ret session
  | None => raise (HTTPException HTTP_404_NOT_FOUND "Session not found.")
  end.

(** *** Start interview *)

(** [for idx, text in enumerate(question_texts): db.add(InterviewQuestion(...))];
    the session took the first [uuid4()] of the request. *)
Fixpoint add_questions (env : Env) (session_id : string) (idx : nat)
         (question_texts : list PyVal) : M unit :=
  match question_texts with
  | [] => ret tt
  | text :: rest =>
      db_add (AddQuestion (uuid4 env (S idx)) session_id text (Z.of_nat idx)) ;;
      add_questions env session_id (S idx) rest
  end.

Definition start_session (env : Env) (user_id : string) (data : StartInterviewRequest)
  : M SessionResponse :=
  let session :=
    InterviewSession.mk (uuid4 env 0) user_id (req_role data) (req_difficulty data)
                        (req_question_count data) None "false" (now env) in
  db_add (AddSession session) ;;
  db_flush ;;
  question_texts <- lift (AIService.generate_questions
                            (groq env) (req_role data) (req_difficulty data)
                            (req_question_count data)) ;;
  items <- lift (Py.iter question_texts) ;;
  add_questions env (InterviewSession.id session) 0 items ;;
  db_commit ;;
  session <- refresh_session (InterviewSession.id session) ;;
  SessionResponse_model_validate session.

(** *** Submit answer *)

(** [db.query(InterviewQuestion).filter(id == ..., session_id == ...).first()] *)
Definition question_of_session (question_id session_id : string) (d : Database)
  : option InterviewQuestion.t :=
  find (fun q => String.eqb (InterviewQuestion.id q) question_id
                 && String.eqb (InterviewQuestion.session_id q) session_id)
       (interview_questions d).

(** [db.query(QuestionFeedback).join(InterviewQuestion)
       .filter(InterviewQuestion.session_id == session_id).all()] *)
Definition feedback_of_session (session_id : string) (d : Database)
  : list QuestionFeedback.t :=
  flat_map
    (fun f =>
       map (fun _ => f)
           (filter (fun q => String.eqb (InterviewQuestion.id q)
                                        (QuestionFeedback.question_id f)
                             && String.eqb (InterviewQuestion.session_id q) session_id)
                   (interview_questions d)))
    (question_feedback d).

(** [db.query(InterviewQuestion).filter(session_id == ..., user_answer.isnot(None))] *)
Definition answered_questions (session_id : string) (d : Database)
  : list InterviewQuestion.t :=
  filter (fun q => String.eqb (InterviewQuestion.session_id q) session_id
                   && isnot_None (InterviewQuestion.user_answer q))
         (interview_questions d).

Definition submit_answer (env : Env) (session_id question_id user_id : string)
           (data : SubmitAnswerRequest) : M SubmitAnswerResponse :=
  session <- _get_session_for_user session_id user_id ;;
  row <- db_query (question_of_session question_id session_id) ;;
  match row with
  | None => raise (HTTPException 404 "Question not found.")
  | Some question =>
      if truthy_text (InterviewQuestion.user_answer question) then
        raise (HTTPException 400 "This question has already been answered.")
      else
        db_add (SetUserAnswer (InterviewQuestion.id question) (answer data)) ;;
        feedback_data <- lift (AIService.evaluate_answer
                                 (groq env) (InterviewQuestion.question_text question)
                                 (answer data) (InterviewSession.role session)
                                 (InterviewSession.difficulty session)) ;;
        score <- lift (Py.getitem feedback_data "score") ;;
        overall_feedback <- lift (Py.getitem feedback_data "overall_feedback") ;;
        strengths <- lift (Py.getitem feedback_data "strengths") ;;
        improvements <- lift (Py.getitem feedback_data "improvements") ;;
        let feedback_id := uuid4 env 0 in
        db_add (AddFeedback feedback_id (InterviewQuestion.id question)
                            score overall_feedback strengths improvements) ;;
        answered <- db_query (answered_questions session_id) ;;
        let answered_count := Z.of_nat (List.length answered) in
        let is_last := InterviewSession.question_count session <=? answered_count in
        (if is_last then
           all_feedback <- db_query (feedback_of_session session_id) ;;
           current <- lift (as_int score) ;;
           let all_scores := (map QuestionFeedback.score all_feedback ++ [current])%list in
           final <- lift (truediv (sum all_scores)
                                  (Z.of_nat (List.length all_scores))) ;;
           db_add (SetFinalScore (InterviewSession.id session) final) ;;
           db_add (SetIsCompleted (InterviewSession.id session) "true")
         else ret tt) ;;
        db_commit ;;
        feedback <- refresh_feedback feedback_id ;;
        response <- lift (FeedbackResponse_model_validate feedback) ;;
        ret (mkSubmitAnswerResponse question_id response is_last is_last)
  end.

(** *** History *)

(** [ORDER BY created_at DESC]: rows with equal keys keep the order of
    the table. *)
Fixpoint insert_desc (s : InterviewSession.t) (l : list InterviewSession.t)
  : list InterviewSession.t :=
  match l with
  | [] => [s]
  | x :: r =>
      if InterviewSession.created_at x <=? InterviewSession.created_at s
      then s :: l
      else x :: insert_desc s r
  end.

Definition order_by_created_at_desc (l : list InterviewSession.t)
  : list InterviewSession.t :=
  fold_right insert_desc [] l.

(** [LIMIT n]: SQLite reads a negative [n] as no limit, PostgreSQL
    rejects the statement. *)
Definition sql_limit {A} (engine : Dialect) (n : Z) (rows : list A) : Result (list A) :=
  if n <? 0 then
    match engine with
    | SQLite => inr rows
    | PostgreSQL => inl StatementError
    end
  else inr (firstn (Z.to_nat n) rows).

(** [s.final_score or 0.0] *)
Definition score_or_zero (v : option Q) : Q :=
  match v with
  | Some q => if Qnum q =? 0 then 0%Q else q
  | None => 0%Q
  end.

Definition history_item (s : InterviewSession.t) : SessionHistoryItem :=
  mkSessionHistoryItem
    (InterviewSession.id s) (InterviewSession.role s) (InterviewSession.difficulty s)
    (InterviewSession.question_count s)
    (score_or_zero (InterviewSession.final_score s))
    (InterviewSession.created_at s).

Definition completed_sessions_of (user_id : string) (d : Database)
  : list InterviewSession.t :=
  filter (fun s => String.eqb (InterviewSession.user_id s) user_id
                   && String.eqb (InterviewSession.is_completed s) "true")
         (interview_sessions d).

(** [db.query(InterviewSession).filter(...).order_by(created_at.desc())
       .limit(limit).all()] *)
Definition select_history (user_id : string) (limit : Z) (d : Database)
  : Result (list InterviewSession.t) :=
  sql_limit (dialect d) limit
            (order_by_created_at_desc (completed_sessions_of user_id d)).

Definition get_history (user_id : string) (limit : Z) : M (list SessionHistoryItem) :=
  rows <- db_query (select_history user_id limit) ;;
  sessions <- lift rows ;;
  ret (map history_item sessions).

End InterviewService.

(* ================================================================= *)
(** ** Endpoints ([app/api/v1/endpoints/interviews.py]) *)

(** What a request leaves behind: its response, the durable state of the
    database when the session is closed, and the states it committed. *)
Record Outcome (A : Type) : Type := mkOutcome {
  response : Result A;
  database : Database;
  committed : list Database
}.
Arguments mkOutcome {A}.
Arguments response {A}.
Arguments database {A}.
Arguments committed {A}.

Definition run_request {A} (endpoint : M A) (db : Database) : Outcome A :=
  let '(r, s) := get_db endpoint db in mkOutcome r (durable s) (commits s).

Definition RequestValidationError : Exception :=
  HTTPException HTTP_422_UNPROCESSABLE "Unprocessable Entity".

(** [POST /interviews/start] *)
Definition start_interview (env : Env) (current_user : string)
           (data : StartInterviewRequest) (db : Database) : Outcome SessionResponse :=
  if StartInterviewRequest_valid data
  then run_request (InterviewService.start_session env current_user data) db
  else mkOutcome (inl RequestValidationError) db [].

(** [POST /interviews/{session_id}/questions/{question_id}/answer] *)
Definition submit_answer (env : Env) (current_user : string)
           (session_id question_id : string) (data : SubmitAnswerRequest) (db : Database)
  : Outcome SubmitAnswerResponse :=
  if SubmitAnswerRequest_valid data
  then run_request
         (InterviewService.submit_answer env session_id question_id current_user data) db
  else mkOutcome (inl RequestValidationError) db [].

(** [GET /interviews/history] *)
Definition get_history (current_user : string) (limit : Z) (db : Database)
  : Outcome (list SessionHistoryItem) :=
  run_request (InterviewService.get_history current_user limit) db.

(* ================================================================= *)
(** ** Vocabulary of the properties *)

(** The arithmetic mean of integer scores. *)
Definition mean (scores : list Z) : Q :=
  Qmake (InterviewService.sum scores) (Pos.of_nat (List.length scores)).

(** The question rows of a session. *)
Definition questions_of (session_id : string) (d : Database)
  : list InterviewQuestion.t :=
  filter (fun q => String.eqb (InterviewQuestion.session_id q) session_id)
         (interview_questions d).

(** What a read of question [question_id] of session [session_id] shows as
    its answer. *)
Definition stored_answer (question_id session_id : string) (d : Database)
  : option string :=
  match InterviewService.question_of_session question_id session_id d with
  | Some q => InterviewQuestion.user_answer q
  | None => None
  end.

(** The feedback rows linked to a question. *)
Definition stored_feedback (question_id : string) (d : Database)
  : list QuestionFeedback.t :=
  filter (fun f => String.eqb (QuestionFeedback.question_id f) question_id)
         (question_feedback d).

(** The statements a successful [submit_answer] hands to its one commit. *)
Definition completion_writes (s : InterviewSession.t) (final : option Q) : list Pending :=
  match final with
  | Some v => [SetFinalScore (InterviewSession.id s) v;
               SetIsCompleted (InterviewSession.id s) "true"]
  | None => []
  end.

(** A run of [submit_answer] on [db] that returns the response [r] and
    commits [db']: both lookups found a row, the question had no answer,
    the gateway returned a record, the completion test read the answers
    stored in [db], and [db'] is [db] after the writes of the request. *)
Definition accepted_submission (env : Env) (sid qid uid : string)
           (data : SubmitAnswerRequest) (db : Database)
           (r : SubmitAnswerResponse) (db' : Database) : Prop :=
  exists s q fd sc ov ss im final,
    InterviewService.session_of_user sid uid db = Some s /\
    InterviewService.question_of_session qid sid db = Some q /\
    InterviewService.truthy_text (InterviewQuestion.user_answer q) = false /\
    AIService.evaluate_answer
      (groq env) (InterviewQuestion.question_text q) (answer data)
      (InterviewSession.role s) (InterviewSession.difficulty s) = inr fd /\
    Py.getitem fd "score" = inr sc /\
    Py.getitem fd "overall_feedback" = inr ov /\
    Py.getitem fd "strengths" = inr ss /\
    Py.getitem fd "improvements" = inr im /\
    let is_last :=
      InterviewSession.question_count s
      <=? Z.of_nat (List.length (InterviewService.answered_questions sid db)) in
    let scores cur :=
      (map QuestionFeedback.score (InterviewService.feedback_of_session sid db)
         ++ [cur])%list in
    question_id r = qid /\
    is_last_question r = is_last /\
    session_complete r = is_last /\
    (if is_last
     then exists cur v,
         InterviewService.as_int sc = inr cur /\
         InterviewService.truediv (InterviewService.sum (scores cur))
                                  (Z.of_nat (List.length (scores cur))) = inr v /\
         final = Some v
     else final = None) /\
    execute_all ([SetUserAnswer (InterviewQuestion.id q) (answer data);
                  AddFeedback (uuid4 env 0) (InterviewQuestion.id q) sc ov ss im]
                   ++ completion_writes s final)%list db
    = inr db'.

(** The session row [start_session] adds. *)
Definition new_session (env : Env) (uid : string) (data : StartInterviewRequest)
  : InterviewSession.t :=
  InterviewSession.mk (uuid4 env 0) uid (req_role data) (req_difficulty data)
                      (req_question_count data) None "false" (now env).

(** The response [SessionResponse.model_validate] builds from a session
    row and the database it is read from. *)
Definition session_response (s : InterviewSession.t) (d : Database) : SessionResponse :=
  mkSessionResponse
    (InterviewSession.id s) (InterviewSession.role s)
    (InterviewSession.difficulty s) (InterviewSession.question_count s)
    (InterviewSession.final_score s) (InterviewSession.is_completed s)
    (InterviewSession.created_at s)
    (map QuestionResponse_model_validate
         (InterviewService.session_questions (InterviewSession.id s) d)).

(** The statements [add_questions] records, and the rows they insert when
    every text is a string. *)
Fixpoint question_writes (env : Env) (session_id : string) (idx : nat)
         (texts : list PyVal) : list Pending :=
  match texts with
  | [] => []
  | text :: rest =>
      AddQuestion (uuid4 env (S idx)) session_id text (Z.of_nat idx)
      :: question_writes env session_id (S idx) rest
  end.

Fixpoint new_questions (env : Env) (session_id : string) (idx : nat)
         (texts : list string) : list InterviewQuestion.t :=
  match texts with
  | [] => []
  | text :: rest =>
      InterviewQuestion.mk (uuid4 env (S idx)) session_id text None (Z.of_nat idx)
      :: new_questions env session_id (S idx) rest
  end.

(** Rows of one table before and after a request, position by position. *)
Definition question_unchanged_but_answer (q q' : InterviewQuestion.t) : Prop :=
  InterviewQuestion.id q' = InterviewQuestion.id q /\
  InterviewQuestion.session_id q' = InterviewQuestion.session_id q /\
  InterviewQuestion.question_text q' = InterviewQuestion.question_text q /\
  InterviewQuestion.order_index q' = InterviewQuestion.order_index q.

Definition session_unchanged_but_result (s s' : InterviewSession.t) : Prop :=
  InterviewSession.id s' = InterviewSession.id s /\
  InterviewSession.user_id s' = InterviewSession.user_id s /\
  InterviewSession.role s' = InterviewSession.role s /\
  InterviewSession.difficulty s' = InterviewSession.difficulty s /\
  InterviewSession.question_count s' = InterviewSession.question_count s /\
  InterviewSession.created_at s' = InterviewSession.created_at s.

(** The databases the application can be in: it starts empty, and every
    request to one of the two writing endpoints, whatever its outcome,
    leaves the next one. *)
Inductive reachable : Database -> Prop :=
| reachable_empty (engine : Dialect) : reachable (mkDatabase engine [] [] [])
| reachable_start_interview (env : Env) (uid : string) (data : StartInterviewRequest)
                            (db : Database) :
    reachable db -> reachable (database (start_interview env uid data db))
| reachable_submit_answer (env : Env) (uid sid qid : string)
                          (data : SubmitAnswerRequest) (db : Database) :
    reachable db -> reachable (database (submit_answer env uid sid qid data db)).

(** What holds of every such database: a stored answer is not empty, a
    session has at most [question_count] questions, a question belongs to
    a stored session, and no session is completed. *)
Record consistent (d : Database) : Prop := mkConsistent {
  answers_not_empty :
    forall q, In q (interview_questions d) ->
              InterviewQuestion.user_answer q <> Some "";
  questions_within_count :
    forall s, In s (interview_sessions d) ->
              Z.of_nat (List.length (questions_of (InterviewSession.id s) d))
              <= InterviewSession.question_count s;
  questions_have_session :
    forall q, In q (interview_questions d) ->
              exists s, In s (interview_sessions d) /\
                        InterviewSession.id s = InterviewQuestion.session_id q;
  sessions_open :
    forall s, In s (interview_sessions d) ->
              InterviewSession.is_completed s = "false" /\
              InterviewSession.final_score s = None
}.


(* ================================================================= *)
(** ** A concrete run

    One user starts a session of three questions and answers them; the
    provider returns four questions and scores outside of [0,100]. *)

Module Scenario.

Definition empty : Database := mkDatabase SQLite [] [] [].

Definition uuids (prefix : string) (n : nat) : string :=
  prefix ++ "-" ++ String (ascii_of_nat (48 + n)) "".

Definition questions_reply (texts : list string) : GroqReply :=
  Content (VDict [("questions", VList (map VStr texts))]).

Definition evaluation_reply (score : Z) (strengths improvements : list string)
  : GroqReply :=
  Content (VDict [("score", VInt score);
                  ("overall_feedback", VStr "Clear, but short.");
                  ("strengths", VList (map VStr strengths));
                  ("improvements", VList (map VStr improvements))]).

Definition request : StartInterviewRequest :=
  mkStartInterviewRequest "Backend Engineer" "Easy" 3.

Definition four_questions : list string :=
  ["What is an index?"; "What is a transaction?"; "What is a deadlock?";
   "What is sharding?"].

Definition started : Outcome SessionResponse :=
  start_interview (mkEnv (questions_reply four_questions) (uuids "s") 1000)
                  "alice" request empty.

Definition eight : list string := ["a"; "b"; "c"; "d"; "e"; "f"; "g"; "h"].

Definition my_answer : SubmitAnswerRequest := mkSubmitAnswerRequest "My answer.".

Definition first : Outcome SubmitAnswerResponse :=
  submit_answer (mkEnv (evaluation_reply 150 eight []) (uuids "f") 1001)
                "alice" "s-0" "s-2" my_answer (database started).

Definition second : Outcome SubmitAnswerResponse :=
  submit_answer (mkEnv (evaluation_reply 70 ["a"] ["b"]) (uuids "g") 1002)
                "alice" "s-0" "s-1" my_answer (database first).

Definition third_env : Env := mkEnv (evaluation_reply (-5) [] eight) (uuids "h") 1003.

Definition third : Outcome SubmitAnswerResponse :=
  submit_answer third_env "alice" "s-0" "s-3" my_answer (database second).

(** The provider is down when the third answer arrives. *)
Definition down_env : Env := mkEnv (HTTPStatusError "503 Service Unavailable") (uuids "h") 1003.

Definition third_down : Outcome SubmitAnswerResponse :=
  submit_answer down_env "alice" "s-0" "s-3" my_answer (database second).



(** Sessions of two users, for the read operations. *)
Definition history_db : Database :=
  mkDatabase SQLite
    [InterviewSession.mk "a" "alice" "Backend Engineer" "Easy" 3 (Some (170 # 3)) "true" 10;
     InterviewSession.mk "b" "bob" "Data Engineer" "Hard" 4 (Some (50 # 1)) "true" 20;
     InterviewSession.mk "c" "alice" "Backend Engineer" "Hard" 5 None "true" 30;
     InterviewSession.mk "d" "alice" "Backend Engineer" "Hard" 5 None "false" 40;
     InterviewSession.mk "e" "alice" "SRE" "Intermediate" 3 (Some (90 # 1)) "true" 25]
    [] [].

End Scenario.

(* ================================================================= *)
(** ** Further runs *)

Module Examples.

(** The provider lists a number among the strengths. *)
Definition unchecked_items_env : Env :=
  mkEnv (Content (VDict [("score", VInt 80);
                         ("overall_feedback", VStr "Good.");
                         ("strengths", VList [VInt 1]);
                         ("improvements", VList [])]))
        (Scenario.uuids "f") 1001.

Definition unchecked_items : Outcome SubmitAnswerResponse :=
  submit_answer unchecked_items_env "alice" "s-0" "s-2" Scenario.my_answer
                (database Scenario.started).

(** A second session, of another user, beside the one of [Scenario]. *)
Definition two_sessions : Database :=
  database (start_interview
              (mkEnv (Scenario.questions_reply Scenario.four_questions)
                     (Scenario.uuids "t") 2000)
              "bob" Scenario.request (database Scenario.second)).

End Examples.

(* ================================================================= *)
(** ** Further vocabulary: the rows of a reachable database *)

(** Answers and feedback go together: question ids are unique, a
    question has at most one feedback row, a feedback row belongs to an
    answered question, an answered question has a feedback row, and a
    stored score lies in [0,100]. *)
Record feedback_consistent (d : Database) : Prop := mkFeedbackConsistent {
  question_ids_unique :
    NoDup (map InterviewQuestion.id (interview_questions d));
  one_feedback_per_question :
    NoDup (map QuestionFeedback.question_id (question_feedback d));
  feedback_of_answered :
    forall f, In f (question_feedback d) ->
              exists q, In q (interview_questions d) /\
                        InterviewQuestion.id q = QuestionFeedback.question_id f /\
                        InterviewQuestion.user_answer q <> None;
  answered_has_feedback :
    forall q, In q (interview_questions d) ->
              InterviewQuestion.user_answer q <> None ->
              exists f, In f (question_feedback d) /\
                        QuestionFeedback.question_id f = InterviewQuestion.id q;
  scores_within_range :
    forall f, In f (question_feedback d) -> 0 <= QuestionFeedback.score f <= 100
}.

(** A session holds the questions it was created with: as many as its
    [question_count], numbered from 0 in the order of the table. *)
Definition questions_numbered (d : Database) : Prop :=
  forall s, In s (interview_sessions d) ->
    3 <= InterviewSession.question_count s <= 10 /\
    map InterviewQuestion.order_index (questions_of (InterviewSession.id s) d)
    = map Z.of_nat (seq 0 (Z.to_nat (InterviewSession.question_count s))).

(* ================================================================= *)
(** ** Analytics ([InterviewService.get_analytics], [_get_weekly_scores])

    The dashboard reads the completed sessions of a user.  Its numbers
    are floats rounded by Python's [round(x, 1)]; as for [final_score],
    a float is the rational it denotes, and which decimal the rounding of
    the binary value yields is left open: [round1] is a parameter of the
    service.  Instants ([created_at], the clock) are counted in
    microseconds since the epoch, the resolution of Python's [datetime],
    and a date is a number of days since the epoch. *)

Record AnalyticsResponse : Type := mkAnalyticsResponse {
  total_sessions : Z;
  average_score : Q;
  best_score : Q;
  weekly_scores : list Q
}.

Module InterviewAnalytics.

(** SQL [AVG] and [MAX] over a nullable column: nulls are skipped, and
    the aggregate of no value is NULL. *)
Definition non_null {A} (column : list (option A)) : list A :=
  flat_map (fun v => match v with Some x => [x] | None => [] end) column.

Definition sql_avg (column : list (option Q)) : option Q :=
  match non_null column with
  | [] => None
  | xs => Some (fold_left Qplus xs 0%Q / inject_Z (Z.of_nat (List.length xs)))%Q
  end.

Definition sql_max (column : list (option Q)) : option Q :=
  match non_null column with
  | [] => None
  | x :: xs => Some (fold_left (fun a b => if Qle_bool a b then b else a) xs x)
  end.

Definition microseconds_per_day : Z := 86400000000.

(** [instant.date()] of a UTC datetime *)
Definition date (instant : Z) : Z := instant / microseconds_per_day.

(** [datetime(day.year, day.month, day.day, tzinfo=timezone.utc)] *)
Definition midnight (day : Z) : Z := day * microseconds_per_day.

(** [filter(user_id == ..., is_completed == "true", final_score.isnot(None))] *)
Definition scored_sessions_of (user_id : string) (d : Database)
  : list InterviewSession.t :=
  filter (fun s => String.eqb (InterviewSession.user_id s) user_id
                   && String.eqb (InterviewSession.is_completed s) "true"
                   && InterviewService.isnot_None (InterviewSession.final_score s))
         (interview_sessions d).

(** [filter(user_id == ..., is_completed == "true",
            created_at >= day_start, created_at < day_end)] *)
Definition sessions_of_day (user_id : string) (day_start day_end : Z) (d : Database)
  : list InterviewSession.t :=
  filter (fun s => String.eqb (InterviewSession.user_id s) user_id
                   && String.eqb (InterviewSession.is_completed s) "true"
                   && (day_start <=? InterviewSession.created_at s)
                   && (InterviewSession.created_at s <? day_end))
         (interview_sessions d).

Section Runtime.

(** [round(x, 1)] *)
Variable round1 : Q -> Q.

(** The clock of the application server, read by
    [datetime.now(timezone.utc)]. *)
Variable clock : Z.

(** [for i in range(6, -1, -1): ...; result.append(...)] *)
Fixpoint weekly_loop (user_id : string) (today : Z) (days_back : list Z)
         (result : list Q) : M (list Q) :=
  match days_back with
  | [] => ret result
  | i :: rest =>
      let day := today - i in
      let day_start := midnight day in
      let day_end := day_start + microseconds_per_day in
      day_avg <- db_query
                   (fun d => sql_avg (map InterviewSession.final_score
                                          (sessions_of_day user_id day_start day_end d))) ;;
      weekly_loop user_id today rest
                  (result ++ [round1 (InterviewService.score_or_zero day_avg)])
  end.

Definition _get_weekly_scores (user_id : string) : M (list Q) :=
  let today := date clock in
  weekly_loop user_id today [6; 5; 4; 3; 2; 1; 0] [].

Definition get_analytics (user_id : string) : M AnalyticsResponse :=
  total <- db_query (fun d => Z.of_nat (List.length (scored_sessions_of user_id d))) ;;
  if total =? 0 then
    ret (mkAnalyticsResponse 0 0 0 (repeat 0%Q 7))
  else
    agg <- db_query
             (fun d =>
                let column := map InterviewSession.final_score
                                  (scored_sessions_of user_id d) in
                (sql_avg column, sql_max column)) ;;
    let avg_score := round1 (InterviewService.score_or_zero (fst agg)) in
    let best_score := round1 (InterviewService.score_or_zero (snd agg)) in
    weekly <- _get_weekly_scores user_id ;;
    ret (mkAnalyticsResponse total avg_score best_score weekly).

End Runtime.

End InterviewAnalytics.

(** [GET /interviews/analytics] *)
Definition get_analytics (round1 : Q -> Q) (clock : Z) (current_user : string)
           (db : Database) : Outcome AnalyticsResponse :=
  run_request (InterviewAnalytics.get_analytics round1 clock current_user) db.

(** The average the dashboard shows for one calendar day (UTC) of a
    user: over the completed sessions created on that day. *)
Definition daily_average (round1 : Q -> Q) (user_id : string) (d : Database) (day : Z)
  : Q :=
  round1
    (InterviewService.score_or_zero
       (InterviewAnalytics.sql_avg
          (map InterviewSession.final_score
               (filter (fun s =>
                          String.eqb (InterviewSession.user_id s) user_id
                          && String.eqb (InterviewSession.is_completed s) "true"
                          && (InterviewAnalytics.date (InterviewSession.created_at s)
                              =? day))
                       (interview_sessions d))))).

(** The session rows of one user. *)
Definition sessions_owned_by (user_id : string) (d : Database)
  : list InterviewSession.t :=
  filter (fun s => String.eqb (InterviewSession.user_id s) user_id)
         (interview_sessions d).

Module Dashboard.

(** Rounding to one decimal, half up, on the rationals: one candidate
    for [round1]. *)
Definition half_up (q : Q) : Q :=
  Qmake ((Qnum q * 20 + Zpos (Qden q)) / (2 * Zpos (Qden q))) 10.

(** The sessions of [Scenario.history_db] were created on day 0; the
    clock shows noon of day 5. *)
Definition noon_of_day_5 : Z :=
  5 * InterviewAnalytics.microseconds_per_day + 43200000000.

Definition of_alice : Outcome AnalyticsResponse :=
  get_analytics half_up noon_of_day_5 "alice" Scenario.history_db.

End Dashboard.

(* ================================================================= *)
(** ** The exchange with the Groq API, unpacked

    [GroqReply] above tells apart the ways [_extract_json] can end.  Here
    is what decides between them: the HTTP exchange itself, and the
    subscriptions [content["choices"][0]["message"]["content"]] on the
    parsed body. *)

Module GroqWire.

(** What a JSON parser does with a text. *)
Inductive Parsed : Type :=
| Decoded (v : PyVal)
| DecodeError (msg : string)     (* [json.JSONDecodeError], with [str(e)] *)
| ParserError (name : string).   (* any other exception *)

(** An [httpx.Response], as far as [_extract_json] reads it. *)
Record Response : Type := mkResponse {
  status_error : option string;  (* [str(e)] of what [raise_for_status()] raises *)
  json : Parsed                  (* [response.json()] *)
}.

Inductive Exchange : Type :=
| Failed (name : string)         (* [client.post] raised *)
| Responded (r : Response).

(** [v[k]] for a string key; [str(KeyError(k))] is the [repr] of the
    key. *)
Definition item (v : PyVal) (k : string) : GroqReply + PyVal :=
  match v with
  | VDict d =>
      match Py.dict_lookup k d with
      | Some x => inr x
      | None => inl (KeyError ("'" ++ k ++ "'"))
      end
  | _ => inl (OtherError "TypeError")
  end.

(** [v[0]]; the keys of a parsed object are strings, so 0 is none of
    them. *)
Definition first_item (v : PyVal) : GroqReply + PyVal :=
  match v with
  | VList (x :: _) => inr x
  | VList [] => inl (OtherError "IndexError")
  | VStr (String c _) => inr (VStr (String c EmptyString))
  | VStr EmptyString => inl (OtherError "IndexError")
  | VDict _ => inl (KeyError "0")
  | _ => inl (OtherError "TypeError")
  end.

Section Parser.

(** [json.loads] on a string *)
Variable json_loads : string -> Parsed.

Definition reply_of_parsed (p : Parsed) : GroqReply :=
  match p with
  | Decoded v => Content v
  | DecodeError msg => JSONDecodeError msg
  | ParserError name => OtherError name
  end.

(** [json.loads(raw_text)]: only [str] (and bytes) are accepted. *)
Definition loads (raw_text : PyVal) : GroqReply :=
  match raw_text with
  | VStr s => reply_of_parsed (json_loads s)
  | _ => OtherError "TypeError"
  end.

(** The body of the [try] block of [_extract_json]. *)
Definition unpack (r : Response) : GroqReply :=
  match status_error r with
  | Some msg => HTTPStatusError msg
  | None =>
      match json r with
      | Decoded content =>
          match item content "choices" with
          | inl e => e
          | inr choices =>
              match first_item choices with
              | inl e => e
              | inr choice =>
                  match item choice "message" with
                  | inl e => e
                  | inr message =>
                      match item message "content" with
                      | inl e => e
                      | inr raw_text => loads raw_text
                      end
                  end
              end
          end
      | DecodeError msg => JSONDecodeError msg
      | ParserError name => OtherError name
      end
  end.

Definition reply_of (x : Exchange) : GroqReply :=
  match x with
  | Failed name => TransportError name
  | Responded r => unpack r
  end.

End Parser.

(** The body of a chat completion whose one message carries [text]. *)
Definition completion (text : PyVal) : PyVal :=
  VDict [("id", VStr "chatcmpl-1");
         ("choices", VList [VDict [("index", VInt 0);
                                   ("message", VDict [("role", VStr "assistant");
                                                      ("content", text)])]])].

End GroqWire.

(* ================================================================= *)
(** ** Accounts ([app/models/user.py], [app/schemas/auth.py],
       [app/core/security.py], [app/services/auth_service.py],
       [app/api/v1/endpoints/auth.py])

    The [users] table is kept apart from [Database]: no interview
    operation reads it.  The libraries behind [app/core/security.py] and
    behind [EmailStr] are an interface, [Security]; the services are
    written against it.  The [WWW-Authenticate] header that both 401
    responses of [login] carry is left out of [HTTPException]. *)

Module User.
Record t : Type := mk {
  id : string;                 (* String(36), primary key *)
  email : string;              (* unique index *)
  name : string;
  hashed_password : string;
  is_active : bool;            (* default True *)
  is_verified : bool;          (* default False *)
  created_at : Z
}.
End User.

Record Security : Type := mkSecurity {
  (* [pwd_context.hash(plain)] with the salt it draws; bcrypt may refuse
     a password *)
  pwd_hash : string -> string -> Result string;
  (* [pwd_context.verify(plain, hashed)]; raises on a value that is no
     hash *)
  pwd_verify : string -> string -> Result bool;
  (* [jwt.encode({"sub": sub, "exp": exp, "iat": iat}, SECRET_KEY, ALGORITHM)] *)
  jwt_encode : string -> Z -> Z -> string;
  (* [EmailStr]: the normalised address, or a rejection *)
  validate_email : string -> option string;
  (* [settings.ACCESS_TOKEN_EXPIRE_MINUTES] *)
  expire_minutes : Z
}.

(** What a request to an account endpoint cannot determine itself. *)
Record AuthEnv : Type := mkAuthEnv {
  new_uuid : string;           (* [str(uuid.uuid4())] *)
  salt : string;               (* drawn by [pwd_context.hash] *)
  utcnow : Z;                  (* [datetime.now(timezone.utc)], microseconds *)
  server_now : Z               (* [func.now()] of the database server *)
}.

Record UserRegister : Type := mkUserRegister {
  reg_email : string;
  reg_name : string;
  reg_password : string
}.

Record UserLogin : Type := mkUserLogin {
  login_email : string;
  login_password : string
}.

Record UserResponse : Type := mkUserResponse {
  ur_email : string;
  ur_name : string;
  ur_id : string;
  ur_is_active : bool;
  ur_created_at : Z
}.

Record TokenResponse : Type := mkTokenResponse {
  access_token : string;
  token_type : string;
  token_user : UserResponse
}.

Definition HTTP_401_UNAUTHORIZED : Z := 401.
Definition HTTP_403_FORBIDDEN : Z := 403.

Module AuthSchemas.

(** [c.isalpha()] on an ASCII character *)
Definition isalpha (c : ascii) : bool :=
  let n := nat_of_ascii c in
  ((65 <=? n) && (n <=? 90) || (97 <=? n) && (n <=? 122))%nat.

(** [Field(..., min_length=lo, max_length=hi)] *)
Definition length_within (lo hi : nat) (s : string) : bool :=
  ((lo <=? String.length s) && (String.length s <=? hi))%nat.

(** [any(c.isalpha() for c in v)] *)
Definition password_must_have_letter (v : string) : bool :=
  existsb isalpha (list_ascii_of_string v).

(** The body of [POST /auth/register] parsed into a [UserRegister]. *)
Definition UserRegister_model_validate (sec : Security) (email name password : string)
  : Result UserRegister :=
  match validate_email sec email with
  | None => inl RequestValidationError
  | Some address =>
      if length_within 2 100 name
         && length_within 8 100 password
         && password_must_have_letter password
      then inr (mkUserRegister address name password)
      else inl RequestValidationError
  end.

(** The body of [POST /auth/login] parsed into a [UserLogin]. *)
Definition UserLogin_model_validate (sec : Security) (email password : string)
  : Result UserLogin :=
  match validate_email sec email with
  | None => inl RequestValidationError
  | Some address => inr (mkUserLogin address password)
  end.

(** [UserResponse.model_validate(user)]: the fields of [UserBase] are
    validated on the way out as well. *)
Definition UserResponse_model_validate (sec : Security) (u : User.t)
  : Result UserResponse :=
  match validate_email sec (User.email u) with
  | None => inl (PyError "ValidationError")
  | Some address =>
      if length_within 2 100 (User.name u)
      then inr (mkUserResponse address (User.name u) (User.id u)
                               (User.is_active u) (User.created_at u))
      else inl (PyError "ValidationError")
  end.

End AuthSchemas.

Module SecurityCore.

Definition hash_password (sec : Security) (env : AuthEnv) (plain_password : string)
  : Result string :=
  pwd_hash sec (salt env) plain_password.

Definition verify_password (sec : Security) (plain_password hashed_password : string)
  : Result bool :=
  pwd_verify sec plain_password hashed_password.

(** [expire = now + timedelta(minutes=...)] *)
Definition create_access_token (sec : Security) (env : AuthEnv) (subject : string)
  : string :=
  let now := utcnow env in
  let expire := now + expire_minutes sec * 60000000 in
  jwt_encode sec subject expire now.

End SecurityCore.

Module AuthService.

(** [db.query(User).filter(User.email == email).first()] *)
Definition user_by_email (email : string) (users : list User.t) : option User.t :=
  find (fun u => String.eqb (User.email u) email) users.

(** [db.query(User).filter(User.id == user_id).first()] *)
Definition user_by_id (user_id : string) (users : list User.t) : option User.t :=
  find (fun u => String.eqb (User.id u) user_id) users.

(** The INSERT of [db.commit()]: primary key and unique index. *)
Definition insert_user (u : User.t) (users : list User.t) : Result (list User.t) :=
  if existsb (fun u' => String.eqb (User.id u') (User.id u)
                        || String.eqb (User.email u') (User.email u)) users
  then inl IntegrityError
  else inr (users ++ [u])%list.

(** A request runs in the session of [get_db]: the table it leaves is
    the one it committed, or the one it found. *)
Definition register (sec : Security) (env : AuthEnv) (data : UserRegister)
           (users : list User.t) : Result TokenResponse * list User.t :=
  match user_by_email (reg_email data) users with
  | Some existing =>
      (inl (HTTPException HTTP_400_BAD_REQUEST
              "An account with this email already exists."), users)
  | None =>
      match SecurityCore.hash_password sec env (reg_password data) with
      | inl e => (inl e, users)
      | inr hashed =>
          let user := User.mk (new_uuid env) (reg_email data) (reg_name data) hashed
                              true false (server_now env) in
          match insert_user user users with
          | inl e => (inl e, users)
          | inr users' =>
              match user_by_id (User.id user) users' with
              | None => (inl (PyError "InvalidRequestError"), users')
              | Some user =>
                  let token := SecurityCore.create_access_token sec env (User.id user) in
                  match AuthSchemas.UserResponse_model_validate sec user with
                  | inl e => (inl e, users')
                  | inr response => (inr (mkTokenResponse token "bearer" response), users')
                  end
              end
          end
      end
  end.

Definition invalid_credentials_error : Exception :=
  HTTPException HTTP_401_UNAUTHORIZED "Invalid email or password.".

Definition login (sec : Security) (env : AuthEnv) (data : UserLogin)
           (users : list User.t) : Result TokenResponse :=
  match user_by_email (login_email data) users with
  | None => inl invalid_credentials_error
  | Some user =>
      match SecurityCore.verify_password sec (login_password data)
                                         (User.hashed_password user) with
      | inl e => inl e
      | inr false => inl invalid_credentials_error
      | inr true =>
          if negb (User.is_active user) then
            inl (HTTPException
                   HTTP_403_FORBIDDEN
                   "Your account has been disabled. Please contact support.")
          else
            let token := SecurityCore.create_access_token sec env (User.id user) in
            match AuthSchemas.UserResponse_model_validate sec user with
            | inl e => inl e
            | inr response => inr (mkTokenResponse token "bearer" response)
            end
      end
  end.

Definition get_user_by_id (user_id : string) (users : list User.t) : Result User.t :=
  match user_by_id user_id users with
  | None => inl (HTTPException HTTP_404_NOT_FOUND "User not found.")
  | Some user => inr user
  end.

End AuthService.

(** [POST /auth/register] *)
Definition register (sec : Security) (env : AuthEnv) (email name password : string)
           (users : list User.t) : Result TokenResponse * list User.t :=
  match AuthSchemas.UserRegister_model_validate sec email name password with
  | inl e => (inl e, users)
  | inr data => AuthService.register sec env data users
  end.

(** [POST /auth/login] *)
Definition login (sec : Security) (env : AuthEnv) (email password : string)
           (users : list User.t) : Result TokenResponse :=
  match AuthSchemas.UserLogin_model_validate sec email password with
  | inl e => inl e
  | inr data => AuthService.login sec env data users
  end.


Module Accounts.

(** A stand-in for the libraries: the hash is a dollar sign and the
    password, whatever the salt; an address is accepted when it is not
    empty. *)
Definition toy_verify (plain hashed : string) : Result bool :=
  match hashed with
  | String "$" rest => inr (String.eqb rest plain)
  | _ => inl (PyError "UnknownHashError")
  end.

Definition toy : Security :=
  mkSecurity
    (fun salt plain => inr (String "$" plain))
    toy_verify
    (fun sub exp iat => "jwt:" ++ sub)
    (fun email => if String.eqb email "" then None else Some email)
    1440.

Definition env1 : AuthEnv := mkAuthEnv "u-1" "na" 1000 1000.
Definition env2 : AuthEnv := mkAuthEnv "u-2" "cl" 2000 2000.

Definition after_alice : Result TokenResponse * list User.t :=
  register toy env1 "alice@example.com" "Alice" "correct horse 1" [].

Definition disabled_bob : User.t :=
  User.mk "u-7" "bob@example.com" "Bob" "$hunter2hunter2" false false 500.

End Accounts.

(* ################################################################# *)
(** * Properties *)

(* ================================================================= *)
(** ** Running code that holds a session *)

Ltac orm_simpl :=
  cbn [autoflush durable tx pending commits fst snd app execute_all execute] in *.

Ltac unfold_orm :=
  unfold run_request, get_db, db_commit, db_query, db_flush, db_add, db_close,
    db_rollback, rollback_state, SessionLocal, bind, ret, raise, lift in *;
  orm_simpl.

(** One step of a run whose result [H] records: case analysis on a value
    the run waits for; the cases that end the run otherwise contradict
    [H]. *)
Ltac step H :=
  match type of H with
  | context [match ?x with _ => _ end] =>
      lazymatch x with
      | context [match _ with _ => _ end] => fail
      | _ => idtac
      end;
      destruct x eqn:?; orm_simpl; try discriminate H
  end.

(** Closing or rolling back a session changes neither the durable state
    nor the record of commits. *)
Lemma run_request_eq {A} (m : M A) (db : Database) :
  run_request m db =
  mkOutcome (fst (m (SessionLocal db)))
            (durable (snd (m (SessionLocal db))))
            (commits (snd (m (SessionLocal db)))).
Proof.
  unfold run_request, get_db.
  destruct (m (SessionLocal db)) as [[e|a] s]; reflexivity.
Qed.

(* ================================================================= *)
(** ** Lists *)

Lemma find_none_iff {A} (f : A -> bool) (l : list A) :
  find f l = None <-> forall x, In x l -> f x = false.
Proof.
  split.
  - intros H x Hx. exact (find_none f l H x Hx).
  - induction l as [|a l IH]; intros H; [reflexivity|].
    simpl. rewrite (H a (or_introl eq_refl)). apply IH.
    intros x Hx. apply H. right. exact Hx.
Qed.

Lemma find_is_some {A} (f : A -> bool) (l : list A) (x : A) :
  In x l -> f x = true -> exists y, find f l = Some y.
Proof.
  intros Hin Hf. destruct (find f l) as [y|] eqn:E; [eauto|].
  rewrite (find_none f l E x Hin) in Hf. discriminate.
Qed.

Lemma filter_length_lt {A} (f g : A -> bool) (l : list A) (x : A) :
  (forall y, g y = true -> f y = true) ->
  In x l -> f x = true -> g x = false ->
  (List.length (filter g l) < List.length (filter f l))%nat.
Proof.
  intros Hgf. induction l as [|a l IH]; intros Hin Hf Hg; [destruct Hin|].
  assert (Hle : forall l', (List.length (filter g l') <= List.length (filter f l'))%nat).
  { induction l' as [|b l' IH']; simpl; [lia|].
    destruct (g b) eqn:Eg.
    - rewrite (Hgf b Eg). simpl. lia.
    - destruct (f b); simpl; lia. }
  simpl. destruct Hin as [->|Hin].
  - rewrite Hf, Hg. simpl. specialize (Hle l). lia.
  - specialize (IH Hin Hf Hg). destruct (g a) eqn:Eg.
    + rewrite (Hgf a Eg). simpl. lia.
    + destruct (f a); simpl; lia.
Qed.

(* ================================================================= *)
(** ** Python dictionaries *)

Lemma dict_lookup_none_keys (k : string) (d : list (string * PyVal)) :
  Py.dict_lookup k d = None <-> existsb (String.eqb k) (map fst d) = false.
Proof.
  induction d as [|[k' v] d IH]; simpl; [tauto|].
  destruct (String.eqb k k'); simpl; [split; discriminate | exact IH].
Qed.

Lemma dict_lookup_store_same (k : string) (v : PyVal) (d : list (string * PyVal)) :
  Py.dict_lookup k (Py.dict_store k v d) = Some v.
Proof.
  induction d as [|[k' v'] d IH]; simpl.
  - rewrite String.eqb_refl. reflexivity.
  - destruct (String.eqb k k') eqn:E; simpl; rewrite E; [reflexivity | exact IH].
Qed.

Lemma dict_lookup_store_other (k k' : string) (v : PyVal) (d : list (string * PyVal)) :
  String.eqb k' k = false ->
  Py.dict_lookup k' (Py.dict_store k v d) = Py.dict_lookup k' d.
Proof.
  intros Hne. induction d as [|[k0 v0] d IH]; simpl.
  - rewrite Hne. reflexivity.
  - destruct (String.eqb k k0) eqn:E; simpl.
    + apply String.eqb_eq in E. subst k0. rewrite Hne. reflexivity.
    + rewrite IH. reflexivity.
Qed.

Ltac dict_simpl :=
  repeat (rewrite dict_lookup_store_same
          || rewrite dict_lookup_store_other by reflexivity).

Lemma issubset_lookup (required : list string) (d : list (string * PyVal)) :
  Py.issubset required (map fst d) = true <->
  forall k, In k required -> exists v, Py.dict_lookup k d = Some v.
Proof.
  unfold Py.issubset. rewrite forallb_forall. split; intros H k Hk.
  - specialize (H k Hk). destruct (Py.dict_lookup k d) as [v|] eqn:E; [eauto|].
    apply dict_lookup_none_keys in E. congruence.
  - destruct (H k Hk) as [v Hv].
    destruct (existsb (String.eqb k) (map fst d)) eqn:E; [reflexivity|].
    apply dict_lookup_none_keys in E. congruence.
Qed.

Lemma clamp_range (z : Z) : 0 <= Py.clamp 0 100 z <= 100.
Proof. unfold Py.clamp. lia. Qed.

Lemma slice_list_5 {A} (l : list A) : Py.slice_list 5 l = firstn 5 l.
Proof. reflexivity. Qed.

Lemma substring_length (n : nat) (s : string) :
  (String.length (String.substring 0 n s) <= n)%nat.
Proof.
  revert n. induction s as [|c s IH]; intros [|n]; simpl; try lia.
  specialize (IH n). lia.
Qed.

Lemma slice_to_5_len (v v' : PyVal) (m : Z) :
  Py.slice_to 5 v = inr v' -> Py.len v' = inr m -> m <= 5.
Proof.
  destruct v; simpl; try discriminate; intros [= <-]; simpl; intros [= <-].
  - change (Py.slice_string 5 s)
      with (String.substring 0 (Nat.min 5 (String.length s)) s).
    pose proof (substring_length (Nat.min 5 (String.length s)) s) as H.
    lia.
  - rewrite slice_list_5. pose proof (firstn_le_length 5 l). lia.
Qed.

(* ================================================================= *)
(** ** The AI gateway *)

(** C6.  [evaluate_answer] on a parsed response object: when one of the
    keys [score], [overall_feedback], [strengths], [improvements] is
    missing, the call fails with 502 (UpstreamInvalid); a record that is
    returned carries the score clamped into [0,100] and [strengths] and
    [improvements] cut to their first five entries; and an integer score,
    in range or not, with lists of any length is never rejected. *)
Theorem evaluate_answer_validates_clamps_truncates :
  forall (d : list (string * PyVal)) (question answer role difficulty : string),
    let run :=
      AIService.evaluate_answer (Content (VDict d)) question answer role difficulty in
    ((exists k, In k AIService.required_keys /\ Py.dict_lookup k d = None) ->
     run = inl (HTTPException 502 "AI response missing required feedback fields.")
     /\ UpstreamInvalid (HTTPException 502 "AI response missing required feedback fields."))
    /\
    (forall r, run = inr r ->
       exists raw n strengths improvements strengths' improvements' overall,
         Py.dict_lookup "score" d = Some raw /\
         Py.int raw = inr n /\
         Py.dict_lookup "strengths" d = Some strengths /\
         Py.slice_to 5 strengths = inr strengths' /\
         Py.dict_lookup "improvements" d = Some improvements /\
         Py.slice_to 5 improvements = inr improvements' /\
         Py.dict_lookup "overall_feedback" d = Some overall /\
         Py.getitem r "score" = inr (VInt (Z.max 0 (Z.min 100 n))) /\
         0 <= Z.max 0 (Z.min 100 n) <= 100 /\
         Py.getitem r "strengths" = inr strengths' /\
         Py.getitem r "improvements" = inr improvements' /\
         Py.getitem r "overall_feedback" = inr overall /\
         (forall m, Py.len strengths' = inr m -> m <= 5) /\
         (forall m, Py.len improvements' = inr m -> m <= 5))
    /\
    (forall (z : Z) (strengths improvements : list PyVal) (overall : PyVal),
       Py.dict_lookup "score" d = Some (VInt z) ->
       Py.dict_lookup "strengths" d = Some (VList strengths) ->
       Py.dict_lookup "improvements" d = Some (VList improvements) ->
       Py.dict_lookup "overall_feedback" d = Some overall ->
       exists r,
         run = inr r /\
         Py.getitem r "score" = inr (VInt (Z.max 0 (Z.min 100 z))) /\
         Py.getitem r "strengths" = inr (VList (firstn 5 strengths)) /\
         Py.getitem r "improvements" = inr (VList (firstn 5 improvements)) /\
         Py.getitem r "overall_feedback" = inr overall).
Proof.
  intros d question answer role difficulty run. subst run.
  unfold AIService.evaluate_answer, ResultMonad.bind.
  cbn [AIService._extract_json Py.keys].
  split; [|split].
  - intros (k & Hk & Hnone).
    destruct (Py.issubset AIService.required_keys (map fst d)) eqn:E.
    + apply issubset_lookup with (k := k) in E; [|exact Hk].
      destruct E as [v Hv]. congruence.
    + split; reflexivity.
  - intros r.
    destruct (Py.issubset AIService.required_keys (map fst d)) eqn:E;
      [|discriminate].
    cbn [negb Py.getitem Py.get Py.setitem].
    pose proof (proj1 (issubset_lookup _ _) E) as Hall.
    destruct (Hall "score") as [raw Hraw]; [simpl; tauto|].
    destruct (Hall "strengths") as [st Hst]; [simpl; tauto|].
    destruct (Hall "improvements") as [im Him]; [simpl; tauto|].
    destruct (Hall "overall_feedback") as [ov Hov]; [simpl; tauto|].
    rewrite Hraw.
    destruct (Py.int raw) as [e|n] eqn:Hn; [discriminate|].
    rewrite dict_lookup_store_other by reflexivity. rewrite Hst.
    destruct (Py.slice_to 5 st) as [e|st'] eqn:Hst'; [discriminate|].
    rewrite !dict_lookup_store_other by reflexivity. rewrite Him.
    destruct (Py.slice_to 5 im) as [e|im'] eqn:Him'; [discriminate|].
    intros [= <-].
    exists raw, n, st, im, st', im', ov.
    cbn [Py.getitem].
    dict_simpl.
    rewrite Hov.
    repeat split; try reflexivity; try assumption; try lia.
    + intros m. apply slice_to_5_len with (v := st). exact Hst'.
    + intros m. apply slice_to_5_len with (v := im). exact Him'.
  - intros z st im ov Hraw Hst Him Hov.
    assert (E : Py.issubset AIService.required_keys (map fst d) = true).
    { apply issubset_lookup. intros k Hk. simpl in Hk.
      destruct Hk as [<-|[<-|[<-|[<-|[]]]]]; eauto. }
    rewrite E. cbn [negb Py.getitem Py.get Py.setitem].
    rewrite Hraw. cbn [Py.int Py.getitem Py.get Py.setitem].
    rewrite dict_lookup_store_other by reflexivity. rewrite Hst.
    cbn [Py.slice_to Py.getitem Py.get Py.setitem].
    rewrite !dict_lookup_store_other by reflexivity. rewrite Him.
    cbn [Py.slice_to Py.getitem Py.get Py.setitem].
    eexists. split; [reflexivity|].
    cbn [Py.getitem].
    dict_simpl.
    rewrite Hov. repeat split; reflexivity.
Qed.

Lemma evaluate_answer_validates_clamps_truncates_witness :
  AIService.evaluate_answer
    (Content (VDict [("score", VInt 80); ("strengths", VList []);
                     ("improvements", VList [])])) "q" "a" "r" "d"
  = inl (HTTPException 502 "AI response missing required feedback fields.")
  /\ (exists r,
        AIService.evaluate_answer
          (Scenario.evaluation_reply 150 Scenario.eight []) "q" "a" "r" "d" = inr r
        /\ Py.getitem r "score" = inr (VInt 100)
        /\ Py.getitem r "strengths"
           = inr (VList [VStr "a"; VStr "b"; VStr "c"; VStr "d"; VStr "e"]))
  /\ (exists r,
        AIService.evaluate_answer
          (Scenario.evaluation_reply (-5) [] Scenario.eight) "q" "a" "r" "d" = inr r
        /\ Py.getitem r "score" = inr (VInt 0)).
Proof.
  split; [|split].
  - apply (evaluate_answer_validates_clamps_truncates
             [("score", VInt 80); ("strengths", VList []); ("improvements", VList [])]
             "q" "a" "r" "d").
    exists "overall_feedback". split; [simpl; tauto | reflexivity].
  - destruct (evaluate_answer_validates_clamps_truncates
                [("score", VInt 150);
                 ("overall_feedback", VStr "Clear, but short.");
                 ("strengths", VList (map VStr Scenario.eight));
                 ("improvements", VList [])] "q" "a" "r" "d")
      as (_ & _ & H).
    destruct (H 150 (map VStr Scenario.eight) [] (VStr "Clear, but short.")
                eq_refl eq_refl eq_refl eq_refl) as (r & Hr & Hs & Hst & _).
    exists r. repeat split; assumption.
  - destruct (evaluate_answer_validates_clamps_truncates
                [("score", VInt (-5));
                 ("overall_feedback", VStr "Clear, but short.");
                 ("strengths", VList []);
                 ("improvements", VList (map VStr Scenario.eight))] "q" "a" "r" "d")
      as (_ & _ & H).
    destruct (H (-5) [] (map VStr Scenario.eight) (VStr "Clear, but short.")
                eq_refl eq_refl eq_refl eq_refl) as (r & Hr & Hs & _).
    exists r. repeat split; assumption.
Defined.

(* ================================================================= *)
(** ** Lookups that fail *)

(** C8.  [submit_answer] answers a session id that does not exist and a
    session id that belongs to another user with the same error, 404
    "Session not found." (NotFound), and writes nothing in either case:
    the response does not tell the two cases apart. *)
Theorem submit_answer_not_found_is_uniform :
  forall (env env' : Env) (user_id session_id question_id question_id' : string)
         (data : SubmitAnswerRequest) (absent foreign : Database),
    (forall s, In s (interview_sessions absent) ->
               InterviewSession.id s <> session_id) ->
    (exists s, In s (interview_sessions foreign) /\
               InterviewSession.id s = session_id /\
               InterviewSession.user_id s <> user_id) ->
    (forall s, In s (interview_sessions foreign) ->
               InterviewSession.id s = session_id ->
               InterviewSession.user_id s <> user_id) ->
    SubmitAnswerRequest_valid data = true ->
    let o := submit_answer env user_id session_id question_id data absent in
    let o' := submit_answer env' user_id session_id question_id' data foreign in
    response o = inl (HTTPException 404 "Session not found.") /\
    response o' = response o /\
    (forall e, response o = inl e -> NotFound e) /\
    database o = absent /\ committed o = [] /\
    database o' = foreign /\ committed o' = [].
Proof.
  intros env env' uid sid qid qid' data absent foreign Habs _ Hfor Hvalid o o'.
  assert (E : InterviewService.session_of_user sid uid absent = None).
  { apply find_none_iff. intros s Hs.
    destruct (String.eqb (InterviewSession.id s) sid) eqn:Eid; [|reflexivity].
    apply String.eqb_eq in Eid. destruct (Habs s Hs Eid). }
  assert (E' : InterviewService.session_of_user sid uid foreign = None).
  { apply find_none_iff. intros s Hs.
    destruct (String.eqb (InterviewSession.id s) sid) eqn:Eid; [|reflexivity].
    apply String.eqb_eq in Eid.
    destruct (String.eqb (InterviewSession.user_id s) uid) eqn:Eu; [|reflexivity].
    apply String.eqb_eq in Eu. destruct (Hfor s Hs Eid Eu). }
  subst o o'. unfold submit_answer. rewrite Hvalid.
  unfold InterviewService.submit_answer, InterviewService._get_session_for_user.
  unfold_orm. rewrite E, E'. cbn.
  repeat split; try reflexivity.
  intros e [= <-]. reflexivity.
Qed.

Lemma submit_answer_not_found_is_uniform_witness :
  response (submit_answer Scenario.third_env "alice" "s-9" "s-3" Scenario.my_answer
                          (database Scenario.second))
  = inl (HTTPException 404 "Session not found.")
  /\ response (submit_answer Scenario.third_env "bob" "s-0" "s-3" Scenario.my_answer
                             (database Scenario.second))
     = inl (HTTPException 404 "Session not found.").
Proof.
  split.
  - apply (submit_answer_not_found_is_uniform
             Scenario.third_env Scenario.third_env "alice" "s-9" "s-3" "s-3"
             Scenario.my_answer (database Scenario.second)
             (mkDatabase SQLite
                [InterviewSession.mk "s-9" "bob" "SRE" "Easy" 3 None "false" 5] [] [])).
    + vm_compute. intros s [<-|[]]. discriminate.
    + eexists. split; [left; reflexivity|]. split; [reflexivity | discriminate].
    + intros s [<-|[]] _. discriminate.
    + reflexivity.
  - destruct (submit_answer_not_found_is_uniform
                Scenario.third_env Scenario.third_env "bob" "s-0" "s-3" "s-3"
                Scenario.my_answer Scenario.empty (database Scenario.second))
      as (H1 & H2 & _).
    + intros s [].
    + vm_compute. eexists. split; [left; reflexivity|].
      split; [reflexivity | discriminate].
    + vm_compute. intros s [<-|[]] _. discriminate.
    + reflexivity.
    + rewrite H2. exact H1.
Defined.

(* ================================================================= *)
(** ** Anatomy of [submit_answer] *)

(** What a run of [submit_answer] that returns a response went through. *)
Lemma submit_answer_run
      (env : Env) (sid qid uid : string)
      (data : SubmitAnswerRequest) (db : Database)
      (r : SubmitAnswerResponse) (final_state : OrmSession) :
  InterviewService.submit_answer env sid qid uid data
                                 (SessionLocal db) = (inr r, final_state) ->
  accepted_submission env sid qid uid data db r (durable final_state) /\
  commits final_state = [durable final_state].
Proof.
  intros H. unfold accepted_submission.
  unfold InterviewService.submit_answer, InterviewService._get_session_for_user,
    InterviewService.refresh_feedback in H.
  unfold_orm.
  destruct (InterviewService.session_of_user sid uid db)
    as [s|] eqn:Hs; orm_simpl; [|discriminate H].
  destruct (InterviewService.question_of_session qid sid db)
    as [q|] eqn:Hq; orm_simpl; [|discriminate H].
  destruct (InterviewService.truthy_text (InterviewQuestion.user_answer q))
    eqn:Ht; orm_simpl; [discriminate H|].
  destruct (AIService.evaluate_answer _ _ _ _ _)
    as [e|fd] eqn:Hfd; orm_simpl; [discriminate H|].
  destruct (Py.getitem fd "score") as [e|sc] eqn:Hsc; orm_simpl; [discriminate H|].
  destruct (Py.getitem fd "overall_feedback")
    as [e|ov] eqn:Hov; orm_simpl; [discriminate H|].
  destruct (Py.getitem fd "strengths") as [e|ss] eqn:Hss; orm_simpl; [discriminate H|].
  destruct (Py.getitem fd "improvements")
    as [e|im] eqn:Him; orm_simpl; [discriminate H|].
  destruct (InterviewSession.question_count s <=? _) eqn:Hlast; orm_simpl.
  - destruct (InterviewService.as_int sc) as [e|cur] eqn:Hcur;
      orm_simpl; [discriminate H|].
    destruct (InterviewService.truediv _ _) as [e|v] eqn:Hv;
      orm_simpl; [discriminate H|].
    destruct (insert_feedback _ _ _ _ _ _ _) as [e|d1] eqn:Hins;
      orm_simpl; [discriminate H|].
    repeat step H.
    injection H as <- <-. split; [|reflexivity].
    exists s, q, fd, sc, ov, ss, im, (Some v). cbn. rewrite Hlast, Hins.
    repeat split; try assumption; try reflexivity.
    exists cur, v. repeat split; try reflexivity; assumption.
  - destruct (insert_feedback _ _ _ _ _ _ _) as [e|d1] eqn:Hins;
      orm_simpl; [discriminate H|].
    repeat step H.
    injection H as <- <-. split; [|reflexivity].
    exists s, q, fd, sc, ov, ss, im, None. cbn. rewrite Hlast, Hins.
    repeat split; try assumption; reflexivity.
Qed.

Lemma submit_answer_success
      (env : Env) (uid sid qid : string) (data : SubmitAnswerRequest)
      (db : Database) (r : SubmitAnswerResponse) :
  response (submit_answer env uid sid qid data db) = inr r ->
  SubmitAnswerRequest_valid data = true /\
  accepted_submission env sid qid uid data db r
                      (database (submit_answer env uid sid qid data db)) /\
  committed (submit_answer env uid sid qid data db)
  = [database (submit_answer env uid sid qid data db)].
Proof.
  unfold submit_answer.
  destruct (SubmitAnswerRequest_valid data); [|discriminate].
  rewrite run_request_eq.
  destruct (InterviewService.submit_answer env sid qid uid data (SessionLocal db))
    as [[e|r'] st] eqn:E; cbn; [discriminate|].
  intros [= ->]. split; [reflexivity|].
  apply submit_answer_run. exact E.
Qed.

(** The rows after the writes of an accepted submission. *)
Lemma submit_writes_effect
      (qid a fid : string) (sc ov ss im : PyVal) (s : InterviewSession.t)
      (final : option Q) (db db' : Database) :
  execute_all ([SetUserAnswer qid a; AddFeedback fid qid sc ov ss im]
                 ++ completion_writes s final)%list db = inr db' ->
  exists z text,
    bind_integer sc = inr z /\
    bind_text ov = inr text /\
    dialect db' = dialect db /\
    interview_questions db'
    = map (fun q => if String.eqb (InterviewQuestion.id q) qid
                    then InterviewQuestion.set_user_answer (Some a) q else q)
          (interview_questions db) /\
    question_feedback db'
    = (question_feedback db ++ [QuestionFeedback.mk fid qid z text ss im])%list /\
    interview_sessions db'
    = match final with
      | Some v =>
          map (fun x => if String.eqb (InterviewSession.id x) (InterviewSession.id s)
                        then InterviewSession.set_is_completed
                               "true" (InterviewSession.set_final_score (Some v) x)
                        else x)
              (interview_sessions db)
      | None => interview_sessions db
      end.
Proof.
  cbn [app execute_all execute].
  unfold insert_feedback.
  destruct (bind_integer sc) as [e|z] eqn:Hz; [discriminate|].
  destruct (bind_text ov) as [e|text] eqn:Ht; [discriminate|].
  match goal with |- context [if ?c then _ else _] => destruct c end;
    [discriminate|].
  destruct final as [v|]; cbn [completion_writes execute_all execute];
    intros [= <-]; exists z, text; cbn; repeat split; try reflexivity.
  rewrite map_map. apply map_ext. intros x.
  destruct (String.eqb (InterviewSession.id x) (InterviewSession.id s)) eqn:E;
    cbn; rewrite E; reflexivity.
Qed.

Lemma find_map_preserved {A} (p : A -> bool) (f : A -> A) (l : list A) :
  (forall x, p (f x) = p x) ->
  find p (map f l) = option_map f (find p l).
Proof.
  intros Hp. induction l as [|a l IH]; simpl; [reflexivity|].
  rewrite Hp. destruct (p a); [reflexivity | exact IH].
Qed.

Lemma Forall2_map_same {A} (R : A -> A -> Prop) (f : A -> A) (l : list A) :
  (forall x, In x l -> R x (f x)) -> Forall2 R l (map f l).
Proof.
  induction l as [|a l IH]; intros H; simpl; constructor.
  - apply H. left. reflexivity.
  - apply IH. intros x Hx. apply H. right. exact Hx.
Qed.

Lemma Forall2_same {A} (R : A -> A -> Prop) (l : list A) :
  (forall x, In x l -> R x x) -> Forall2 R l l.
Proof.
  intros H. rewrite <- (map_id l) at 2. apply Forall2_map_same. exact H.
Qed.

Lemma question_of_session_found (qid sid : string) (db : Database)
      (q : InterviewQuestion.t) :
  InterviewService.question_of_session qid sid db = Some q ->
  In q (interview_questions db) /\
  InterviewQuestion.id q = qid /\ InterviewQuestion.session_id q = sid.
Proof.
  intros H. apply find_some in H. destruct H as [Hin Hp].
  apply andb_true_iff in Hp. destruct Hp as [H1 H2].
  apply String.eqb_eq in H1, H2. auto.
Qed.

Lemma session_of_user_found (sid uid : string) (db : Database)
      (s : InterviewSession.t) :
  InterviewService.session_of_user sid uid db = Some s ->
  In s (interview_sessions db) /\
  InterviewSession.id s = sid /\ InterviewSession.user_id s = uid.
Proof.
  intros H. apply find_some in H. destruct H as [Hin Hp].
  apply andb_true_iff in Hp. destruct Hp as [H1 H2].
  apply String.eqb_eq in H1, H2. auto.
Qed.

Lemma valid_answer_nonempty (data : SubmitAnswerRequest) :
  SubmitAnswerRequest_valid data = true -> answer data <> "".
Proof.
  unfold SubmitAnswerRequest_valid. intros H E. rewrite E in H. discriminate.
Qed.

Lemma truthy_text_some (a : string) :
  a <> "" -> InterviewService.truthy_text (Some a) = true.
Proof.
  intros H. simpl. destruct (String.eqb a "") eqn:E; [|reflexivity].
  apply String.eqb_eq in E. contradiction.
Qed.

(* ================================================================= *)
(** ** Answers are written once *)

(** A question whose stored answer is not empty rejects a further
    [submit_answer] with 400; the failed call writes nothing. *)
Lemma nonempty_answer_rejects_resubmission :
  forall (env : Env) (uid sid qid : string) (data : SubmitAnswerRequest)
         (db : Database) (s : InterviewSession.t) (q : InterviewQuestion.t)
         (a : string),
    SubmitAnswerRequest_valid data = true ->
    InterviewService.session_of_user sid uid db = Some s ->
    InterviewService.question_of_session qid sid db = Some q ->
    InterviewQuestion.user_answer q = Some a ->
    a <> "" ->
    let o := submit_answer env uid sid qid data db in
    response o = inl (HTTPException 400 "This question has already been answered.") /\
    (forall e, response o = inl e -> AlreadyAnswered e) /\
    database o = db /\
    committed o = [] /\
    stored_answer qid sid (database o) = Some a /\
    question_feedback (database o) = question_feedback db.
Proof.
  intros env uid sid qid data db s q a Hvalid Hs Hq Ha Hne o.
  assert (E : o = mkOutcome
                    (inl (HTTPException 400 "This question has already been answered."))
                    db []).
  { subst o. unfold submit_answer. rewrite Hvalid.
    unfold InterviewService.submit_answer, InterviewService._get_session_for_user.
    unfold_orm. rewrite Hs. cbn. rewrite Hq. cbn.
    rewrite Ha, (truthy_text_some a Hne). reflexivity. }
  rewrite E. cbn. repeat split.
  - intros e [= <-]. reflexivity.
  - unfold stored_answer. rewrite Hq. exact Ha.
Qed.

(** An accepted submission stores the submitted, non-empty answer, where
    the next call finds it. *)
Lemma accepted_submission_stores_answer
      (env : Env) (uid sid qid : string) (data : SubmitAnswerRequest)
      (db : Database) (r : SubmitAnswerResponse) :
  response (submit_answer env uid sid qid data db) = inr r ->
  answer data <> "" /\
  exists s q,
    InterviewService.session_of_user
      sid uid (database (submit_answer env uid sid qid data db)) = Some s /\
    InterviewService.question_of_session
      qid sid (database (submit_answer env uid sid qid data db)) = Some q /\
    InterviewQuestion.user_answer q = Some (answer data).
Proof.
  intros H. apply submit_answer_success in H.
  destruct H as (Hvalid & Hacc & _).
  split; [apply valid_answer_nonempty; exact Hvalid|].
  destruct Hacc as (s & q & fd & sc & ov & ss & im & final & Hs & Hq & _ & _ & _
                    & _ & _ & _ & _ & _ & _ & _ & Hexec).
  apply submit_writes_effect in Hexec.
  destruct Hexec as (z & text & _ & _ & _ & Hqs & _ & Hss).
  destruct (question_of_session_found _ _ _ _ Hq) as (_ & Hid & _).
  unfold InterviewService.session_of_user, InterviewService.question_of_session in *.
  rewrite Hqs, Hss.
  assert (Hq' : find (fun q0 => String.eqb (InterviewQuestion.id q0) qid
                                && String.eqb (InterviewQuestion.session_id q0) sid)
                     (map (fun q0 =>
                             if String.eqb (InterviewQuestion.id q0) (InterviewQuestion.id q)
                             then InterviewQuestion.set_user_answer (Some (answer data)) q0
                             else q0) (interview_questions db))
                = Some (InterviewQuestion.set_user_answer (Some (answer data)) q)).
  { rewrite find_map_preserved.
    - rewrite Hq. cbn. rewrite String.eqb_refl. reflexivity.
    - intros x.
      destruct (String.eqb (InterviewQuestion.id x) (InterviewQuestion.id q));
        reflexivity. }
  destruct final as [v|].
  - eexists. eexists. split; [|split; [exact Hq' | reflexivity]].
    rewrite find_map_preserved.
    + rewrite Hs. reflexivity.
    + intros x.
      destruct (String.eqb (InterviewSession.id x) (InterviewSession.id s));
        reflexivity.
  - exists s. eexists. split; [exact Hs|]. split; [exact Hq' | reflexivity].
Qed.

(* ================================================================= *)
(** ** A gateway failure during [submit_answer] *)

(** C2, as stated, fails: the provider answers the third submission with
    a 5xx status, the 503 (UpstreamUnavailable) reaches the caller, and a
    read of the question afterwards shows no answer. *)
Lemma failed_evaluation_does_not_keep_answer :
  stored_answer "s-3" "s-0" (database Scenario.second) = None /\
  (exists e, response Scenario.third_down = inl e /\ UpstreamUnavailable e) /\
  ~ (exists a, stored_answer "s-3" "s-0" (database Scenario.third_down) = Some a).
Proof.
  split; [vm_compute; reflexivity|]. split.
  - eexists. split; vm_compute; reflexivity.
  - intros [a Ha]. vm_compute in Ha. discriminate Ha.
Qed.

(** C2 (amended).  When the evaluation of a so far unanswered question
    fails, the exception reaches the caller and nothing is written: the
    assignment of the answer was never flushed, so the question still
    reads as unanswered, has no feedback, and can be submitted again. *)
Theorem submit_answer_failed_evaluation_writes_nothing :
  forall (env : Env) (uid sid qid : string) (data : SubmitAnswerRequest)
         (db : Database) (s : InterviewSession.t) (q : InterviewQuestion.t)
         (e : Exception),
    SubmitAnswerRequest_valid data = true ->
    InterviewService.session_of_user sid uid db = Some s ->
    InterviewService.question_of_session qid sid db = Some q ->
    InterviewQuestion.user_answer q = None ->
    AIService.evaluate_answer
      (groq env) (InterviewQuestion.question_text q) (answer data)
      (InterviewSession.role s) (InterviewSession.difficulty s) = inl e ->
    let o := submit_answer env uid sid qid data db in
    response o = inl e /\
    database o = db /\
    committed o = [] /\
    stored_answer qid sid (database o) = None /\
    stored_feedback qid (database o) = stored_feedback qid db.
Proof.
  intros env uid sid qid data db s q e Hvalid Hs Hq Ha He o.
  assert (E : o = mkOutcome (inl e) db []).
  { subst o. unfold submit_answer. rewrite Hvalid.
    unfold InterviewService.submit_answer, InterviewService._get_session_for_user.
    unfold_orm. rewrite Hs. cbn. rewrite Hq. cbn. rewrite Ha. cbn.
    rewrite He. reflexivity. }
  rewrite E. cbn. repeat split.
  unfold stored_answer. rewrite Hq. exact Ha.
Qed.

Lemma submit_answer_failed_evaluation_writes_nothing_witness :
  response Scenario.third_down
  = inl (HTTPException 503 "AI service error: 503 Service Unavailable")
  /\ database Scenario.third_down = database Scenario.second
  /\ stored_answer "s-3" "s-0" (database Scenario.third_down) = None.
Proof.
  pose proof (submit_answer_failed_evaluation_writes_nothing
                Scenario.down_env "alice" "s-0" "s-3" Scenario.my_answer
                (database Scenario.second)
                (InterviewSession.mk "s-0" "alice" "Backend Engineer" "Easy" 3
                                     None "false" 1000)
                (InterviewQuestion.mk "s-3" "s-0" "What is a deadlock?" None 2)
                (HTTPException 503 "AI service error: 503 Service Unavailable")) as H.
  cbv zeta in H.
  destruct H as (H1 & H2 & _ & H3 & _).
  - reflexivity.
  - vm_compute. reflexivity.
  - vm_compute. reflexivity.
  - reflexivity.
  - reflexivity.
  - repeat split; assumption.
Defined.

(* ================================================================= *)
(** ** What an accepted submission changes *)

(** C10.  A successful [submit_answer] on question [qid] of session [sid]
    leaves every row of the three tables in place and changes only this:
    the question's [user_answer] becomes the submitted text, one feedback
    row linked to the question is appended, and, when the call reports
    completion, the session's [final_score] and [is_completed] are set.
    Every other question, every feedback row stored before, the text and
    order index of the question, and role, difficulty and question count of
    the session are as before. *)
Theorem submit_answer_frame :
  forall (env : Env) (uid sid qid : string) (data : SubmitAnswerRequest)
         (db : Database) (r : SubmitAnswerResponse),
    let o := submit_answer env uid sid qid data db in
    response o = inr r ->
    Forall2 (fun q q' =>
               question_unchanged_but_answer q q' /\
               (InterviewQuestion.id q <> qid -> q' = q) /\
               (InterviewQuestion.id q = qid ->
                InterviewQuestion.user_answer q' = Some (answer data)))
            (interview_questions db) (interview_questions (database o)) /\
    (exists f,
        question_feedback (database o) = (question_feedback db ++ [f])%list /\
        QuestionFeedback.question_id f = qid) /\
    Forall2 (fun s s' =>
               session_unchanged_but_result s s' /\
               (InterviewSession.id s <> sid -> s' = s) /\
               (session_complete r = false -> s' = s) /\
               (InterviewSession.id s = sid -> session_complete r = true ->
                InterviewSession.is_completed s' = "true" /\
                exists v, InterviewSession.final_score s' = Some v))
            (interview_sessions db) (interview_sessions (database o)) /\
    dialect (database o) = dialect db.
Proof.
  intros env uid sid qid data db r o H. subst o.
  apply submit_answer_success in H. destruct H as (_ & Hacc & _).
  destruct Hacc as (s & q & fd & sc & ov & ss & im & final & Hs & Hq & _ & _ & _
                    & _ & _ & _ & _ & _ & Hcomplete & Hfinal & Hexec).
  apply submit_writes_effect in Hexec.
  destruct Hexec as (z & text & _ & _ & Hd & Hqs & Hfs & Hss).
  destruct (question_of_session_found _ _ _ _ Hq) as (_ & Hqid & _).
  destruct (session_of_user_found _ _ _ _ Hs) as (_ & Hsid & _).
  rewrite Hqid in Hqs, Hfs. rewrite Hsid in Hss.
  rewrite Hqs, Hfs, Hss.
  split; [|split; [|split; [|exact Hd]]].
  - apply Forall2_map_same. intros x _.
    destruct (String.eqb (InterviewQuestion.id x) qid) eqn:E.
    + apply String.eqb_eq in E.
      split; [repeat split|]. split; [intros Hne; contradiction | reflexivity].
    + apply String.eqb_neq in E.
      split; [repeat split|]. split; [reflexivity | intros He; contradiction].
  - eexists. split; reflexivity.
  - destruct final as [v|].
    + apply Forall2_map_same. intros x _.
      destruct (String.eqb (InterviewSession.id x) sid) eqn:E.
      * apply String.eqb_eq in E.
        split; [repeat split|]. split; [intros Hne; contradiction|].
        split.
        -- intros Hno. rewrite Hno in Hcomplete.
           rewrite <- Hcomplete in Hfinal. discriminate Hfinal.
        -- intros _ _. split; [reflexivity|]. exists v. reflexivity.
      * apply String.eqb_neq in E.
        split; [repeat split|]. split; [reflexivity|]. split; [reflexivity|].
        intros He. contradiction.
    + apply Forall2_same. intros x _.
      split; [repeat split|]. split; [reflexivity|]. split; [reflexivity|].
      intros _ Hyes. rewrite Hyes in Hcomplete.
      rewrite <- Hcomplete in Hfinal.
      destruct Hfinal as (cur & v & _ & _ & Hv). discriminate Hv.
Qed.

Lemma submit_answer_frame_witness :
  exists r,
    response Scenario.first = inr r /\
    session_complete r = false /\
    Forall2 (fun s s' =>
               session_unchanged_but_result s s' /\
               (InterviewSession.id s <> "s-0" -> s' = s) /\
               (session_complete r = false -> s' = s) /\
               (InterviewSession.id s = "s-0" -> session_complete r = true ->
                InterviewSession.is_completed s' = "true" /\
                exists v, InterviewSession.final_score s' = Some v))
            (interview_sessions (database Scenario.started))
            (interview_sessions (database Scenario.first)).
Proof.
  eexists. split; [vm_compute; reflexivity|]. split; [reflexivity|].
  apply (submit_answer_frame
           (mkEnv (Scenario.evaluation_reply 150 Scenario.eight [])
                  (Scenario.uuids "f") 1001)
           "alice" "s-0" "s-2" Scenario.my_answer (database Scenario.started)).
  vm_compute. reflexivity.
Defined.

(* ================================================================= *)
(** ** Completion *)

(** The arithmetic of [final_score]. *)
Lemma truediv_mean (scores : list Z) :
  scores <> [] ->
  InterviewService.truediv (InterviewService.sum scores)
                           (Z.of_nat (List.length scores)) = inr (mean scores).
Proof.
  destruct scores as [|z l]; [congruence|]. intros _.
  unfold mean. cbn [List.length]. rewrite Nat2Z.inj_succ.
  unfold InterviewService.truediv.
  rewrite <- Nat2Z.inj_succ. cbn [Z.of_nat].
  rewrite Pos.of_nat_succ. reflexivity.
Qed.

(** Whatever the provider sent, the score of a record that
    [evaluate_answer] returns is an integer of [0,100]. *)
Lemma evaluate_answer_score_range
      (reply : GroqReply) (question answer role difficulty : string)
      (fd sc : PyVal) (cur : Z) :
  AIService.evaluate_answer reply question answer role difficulty = inr fd ->
  Py.getitem fd "score" = inr sc ->
  InterviewService.as_int sc = inr cur ->
  0 <= cur <= 100.
Proof.
  unfold AIService.evaluate_answer, ResultMonad.bind.
  destruct (AIService._extract_json reply "answer evaluation") as [e|data];
    [discriminate|].
  destruct data as [| | | | |l|d]; cbn [Py.keys]; try discriminate.
  destruct (Py.issubset AIService.required_keys (map fst d)); [|discriminate].
  cbn [negb Py.getitem Py.get Py.setitem].
  destruct (Py.dict_lookup "score" d) as [raw|]; [|discriminate].
  destruct (Py.int raw) as [e|n]; [discriminate|].
  rewrite dict_lookup_store_other by reflexivity.
  destruct (Py.dict_lookup "strengths" d) as [st|];
    (destruct (Py.slice_to 5 _) as [e|st']; [discriminate|]);
    rewrite !dict_lookup_store_other by reflexivity;
    (destruct (Py.dict_lookup "improvements" d) as [im|];
     (destruct (Py.slice_to 5 _) as [e|im']; [discriminate|]);
     intros [= <-]; cbn [Py.getitem]; dict_simpl;
     intros [= <-]; cbn [InterviewService.as_int]; intros [= <-];
     apply clamp_range).
Qed.

(** When [submit_answer] reports completion, the score it stores is the
    mean of the scores of the feedback stored before the request and of
    the score just returned. *)
Lemma completion_averages_stored_and_current
      (env : Env) (uid sid qid : string) (data : SubmitAnswerRequest)
      (db : Database) (r : SubmitAnswerResponse) :
  response (submit_answer env uid sid qid data db) = inr r ->
  session_complete r = true ->
  exists cur,
    0 <= cur <= 100 /\
    Forall2 (fun s s' =>
               InterviewSession.id s = sid ->
               InterviewSession.final_score s'
               = Some (mean (map QuestionFeedback.score
                                 (InterviewService.feedback_of_session sid db)
                               ++ [cur])%list))
            (interview_sessions db)
            (interview_sessions (database (submit_answer env uid sid qid data db))).
Proof.
  intros H Hyes.
  apply submit_answer_success in H. destruct H as (_ & Hacc & _).
  destruct Hacc as (s & q & fd & sc & ov & ss & im & final & Hs & Hq & _ & Hfd & Hsc
                    & _ & _ & _ & _ & _ & Hcomplete & Hfinal & Hexec).
  rewrite Hyes in Hcomplete. rewrite <- Hcomplete in Hfinal.
  destruct Hfinal as (cur & v & Hcur & Hv & ->).
  rewrite truediv_mean in Hv by (intros E; apply app_eq_nil in E; destruct E; discriminate).
  injection Hv as <-.
  apply submit_writes_effect in Hexec.
  destruct Hexec as (z & text & _ & _ & _ & _ & _ & Hss).
  destruct (session_of_user_found _ _ _ _ Hs) as (_ & Hsid & _).
  rewrite Hsid in Hss. rewrite Hss.
  exists cur. split.
  - exact (evaluate_answer_score_range _ _ _ _ _ _ _ _ Hfd Hsc Hcur).
  - apply Forall2_map_same. intros x _ Hx.
    apply String.eqb_eq in Hx. rewrite Hx. reflexivity.
Qed.

(** The completion test of [submit_answer] counts the answers stored
    before the request: the answer being submitted is assigned but not
    flushed when the count is read. *)
Lemma completion_test_reads_stored_answers
      (env : Env) (uid sid qid : string) (data : SubmitAnswerRequest)
      (db : Database) (r : SubmitAnswerResponse) :
  response (submit_answer env uid sid qid data db) = inr r ->
  exists s,
    InterviewService.session_of_user sid uid db = Some s /\
    is_last_question r
    = (InterviewSession.question_count s
       <=? Z.of_nat (List.length (InterviewService.answered_questions sid db))) /\
    session_complete r = is_last_question r.
Proof.
  intros H. apply submit_answer_success in H. destruct H as (_ & Hacc & _).
  destruct Hacc as (s & q & fd & sc & ov & ss & im & final & Hs & _ & _ & _ & _
                    & _ & _ & _ & _ & Hlast & Hcomplete & _).
  exists s. split; [exact Hs|]. split; [exact Hlast|].
  rewrite Hlast, Hcomplete. reflexivity.
Qed.

(** The answers counted by the completion test fall short of
    [question_count] as long as the question being answered is open. *)
Lemma stored_answers_below_count
      (sid qid : string) (db : Database)
      (s : InterviewSession.t) (q : InterviewQuestion.t) :
  InterviewService.question_of_session qid sid db = Some q ->
  InterviewQuestion.user_answer q = None ->
  Z.of_nat (List.length (questions_of sid db)) <= InterviewSession.question_count s ->
  (InterviewSession.question_count s
   <=? Z.of_nat (List.length (InterviewService.answered_questions sid db))) = false.
Proof.
  intros Hq Hnone Hcount.
  destruct (question_of_session_found _ _ _ _ Hq) as (Hin & _ & Hsid).
  assert (Hlt : (List.length (InterviewService.answered_questions sid db)
                 < List.length (questions_of sid db))%nat).
  { unfold InterviewService.answered_questions, questions_of.
    apply filter_length_lt with (x := q).
    - intros y Hy. apply andb_true_iff in Hy. tauto.
    - exact Hin.
    - apply String.eqb_eq. exact Hsid.
    - rewrite Hnone. apply andb_false_r. }
  apply Z.leb_gt. lia.
Qed.

(** In a session that holds no more questions than its [question_count],
    no successful [submit_answer] on an unanswered question reports
    completion, not even the one that answers the last open question. *)
Lemma open_session_never_reports_completion :
  forall (env : Env) (uid sid qid : string) (data : SubmitAnswerRequest)
         (db : Database) (s : InterviewSession.t) (r : SubmitAnswerResponse),
    InterviewService.session_of_user sid uid db = Some s ->
    Z.of_nat (List.length (questions_of sid db))
    <= InterviewSession.question_count s ->
    stored_answer qid sid db = None ->
    let o := submit_answer env uid sid qid data db in
    response o = inr r ->
    is_last_question r = false /\
    session_complete r = false /\
    interview_sessions (database o) = interview_sessions db.
Proof.
  intros env uid sid qid data db s r Hs Hcount Hnone o H. subst o.
  apply submit_answer_success in H. destruct H as (_ & Hacc & _).
  destruct Hacc as (s' & q & fd & sc & ov & ss & im & final & Hs' & Hq & _ & _ & _
                    & _ & _ & _ & _ & Hlast & Hcomplete & Hfinal & Hexec).
  rewrite Hs in Hs'. injection Hs' as <-.
  unfold stored_answer in Hnone. rewrite Hq in Hnone.
  pose proof (stored_answers_below_count sid qid db s q Hq Hnone Hcount) as Hfalse.
  rewrite Hfalse in Hlast, Hcomplete, Hfinal. subst final.
  apply submit_writes_effect in Hexec.
  destruct Hexec as (z & text & _ & _ & _ & _ & _ & Hss).
  auto.
Qed.


(* ================================================================= *)
(** ** Anatomy of [start_session] *)

Lemma add_questions_run (env : Env) (sid : string) (items : list PyVal) :
  forall (idx : nat) (s : OrmSession),
    InterviewService.add_questions env sid idx items s
    = (inr tt, mkOrmSession (autoflush s) (durable s) (tx s)
                            (pending s ++ question_writes env sid idx items)%list
                            (commits s)).
Proof.
  induction items as [|text items IH]; intros idx s.
  - cbn. rewrite app_nil_r. destruct s. reflexivity.
  - cbn [InterviewService.add_questions question_writes].
    unfold bind, db_add at 1. rewrite IH. cbn.
    rewrite <- app_assoc. reflexivity.
Qed.

(** The statements of the questions succeed only on strings, and then
    append one row per text, in order. *)
Lemma execute_question_writes (env : Env) (sid : string) (items : list PyVal) :
  forall (idx : nat) (d d' : Database),
    execute_all (question_writes env sid idx items) d = inr d' ->
    exists texts,
      items = map VStr texts /\
      dialect d' = dialect d /\
      interview_sessions d' = interview_sessions d /\
      interview_questions d'
      = (interview_questions d ++ new_questions env sid idx texts)%list /\
      question_feedback d' = question_feedback d.
Proof.
  induction items as [|text items IH]; intros idx d d'.
  - cbn. intros [= <-]. exists []. cbn. rewrite app_nil_r. auto.
  - cbn [question_writes execute_all execute]. unfold insert_question.
    destruct (bind_text text) as [e|t] eqn:Ht; [discriminate|].
    destruct (existsb _ _); [discriminate|].
    intros H. apply IH in H.
    destruct H as (texts & -> & Hd & Hs & Hq & Hf). cbn in Hd, Hs, Hq, Hf.
    destruct text; try discriminate Ht. injection Ht as ->.
    exists (t :: texts). cbn. rewrite Hq, <- app_assoc. auto.
Qed.

Lemma new_questions_shape (env : Env) (sid : string) (texts : list string) :
  forall idx,
    List.length (new_questions env sid idx texts) = List.length texts /\
    map InterviewQuestion.question_text (new_questions env sid idx texts) = texts /\
    map InterviewQuestion.order_index (new_questions env sid idx texts)
    = map Z.of_nat (seq idx (List.length texts)) /\
    map InterviewQuestion.id (new_questions env sid idx texts)
    = map (fun i => uuid4 env (S i)) (seq idx (List.length texts)) /\
    Forall (fun q => InterviewQuestion.session_id q = sid /\
                     InterviewQuestion.user_answer q = None)
           (new_questions env sid idx texts).
Proof.
  induction texts as [|t texts IH]; intros idx; cbn.
  - repeat split; constructor.
  - destruct (IH (S idx)) as (H1 & H2 & H3 & H4 & H5).
    rewrite H1, H2, H3, H4. repeat split; try reflexivity.
    constructor; [split; reflexivity | exact H5].
Qed.

(** [start_session], step by step: the session row is flushed, the
    gateway is asked, the questions are recorded, and one commit makes
    session and questions durable. *)
Lemma start_session_run (env : Env) (uid : string) (data : StartInterviewRequest)
      (db : Database) :
  let sid := uuid4 env 0 in
  let flushed d := mkOrmSession false db d [] [] in
  InterviewService.start_session env uid data (SessionLocal db)
  = match insert_session (new_session env uid data) db with
    | inl e => (inl e, SessionLocal db)
    | inr d1 =>
        match AIService.generate_questions
                (groq env) (req_role data) (req_difficulty data)
                (req_question_count data) with
        | inl e => (inl e, flushed d1)
        | inr question_texts =>
            match Py.iter question_texts with
            | inl e => (inl e, flushed d1)
            | inr items =>
                match execute_all (question_writes env sid 0 items) d1 with
                | inl e => (inl e, SessionLocal db)
                | inr d2 =>
                    let committed_state := mkOrmSession false d2 d2 [] [d2] in
                    match InterviewService.session_by_id sid d2 with
                    | None => (inl (PyError "InvalidRequestError"), committed_state)
                    | Some s =>
                        InterviewService.SessionResponse_model_validate
                          s committed_state
                    end
                end
            end
        end
    end.
Proof.
  intros sid flushed. subst sid flushed.
  unfold InterviewService.start_session, new_session,
    InterviewService.refresh_session.
  unfold_orm.
  destruct (insert_session _ db) as [e|d1]; orm_simpl; [reflexivity|].
  destruct (AIService.generate_questions _ _ _ _) as [e|texts];
    orm_simpl; [reflexivity|].
  destruct (Py.iter texts) as [e|items]; orm_simpl; [reflexivity|].
  rewrite add_questions_run. orm_simpl.
  cbn [InterviewSession.id].
  destruct (execute_all _ d1) as [e|d2]; orm_simpl; [reflexivity|].
  destruct (InterviewService.session_by_id (uuid4 env 0) d2); reflexivity.
Qed.

Lemma insert_session_inv (s : InterviewSession.t) (d d1 : Database) :
  insert_session s d = inr d1 ->
  InterviewService.session_by_id (InterviewSession.id s) d = None /\
  d1 = mkDatabase (dialect d) (interview_sessions d ++ [s])
                  (interview_questions d) (question_feedback d).
Proof.
  unfold insert_session, InterviewService.session_by_id.
  destruct (existsb _ _) eqn:E; [discriminate|]. intros [= <-].
  split; [|reflexivity].
  apply find_none_iff. intros x Hx.
  destruct (String.eqb (InterviewSession.id x) (InterviewSession.id s)) eqn:Ex;
    [|reflexivity].
  rewrite <- E. symmetry. apply existsb_exists. exists x. auto.
Qed.

Lemma insert_session_fresh (s : InterviewSession.t) (d : Database) :
  InterviewService.session_by_id (InterviewSession.id s) d = None ->
  insert_session s d
  = inr (mkDatabase (dialect d) (interview_sessions d ++ [s])
                    (interview_questions d) (question_feedback d)).
Proof.
  unfold insert_session, InterviewService.session_by_id. intros H.
  destruct (existsb _ _) eqn:E; [|reflexivity].
  apply existsb_exists in E. destruct E as (x & Hx & Ex).
  rewrite (proj1 (find_none_iff _ _) H x Hx) in Ex. discriminate.
Qed.

Lemma session_by_id_appended (s : InterviewSession.t) (l : list InterviewSession.t) :
  find (fun x => String.eqb (InterviewSession.id x) (InterviewSession.id s)) l = None ->
  find (fun x => String.eqb (InterviewSession.id x) (InterviewSession.id s)) (l ++ [s])
  = Some s.
Proof.
  induction l as [|a l IH]; cbn.
  - rewrite String.eqb_refl. reflexivity.
  - destruct (String.eqb (InterviewSession.id a) (InterviewSession.id s));
      [discriminate | exact IH].
Qed.

(* ================================================================= *)
(** ** Starting a session *)

(** The outcome of a valid [POST /interviews/start]. *)
Lemma start_interview_run (env : Env) (uid : string) (data : StartInterviewRequest)
      (db : Database) :
  StartInterviewRequest_valid data = true ->
  start_interview env uid data db
  = match insert_session (new_session env uid data) db with
    | inl e => mkOutcome (inl e) db []
    | inr d1 =>
        match AIService.generate_questions
                (groq env) (req_role data) (req_difficulty data)
                (req_question_count data) with
        | inl e => mkOutcome (inl e) db []
        | inr question_texts =>
            match Py.iter question_texts with
            | inl e => mkOutcome (inl e) db []
            | inr items =>
                match execute_all (question_writes env (uuid4 env 0) 0 items) d1 with
                | inl e => mkOutcome (inl e) db []
                | inr d2 =>
                    mkOutcome (inr (session_response (new_session env uid data) d2))
                              d2 [d2]
                end
            end
        end
    end.
Proof.
  intros Hvalid. unfold start_interview. rewrite Hvalid.
  rewrite run_request_eq, start_session_run. cbv zeta.
  destruct (insert_session (new_session env uid data) db) as [e1|d1] eqn:Hins;
    [reflexivity|].
  destruct (AIService.generate_questions _ _ _ _) as [e2|texts]; [reflexivity|].
  destruct (Py.iter texts) as [e3|items]; [reflexivity|].
  destruct (execute_all _ d1) as [e4|d2] eqn:Hexec; [reflexivity|].
  apply execute_question_writes in Hexec.
  destruct Hexec as (ts & _ & _ & Hs & _).
  apply insert_session_inv in Hins. destruct Hins as (Hnone & ->).
  cbn in Hs. unfold InterviewService.session_by_id. rewrite Hs.
  change (uuid4 env 0) with (InterviewSession.id (new_session env uid data)).
  rewrite session_by_id_appended by exact Hnone.
  reflexivity.
Qed.



Lemma valid_question_count (data : StartInterviewRequest) :
  StartInterviewRequest_valid data = true -> 3 <= req_question_count data <= 10.
Proof.
  unfold StartInterviewRequest_valid. intros H.
  apply andb_true_iff in H. destruct H as [H H10].
  apply andb_true_iff in H. destruct H as [_ H3].
  apply Z.leb_le in H3, H10. lia.
Qed.

Lemma generate_questions_of_list
      (dct : list (string * PyVal)) (items : list PyVal)
      (role difficulty : string) (count : Z) :
  Py.dict_lookup "questions" dct = Some (VList items) ->
  0 <= count ->
  AIService.generate_questions (Content (VDict dct)) role difficulty count
  = if Z.of_nat (List.length items) <? count
    then inl (HTTPException 502 "AI did not return the expected number of questions.")
    else if Z.of_nat (List.length items) =? 0
         then inl (HTTPException 502
                     "AI did not return the expected number of questions.")
         else inr (VList (firstn (Z.to_nat count) items)).
Proof.
  intros Hq Hcount.
  unfold AIService.generate_questions, ResultMonad.bind.
  cbn [AIService._extract_json Py.get]. rewrite Hq.
  destruct items as [|x items].
  - cbn. destruct (0 <? count); reflexivity.
  - cbn [Py.truthy negb Py.len].
    destruct (Z.of_nat (List.length (x :: items)) <? count) eqn:E; [reflexivity|].
    assert (E0 : (Z.of_nat (List.length (x :: items)) =? 0) = false).
    { apply Z.eqb_neq. cbn [List.length]. lia. }
    rewrite E0. cbn [Py.slice_to]. unfold Py.slice_list, Py.slice_stop.
    destruct (count <? 0) eqn:Ec; [apply Z.ltb_lt in Ec; lia | reflexivity].
Qed.

Lemma execute_question_writes_fresh (env : Env) (sid : string) (texts : list string) :
  forall (idx : nat) (d : Database),
    NoDup (map (fun i => uuid4 env (S i)) (seq idx (List.length texts))) ->
    (forall i q, In i (seq idx (List.length texts)) ->
                 In q (interview_questions d) ->
                 InterviewQuestion.id q <> uuid4 env (S i)) ->
    execute_all (question_writes env sid idx (map VStr texts)) d
    = inr (mkDatabase (dialect d) (interview_sessions d)
                      (interview_questions d ++ new_questions env sid idx texts)
                      (question_feedback d)).
Proof.
  induction texts as [|t texts IH]; intros idx d Hnd Hfresh.
  - cbn. rewrite app_nil_r. destruct d. reflexivity.
  - cbn [map question_writes execute_all execute]. unfold insert_question.
    cbn [bind_text].
    cbn [List.length seq map] in Hnd, Hfresh.
    apply NoDup_cons_iff in Hnd. destruct Hnd as [Hhead Hnd].
    destruct (existsb _ (interview_questions d)) eqn:E.
    { apply existsb_exists in E. destruct E as (q & Hq & Eq).
      apply String.eqb_eq in Eq.
      destruct (Hfresh idx q (or_introl eq_refl) Hq Eq). }
    rewrite IH.
    + cbn. rewrite <- app_assoc. reflexivity.
    + exact Hnd.
    + cbn. intros i q Hi Hq. apply in_app_or in Hq.
      destruct Hq as [Hq|[<-|[]]].
      * apply Hfresh; [right; exact Hi | exact Hq].
      * cbn. intros Heq. apply Hhead. rewrite Heq.
        apply in_map with (f := fun i => uuid4 env (S i)). exact Hi.
Qed.

Lemma map_VStr_injective (l l' : list string) :
  map VStr l = map VStr l' -> l = l'.
Proof.
  revert l'. induction l as [|a l IH]; intros [|b l']; cbn; try discriminate.
  - reflexivity.
  - intros [= -> H]. f_equal. apply IH. exact H.
Qed.

(** C7.  For a valid request with [question_count] = n in [3,10] and a
    provider that returned the question strings [qs]: with fewer than n
    strings the request fails with 502 (UpstreamInvalid) and writes
    nothing, no question is invented; with n strings or more, a successful
    request appends exactly n question rows, which carry the first n
    strings in the provider's order with [order_index] 0, 1, ..., n-1; and
    the request does succeed when the generated ids are new. *)
Theorem start_session_persists_exactly_n_questions :
  forall (env : Env) (uid : string) (data : StartInterviewRequest) (db : Database)
         (dct : list (string * PyVal)) (qs : list string),
    StartInterviewRequest_valid data = true ->
    groq env = Content (VDict dct) ->
    Py.dict_lookup "questions" dct = Some (VList (map VStr qs)) ->
    InterviewService.session_by_id (uuid4 env 0) db = None ->
    let n := Z.to_nat (req_question_count data) in
    let o := start_interview env uid data db in
    let rows := new_questions env (uuid4 env 0) 0 (firstn n qs) in
    (3 <= n <= 10)%nat /\
    ((List.length qs < n)%nat ->
     response o
     = inl (HTTPException 502 "AI did not return the expected number of questions.")
     /\ (forall e, response o = inl e -> UpstreamInvalid e)
     /\ database o = db) /\
    ((n <= List.length qs)%nat ->
     forall r, response o = inr r ->
       interview_questions (database o) = (interview_questions db ++ rows)%list /\
       List.length rows = n /\
       map InterviewQuestion.order_index rows = map Z.of_nat (seq 0 n) /\
       map InterviewQuestion.question_text rows = firstn n qs /\
       Forall (fun q => InterviewQuestion.session_id q = uuid4 env 0 /\
                        InterviewQuestion.user_answer q = None) rows) /\
    ((n <= List.length qs)%nat ->
     NoDup (map (fun i => uuid4 env (S i)) (seq 0 n)) ->
     (forall i q, (i < n)%nat -> In q (interview_questions db) ->
                  InterviewQuestion.id q <> uuid4 env (S i)) ->
     exists r, response o = inr r).
Proof.
  intros env uid data db dct qs Hvalid Hgroq Hqs Hfresh n o rows.
  pose proof (valid_question_count data Hvalid) as Hrange.
  subst o. rewrite (start_interview_run env uid data db Hvalid).
  rewrite insert_session_fresh by exact Hfresh.
  rewrite Hgroq.
  rewrite (generate_questions_of_list dct (map VStr qs)) by (assumption || lia).
  rewrite length_map.
  split; [subst n; lia|]. split; [|split].
  - intros Hshort.
    destruct (Z.of_nat (List.length qs) <? req_question_count data) eqn:E.
    2:{ apply Z.ltb_ge in E. subst n. lia. }
    cbn. repeat split. intros e [= <-]. reflexivity.
  - intros Henough r.
    assert (Hlen : List.length (firstn n qs) = n)
      by (apply firstn_length_le; exact Henough).
    destruct (new_questions_shape env (uuid4 env 0) (firstn n qs) 0)
      as (H1 & H2 & H3 & _ & H5).
    fold rows in H1, H2, H3, H5. rewrite Hlen in H1, H3.
    intros Hr. split; [|auto]. revert Hr.
    destruct (Z.of_nat (List.length qs) <? req_question_count data) eqn:E;
      [discriminate|].
    destruct (Z.of_nat (List.length qs) =? 0) eqn:E0; [discriminate|].
    cbn [Py.iter].
    destruct (execute_all _ _) as [e|d2] eqn:Hexec; [discriminate|].
    apply execute_question_writes in Hexec.
    destruct Hexec as (ts & Hts & _ & _ & Hq & _).
    rewrite firstn_map in Hts. apply map_VStr_injective in Hts.
    fold n in Hts. subst ts. cbn in Hq. intros _. exact Hq.
  - intros Henough Hnd Hids.
    assert (Hlen : List.length (firstn n qs) = n)
      by (apply firstn_length_le; exact Henough).
    destruct (Z.of_nat (List.length qs) <? req_question_count data) eqn:E.
    { apply Z.ltb_lt in E. subst n. lia. }
    destruct (Z.of_nat (List.length qs) =? 0) eqn:E0.
    { apply Z.eqb_eq in E0. subst n. lia. }
    cbn [Py.iter]. rewrite firstn_map. fold n.
    rewrite execute_question_writes_fresh.
    + eexists. reflexivity.
    + rewrite Hlen. exact Hnd.
    + rewrite Hlen. cbn [interview_questions]. intros i q Hi Hq.
      apply Hids; [|exact Hq]. apply in_seq in Hi. lia.
Qed.

Lemma start_session_persists_exactly_n_questions_witness :
  (exists r, response Scenario.started = inr r) /\
  interview_questions (database Scenario.started)
  = [InterviewQuestion.mk "s-1" "s-0" "What is an index?" None 0;
     InterviewQuestion.mk "s-2" "s-0" "What is a transaction?" None 1;
     InterviewQuestion.mk "s-3" "s-0" "What is a deadlock?" None 2] /\
  response (start_interview
              (mkEnv (Scenario.questions_reply ["Only one?"; "Or two?"])
                     (Scenario.uuids "s") 1000)
              "alice" Scenario.request Scenario.empty)
  = inl (HTTPException 502 "AI did not return the expected number of questions.").
Proof.
  destruct (start_session_persists_exactly_n_questions
              (mkEnv (Scenario.questions_reply Scenario.four_questions)
                     (Scenario.uuids "s") 1000)
              "alice" Scenario.request Scenario.empty
              [("questions", VList (map VStr Scenario.four_questions))]
              Scenario.four_questions
              eq_refl eq_refl eq_refl eq_refl)
    as (_ & _ & Hrows & Hok).
  destruct (start_session_persists_exactly_n_questions
              (mkEnv (Scenario.questions_reply ["Only one?"; "Or two?"])
                     (Scenario.uuids "s") 1000)
              "alice" Scenario.request Scenario.empty
              [("questions", VList (map VStr ["Only one?"; "Or two?"]))]
              ["Only one?"; "Or two?"]
              eq_refl eq_refl eq_refl eq_refl)
    as (_ & Hshort & _).
  assert (Hr : exists r, response Scenario.started = inr r).
  { apply Hok.
    - vm_compute. lia.
    - vm_compute. repeat constructor; cbn; intuition discriminate.
    - intros i q _ []. }
  split; [exact Hr|]. split.
  - destruct Hr as [r Hr].
    destruct (Hrows ltac:(vm_compute; lia) r Hr) as (H & _).
    exact H.
  - apply Hshort. vm_compute. lia.
Defined.

(* ================================================================= *)
(** ** History *)







Lemma get_history_run (uid : string) (limit : Z) (db : Database) :
  get_history uid limit db
  = mkOutcome
      (match InterviewService.select_history uid limit db with
       | inl e => inl e
       | inr rows => inr (map InterviewService.history_item rows)
       end) db [].
Proof.
  unfold get_history. rewrite run_request_eq.
  unfold InterviewService.get_history. unfold_orm.
  destruct (InterviewService.select_history uid limit db); reflexivity.
Qed.



(** The run behind the statement above: the two most recent completed
    sessions of the user, the null score read as 0. *)
Example get_history_of_alice :
  response (get_history "alice" 2 Scenario.history_db)
  = inr [mkSessionHistoryItem "c" "Backend Engineer" "Hard" 5 0 30;
         mkSessionHistoryItem "e" "SRE" "Intermediate" 3 (90 # 1) 25].
Proof. vm_compute. reflexivity. Qed.

(** Below 0 the limit is no longer a count: the statement returns every
    row on SQLite and is rejected on PostgreSQL. *)
Example get_history_negative_limit :
  option_map (@List.length SessionHistoryItem)
             (match response (get_history "alice" (-1) Scenario.history_db) with
              | inr items => Some items
              | inl _ => None
              end) = Some 3%nat
  /\ response (get_history "alice" (-1) (mkDatabase PostgreSQL [] [] []))
     = inl StatementError.
Proof. split; vm_compute; reflexivity. Qed.

(* ================================================================= *)
(** ** The databases the application reaches *)

(** Every run of [submit_answer], also one that ends in an exception,
    either leaves the durable state alone or has committed the writes of
    the request. *)
Lemma submit_answer_durable
      (env : Env) (sid qid uid : string) (data : SubmitAnswerRequest)
      (db : Database) (res : Result SubmitAnswerResponse) (st : OrmSession) :
  InterviewService.submit_answer env sid qid uid data (SessionLocal db) = (res, st) ->
  durable st = db \/
  exists s q sc ov ss im final,
    InterviewService.session_of_user sid uid db = Some s /\
    InterviewService.question_of_session qid sid db = Some q /\
    InterviewService.truthy_text (InterviewQuestion.user_answer q) = false /\
    (final = None \/
     (InterviewSession.question_count s
      <=? Z.of_nat (List.length (InterviewService.answered_questions sid db))) = true) /\
    execute_all ([SetUserAnswer (InterviewQuestion.id q) (answer data);
                  AddFeedback (uuid4 env 0) (InterviewQuestion.id q) sc ov ss im]
                   ++ completion_writes s final)%list db
    = inr (durable st).
Proof.
  intros H.
  unfold InterviewService.submit_answer, InterviewService._get_session_for_user,
    InterviewService.refresh_feedback in H.
  unfold_orm.
  destruct (InterviewService.session_of_user sid uid db)
    as [s|] eqn:Hs; orm_simpl; [|injection H as <- <-; left; reflexivity].
  destruct (InterviewService.question_of_session qid sid db)
    as [q|] eqn:Hq; orm_simpl; [|injection H as <- <-; left; reflexivity].
  destruct (InterviewService.truthy_text (InterviewQuestion.user_answer q))
    eqn:Ht; orm_simpl; [injection H as <- <-; left; reflexivity|].
  destruct (AIService.evaluate_answer _ _ _ _ _)
    as [e|fd]; orm_simpl; [injection H as <- <-; left; reflexivity|].
  destruct (Py.getitem fd "score")
    as [e|sc]; orm_simpl; [injection H as <- <-; left; reflexivity|].
  destruct (Py.getitem fd "overall_feedback")
    as [e|ov]; orm_simpl; [injection H as <- <-; left; reflexivity|].
  destruct (Py.getitem fd "strengths")
    as [e|ss]; orm_simpl; [injection H as <- <-; left; reflexivity|].
  destruct (Py.getitem fd "improvements")
    as [e|im]; orm_simpl; [injection H as <- <-; left; reflexivity|].
  destruct (InterviewSession.question_count s <=? _) eqn:Hlast; orm_simpl.
  - destruct (InterviewService.as_int sc)
      as [e|cur]; orm_simpl; [injection H as <- <-; left; reflexivity|].
    destruct (InterviewService.truediv _ _)
      as [e|v]; orm_simpl; [injection H as <- <-; left; reflexivity|].
    destruct (insert_feedback _ _ _ _ _ _ _) as [e|d1] eqn:Hins;
      orm_simpl; [injection H as <- <-; left; reflexivity|].
    right. exists s, q, sc, ov, ss, im, (Some v).
    cbn [completion_writes app execute_all execute]. rewrite Hins.
    split; [reflexivity|]. split; [reflexivity|]. split; [exact Ht|].
    split; [right; exact Hlast|].
    destruct (InterviewService.feedback_by_id _ _) as [f|];
      [destruct (FeedbackResponse_model_validate f)|];
      injection H as <- <-; reflexivity.
  - destruct (insert_feedback _ _ _ _ _ _ _) as [e|d1] eqn:Hins;
      orm_simpl; [injection H as <- <-; left; reflexivity|].
    right. exists s, q, sc, ov, ss, im, None.
    cbn [completion_writes app execute_all execute]. rewrite Hins.
    split; [reflexivity|]. split; [reflexivity|]. split; [exact Ht|].
    split; [left; reflexivity|].
    destruct (InterviewService.feedback_by_id _ _) as [f|];
      [destruct (FeedbackResponse_model_validate f)|];
      injection H as <- <-; reflexivity.
Qed.

Lemma filter_map_length {A} (p : A -> bool) (f : A -> A) (l : list A) :
  (forall x, p (f x) = p x) ->
  List.length (filter p (map f l)) = List.length (filter p l).
Proof.
  intros Hp. induction l as [|a l IH]; cbn; [reflexivity|].
  rewrite Hp. destruct (p a); cbn; rewrite IH; reflexivity.
Qed.

Lemma filter_none {A} (p : A -> bool) (l : list A) :
  (forall x, In x l -> p x = false) -> filter p l = [].
Proof.
  induction l as [|a l IH]; intros H; cbn; [reflexivity|].
  rewrite (H a (or_introl eq_refl)). apply IH.
  intros x Hx. apply H. right. exact Hx.
Qed.

Lemma filter_length_le {A} (p : A -> bool) (l : list A) :
  (List.length (filter p l) <= List.length l)%nat.
Proof.
  induction l as [|a l IH]; cbn; [lia|]. destruct (p a); cbn; lia.
Qed.

Lemma list_ascii_of_string_length (s : string) :
  List.length (list_ascii_of_string s) = String.length s.
Proof. induction s as [|c s IH]; cbn; [reflexivity | rewrite IH; reflexivity]. Qed.

(** [generate_questions] never hands out more than [count] items. *)
Lemma generate_questions_length
      (reply : GroqReply) (role difficulty : string) (count : Z)
      (v : PyVal) (items : list PyVal) :
  0 <= count ->
  AIService.generate_questions reply role difficulty count = inr v ->
  Py.iter v = inr items ->
  Z.of_nat (List.length items) <= count.
Proof.
  intros Hcount.
  unfold AIService.generate_questions, ResultMonad.bind.
  destruct (AIService._extract_json reply "question generation") as [e|data];
    [discriminate|].
  destruct (Py.get data "questions" (VList [])) as [e|questions]; [discriminate|].
  destruct (negb (Py.truthy questions)); [discriminate|].
  destruct (Py.len questions) as [e|n]; [discriminate|].
  destruct (n <? count); [discriminate|].
  assert (Hstop : forall len, Py.slice_stop count len = Z.to_nat count).
  { intros len. unfold Py.slice_stop.
    destruct (count <? 0) eqn:E; [apply Z.ltb_lt in E; lia | reflexivity]. }
  destruct questions; cbn [Py.slice_to]; try discriminate; intros [= <-];
    cbn [Py.iter]; intros [= <-].
  - rewrite length_map, list_ascii_of_string_length.
    unfold Py.slice_string. rewrite Hstop.
    pose proof (substring_length
                  (Nat.min (Z.to_nat count) (String.length s)) s). lia.
  - unfold Py.slice_list. rewrite Hstop.
    pose proof (firstn_le_length (Z.to_nat count) l). lia.
Qed.

Lemma consistent_start_interview
      (env : Env) (uid : string) (data : StartInterviewRequest) (db : Database) :
  consistent db -> consistent (database (start_interview env uid data db)).
Proof.
  intros Hdb.
  destruct (StartInterviewRequest_valid data) eqn:Hvalid.
  2:{ unfold start_interview. rewrite Hvalid. exact Hdb. }
  rewrite (start_interview_run env uid data db Hvalid).
  destruct (insert_session (new_session env uid data) db) as [e|d1] eqn:Hins;
    [exact Hdb|].
  destruct (AIService.generate_questions _ _ _ _) as [e|v] eqn:Hgen; [exact Hdb|].
  destruct (Py.iter v) as [e|items] eqn:Hiter; [exact Hdb|].
  destruct (execute_all _ d1) as [e|d2] eqn:Hexec; [exact Hdb|].
  cbn [database].
  assert (Hcount : 0 <= req_question_count data)
    by (pose proof (valid_question_count data Hvalid); lia).
  pose proof (generate_questions_length _ _ _ _ _ _ Hcount Hgen Hiter) as Hlen.
  apply execute_question_writes in Hexec.
  destruct Hexec as (texts & -> & _ & Hs & Hq & _).
  apply insert_session_inv in Hins. destruct Hins as (Hnone & ->).
  cbn in Hs, Hq, Hnone. rewrite length_map in Hlen.
  destruct (new_questions_shape env (uuid4 env 0) texts 0) as (Hn & _ & _ & _ & Hrows).
  assert (Hold : forall s, In s (interview_sessions db) ->
                           InterviewSession.id s <> uuid4 env 0).
  { intros s Hin Heq.
    pose proof (proj1 (find_none_iff _ _) Hnone s Hin) as Hf. cbn in Hf.
    rewrite Heq, String.eqb_refl in Hf. discriminate. }
  destruct Hdb as [I1 I2 I3 I4].
  constructor.
  - rewrite Hq. intros q Hin. apply in_app_or in Hin. destruct Hin as [Hin|Hin].
    + apply I1. exact Hin.
    + rewrite Forall_forall in Hrows. destruct (Hrows q Hin) as [_ ->]. discriminate.
  - rewrite Hs. intros s Hin. unfold questions_of. rewrite Hq, filter_app, length_app.
    apply in_app_or in Hin. destruct Hin as [Hin|[<-|[]]].
    + rewrite (filter_none _ (new_questions env (uuid4 env 0) 0 texts)).
      * specialize (I2 s Hin). unfold questions_of in I2. cbn. lia.
      * intros q Hq'. rewrite Forall_forall in Hrows.
        destruct (Hrows q Hq') as [-> _].
        apply String.eqb_neq. intros Heq. apply (Hold s Hin). symmetry. exact Heq.
    + rewrite (filter_none _ (interview_questions db)).
      * pose proof (filter_length_le
                      (fun q => String.eqb (InterviewQuestion.session_id q)
                                           (InterviewSession.id (new_session env uid data)))
                      (new_questions env (uuid4 env 0) 0 texts)).
        cbn in *. lia.
      * intros q Hq'. apply String.eqb_neq. intros Heq.
        destruct (I3 q Hq') as (s0 & Hs0 & Hid).
        apply (Hold s0 Hs0). rewrite Hid. exact Heq.
  - rewrite Hq, Hs. intros q Hin. apply in_app_or in Hin. destruct Hin as [Hin|Hin].
    + destruct (I3 q Hin) as (s0 & Hs0 & Hid).
      exists s0. split; [apply in_or_app; left; exact Hs0 | exact Hid].
    + rewrite Forall_forall in Hrows. destruct (Hrows q Hin) as [-> _].
      exists (new_session env uid data).
      split; [apply in_or_app; right; left; reflexivity | reflexivity].
  - rewrite Hs. intros s Hin. apply in_app_or in Hin. destruct Hin as [Hin|[<-|[]]].
    + apply I4. exact Hin.
    + split; reflexivity.
Qed.

Lemma consistent_submit_answer
      (env : Env) (uid sid qid : string) (data : SubmitAnswerRequest) (db : Database) :
  consistent db -> consistent (database (submit_answer env uid sid qid data db)).
Proof.
  intros Hdb. unfold submit_answer.
  destruct (SubmitAnswerRequest_valid data) eqn:Hvalid; [|exact Hdb].
  rewrite run_request_eq. cbn [database].
  destruct (InterviewService.submit_answer env sid qid uid data (SessionLocal db))
    as [res st] eqn:E.
  apply submit_answer_durable in E. cbn [snd].
  destruct E as [->|(s & q & sc & ov & ss & im & final & Hs & Hq & Ht & Hfin & Hexec)];
    [exact Hdb|].
  destruct Hdb as [I1 I2 I3 I4].
  destruct (question_of_session_found _ _ _ _ Hq) as (Hqin & _ & _).
  destruct (session_of_user_found _ _ _ _ Hs) as (Hsin & Hsid & _).
  assert (Hnone : InterviewQuestion.user_answer q = None).
  { specialize (I1 q Hqin).
    destruct (InterviewQuestion.user_answer q) as [a|]; [|reflexivity].
    cbn in Ht. apply negb_false_iff, String.eqb_eq in Ht. subst a. contradiction. }
  assert (Hshort := stored_answers_below_count sid qid db s q Hq Hnone).
  rewrite <- Hsid in Hshort at 1. specialize (Hshort (I2 s Hsin)).
  destruct Hfin as [->|Hlast]; [|rewrite Hlast in Hshort; discriminate].
  apply submit_writes_effect in Hexec.
  destruct Hexec as (z & text & _ & _ & _ & Hqs & _ & Hss).
  set (f := fun x => if String.eqb (InterviewQuestion.id x) (InterviewQuestion.id q)
                     then InterviewQuestion.set_user_answer (Some (answer data)) x
                     else x) in Hqs.
  assert (Hf : forall x, InterviewQuestion.session_id (f x)
                         = InterviewQuestion.session_id x).
  { intros x. unfold f.
    destruct (String.eqb (InterviewQuestion.id x) (InterviewQuestion.id q));
      reflexivity. }
  constructor.
  - rewrite Hqs. intros q' Hin. apply in_map_iff in Hin.
    destruct Hin as (x & <- & Hx). unfold f.
    destruct (String.eqb (InterviewQuestion.id x) (InterviewQuestion.id q)).
    + cbn. intros [= Heq]. exact (valid_answer_nonempty data Hvalid Heq).
    + apply I1. exact Hx.
  - rewrite Hss. intros s' Hin. unfold questions_of. rewrite Hqs.
    rewrite filter_map_length by (intros x; rewrite Hf; reflexivity).
    apply (I2 s' Hin).
  - rewrite Hqs, Hss. intros q' Hin. apply in_map_iff in Hin.
    destruct Hin as (x & <- & Hx). rewrite Hf. apply I3. exact Hx.
  - rewrite Hss. exact I4.
Qed.

(** Every database the application can be in is consistent; in
    particular none of its sessions is completed or has a final score,
    however many answers were accepted. *)
Theorem reachable_consistent (db : Database) : reachable db -> consistent db.
Proof.
  induction 1 as [engine | env uid data db _ IH | env uid sid qid data db _ IH].
  - constructor; cbn; intros x [].
  - apply consistent_start_interview. exact IH.
  - apply consistent_submit_answer. exact IH.
Qed.

Corollary no_reachable_session_is_completed (db : Database) (s : InterviewSession.t) :
  reachable db -> In s (interview_sessions db) ->
  InterviewSession.is_completed s = "false" /\ InterviewSession.final_score s = None.
Proof.
  intros Hdb. apply (sessions_open db (reachable_consistent db Hdb)).
Qed.

Lemma no_reachable_session_is_completed_example :
  reachable (database Scenario.third) /\
  Forall (fun s => InterviewSession.is_completed s = "false" /\
                   InterviewSession.final_score s = None)
         (interview_sessions (database Scenario.third)).
Proof.
  assert (H : reachable (database Scenario.third)).
  { do 3 apply reachable_submit_answer. apply reachable_start_interview.
    apply reachable_empty. }
  split; [exact H|].
  apply Forall_forall. intros s Hs.
  exact (no_reachable_session_is_completed _ s H Hs).
Qed.

(** C5.  In every database the application can be in, a question whose
    stored answer is non-null rejects a further [submit_answer] with 400
    (AlreadyAnswered); the failed call writes nothing, so the stored
    answer and every stored feedback row stay as they were. *)
Theorem answered_question_rejects_resubmission :
  forall (env : Env) (uid sid qid : string) (data : SubmitAnswerRequest)
         (db : Database) (s : InterviewSession.t) (q : InterviewQuestion.t)
         (a : string),
    reachable db ->
    SubmitAnswerRequest_valid data = true ->
    InterviewService.session_of_user sid uid db = Some s ->
    InterviewService.question_of_session qid sid db = Some q ->
    InterviewQuestion.user_answer q = Some a ->
    let o := submit_answer env uid sid qid data db in
    response o = inl (HTTPException 400 "This question has already been answered.") /\
    (forall e, response o = inl e -> AlreadyAnswered e) /\
    database o = db /\
    committed o = [] /\
    stored_answer qid sid (database o) = Some a /\
    stored_feedback qid (database o) = stored_feedback qid db.
Proof.
  intros env uid sid qid data db s q a Hdb Hvalid Hs Hq Ha o.
  destruct (question_of_session_found _ _ _ _ Hq) as (Hin & _ & _).
  assert (Hne : a <> "").
  { intros ->.
    exact (answers_not_empty db (reachable_consistent db Hdb) q Hin Ha). }
  destruct (nonempty_answer_rejects_resubmission
              env uid sid qid data db s q a Hvalid Hs Hq Ha Hne)
    as (H1 & H2 & H3 & H4 & H5 & _).
  fold o in H1, H2, H3, H4, H5.
  repeat split; try assumption. rewrite H3. reflexivity.
Qed.

Lemma answered_question_rejects_resubmission_witness :
  response (submit_answer Scenario.third_env "alice" "s-0" "s-2"
                          (mkSubmitAnswerRequest "Another answer.")
                          (database Scenario.first))
  = inl (HTTPException 400 "This question has already been answered.")
  /\ stored_answer "s-2" "s-0" (database Scenario.first) = Some "My answer.".
Proof.
  pose proof (answered_question_rejects_resubmission
                Scenario.third_env "alice" "s-0" "s-2"
                (mkSubmitAnswerRequest "Another answer.") (database Scenario.first)
                (InterviewSession.mk "s-0" "alice" "Backend Engineer" "Easy" 3
                                     None "false" 1000)
                (InterviewQuestion.mk "s-2" "s-0" "What is a transaction?"
                                      (Some "My answer.") 1)
                "My answer.") as H.
  cbv zeta in H.
  destruct H as (H1 & _ & H2 & _ & H3 & _).
  - apply reachable_submit_answer, reachable_start_interview, reachable_empty.
  - reflexivity.
  - vm_compute. reflexivity.
  - vm_compute. reflexivity.
  - reflexivity.
  - split; [exact H1|]. rewrite H2 in H3. exact H3.
Defined.

(** C1 (code defect).  In every database the application can be in, no
    successful [submit_answer] reports completion, not even the one that
    answers the last open question of its session: both flags are false
    and every session row keeps its [is_completed] and its null
    [final_score]. *)
Theorem submit_answer_never_reports_completion :
  forall (env : Env) (uid sid qid : string) (data : SubmitAnswerRequest)
         (db : Database) (r : SubmitAnswerResponse),
    reachable db ->
    let o := submit_answer env uid sid qid data db in
    response o = inr r ->
    is_last_question r = false /\
    session_complete r = false /\
    interview_sessions (database o) = interview_sessions db /\
    Forall (fun s => InterviewSession.is_completed s = "false" /\
                     InterviewSession.final_score s = None)
           (interview_sessions (database o)).
Proof.
  intros env uid sid qid data db r Hdb o H.
  pose proof (reachable_consistent db Hdb) as Hc.
  pose proof H as Hrun. subst o.
  apply submit_answer_success in Hrun. destruct Hrun as (_ & Hacc & _).
  destruct Hacc as (s & q & fd & sc & ov & ss & im & final & Hs & Hq & Ht & _).
  destruct (question_of_session_found _ _ _ _ Hq) as (Hqin & _ & _).
  destruct (session_of_user_found _ _ _ _ Hs) as (Hsin & Hsid & _).
  assert (Hnone : stored_answer qid sid db = None).
  { unfold stored_answer. rewrite Hq.
    pose proof (answers_not_empty db Hc q Hqin) as Hne.
    destruct (InterviewQuestion.user_answer q) as [a|]; [|reflexivity].
    cbn in Ht. apply negb_false_iff, String.eqb_eq in Ht. subst a. contradiction. }
  assert (Hcount : Z.of_nat (List.length (questions_of sid db))
                   <= InterviewSession.question_count s).
  { rewrite <- Hsid. exact (questions_within_count db Hc s Hsin). }
  destruct (open_session_never_reports_completion
              env uid sid qid data db s r Hs Hcount Hnone H) as (H1 & H2 & H3).
  repeat split; try assumption.
  rewrite H3. apply Forall_forall. exact (sessions_open db Hc).
Qed.

Lemma submit_answer_never_reports_completion_witness :
  exists r,
    response Scenario.third = inr r /\
    is_last_question r = false /\
    session_complete r = false /\
    map InterviewQuestion.user_answer
        (questions_of "s-0" (database Scenario.third))
    = [Some "My answer."; Some "My answer."; Some "My answer."] /\
    map (fun s => (InterviewSession.question_count s,
                   InterviewSession.is_completed s,
                   InterviewSession.final_score s))
        (interview_sessions (database Scenario.third))
    = [(3, "false", None)].
Proof.
  eexists. split; [vm_compute; reflexivity|].
  destruct (submit_answer_never_reports_completion
              Scenario.third_env "alice" "s-0" "s-3" Scenario.my_answer
              (database Scenario.second) _
              ltac:(do 2 apply reachable_submit_answer;
                    apply reachable_start_interview, reachable_empty)
              ltac:(vm_compute; reflexivity))
    as (H1 & H2 & _).
  split; [exact H1|]. split; [exact H2|].
  split; vm_compute; reflexivity.
Defined.

(* ================================================================= *)
(** ** More on the AI gateway *)

Lemma substring_length_exact (n : nat) (s : string) :
  (n <= String.length s)%nat -> String.length (String.substring 0 n s) = n.
Proof.
  revert n. induction s as [|c s IH]; intros [|n]; simpl; intros H; try lia.
  rewrite IH; lia.
Qed.

Lemma substring_all (s : string) : String.substring 0 (String.length s) s = s.
Proof. induction s as [|c s IH]; simpl; [reflexivity | rewrite IH; reflexivity]. Qed.

(** With at least [count] items at hand, [generate_questions] hands out
    [count] of them. *)
Lemma generate_questions_exact_length
      (reply : GroqReply) (role difficulty : string) (count : Z) (v : PyVal) :
  0 <= count ->
  AIService.generate_questions reply role difficulty count = inr v ->
  exists items, Py.iter v = inr items /\ Z.of_nat (List.length items) = count.
Proof.
  intros Hcount.
  unfold AIService.generate_questions, ResultMonad.bind.
  destruct (AIService._extract_json reply "question generation") as [e|data];
    [discriminate|].
  destruct (Py.get data "questions" (VList [])) as [e|questions]; [discriminate|].
  destruct (negb (Py.truthy questions)); [discriminate|].
  destruct (Py.len questions) as [e|n] eqn:Hn; [discriminate|].
  destruct (n <? count) eqn:Hlt; [discriminate|]. apply Z.ltb_ge in Hlt.
  assert (Hstop : forall len, Py.slice_stop count len = Z.to_nat count).
  { intros len. unfold Py.slice_stop.
    destruct (count <? 0) eqn:E; [apply Z.ltb_lt in E; lia | reflexivity]. }
  destruct questions; cbn [Py.slice_to]; try discriminate;
    cbn [Py.len] in Hn; injection Hn as <-; intros [= <-];
    cbn [Py.iter]; eexists; (split; [reflexivity|]).
  - rewrite length_map, list_ascii_of_string_length.
    unfold Py.slice_string. rewrite Hstop.
    rewrite substring_length_exact; lia.
  - unfold Py.slice_list. rewrite Hstop. rewrite firstn_length_le; lia.
Qed.

Lemma list_ascii_of_substring (n : nat) (s : string) :
  list_ascii_of_string (String.substring 0 n s) = firstn n (list_ascii_of_string s).
Proof.
  revert n. induction s as [|c s IH]; intros [|n]; cbn; try reflexivity.
  rewrite IH. reflexivity.
Qed.

(** X1.  Whatever the provider replied, a call of [generate_questions]
    for [count] >= 0 questions that returns, returns exactly [count]
    items, and they are the first [count] items of the provider's
    [questions] in the provider's order: surplus items are cut off, and a
    reply with fewer items never gets through. *)
Theorem generate_questions_returns_exactly_count :
  forall (reply : GroqReply) (role difficulty : string) (count : Z) (v : PyVal),
    0 <= count ->
    AIService.generate_questions reply role difficulty count = inr v ->
    exists data questions provided items,
      AIService._extract_json reply "question generation" = inr data /\
      Py.get data "questions" (VList []) = inr questions /\
      Py.iter questions = inr provided /\
      Py.iter v = inr items /\
      items = firstn (Z.to_nat count) provided /\
      Z.of_nat (List.length items) = count.
Proof.
  intros reply role difficulty count v Hcount H.
  destruct (generate_questions_exact_length reply role difficulty count v Hcount H)
    as (items & Hitems & Hlen).
  revert H. unfold AIService.generate_questions, ResultMonad.bind.
  destruct (AIService._extract_json reply "question generation") as [e|data] eqn:Hd;
    [discriminate|].
  destruct (Py.get data "questions" (VList [])) as [e|questions] eqn:Hq;
    [discriminate|].
  destruct (negb (Py.truthy questions)); [discriminate|].
  destruct (Py.len questions) as [e|n] eqn:Hn; [discriminate|].
  destruct (n <? count) eqn:Hlt; [discriminate|]. apply Z.ltb_ge in Hlt.
  assert (Hstop : forall len, Py.slice_stop count len = Z.to_nat count).
  { intros len. unfold Py.slice_stop.
    destruct (count <? 0) eqn:E; [apply Z.ltb_lt in E; lia | reflexivity]. }
  intros H. exists data, questions.
  destruct questions; cbn [Py.slice_to] in H; try discriminate H;
    cbn [Py.len] in Hn; injection Hn as <-; injection H as <-;
    cbn [Py.iter] in Hitems |- *; injection Hitems as <-.
  - eexists. eexists. split; [reflexivity|]. split; [exact Hq|].
    split; [reflexivity|]. split; [reflexivity|]. split; [|exact Hlen].
    unfold Py.slice_string. rewrite Hstop, list_ascii_of_substring, firstn_map.
    replace (Nat.min (Z.to_nat count) (String.length s)) with (Z.to_nat count) by lia.
    reflexivity.
  - eexists. eexists. split; [reflexivity|]. split; [exact Hq|].
    split; [reflexivity|]. split; [reflexivity|]. split; [|exact Hlen].
    unfold Py.slice_list. rewrite Hstop. reflexivity.
Qed.

Lemma generate_questions_returns_exactly_count_witness :
  exists items,
    Py.iter (VList [VStr "What is an index?"; VStr "What is a transaction?";
                    VStr "What is a deadlock?"]) = inr items /\
    items = firstn 3 (map VStr Scenario.four_questions) /\
    Z.of_nat (List.length items) = 3.
Proof.
  destruct (generate_questions_returns_exactly_count
              (Scenario.questions_reply Scenario.four_questions)
              "Backend Engineer" "Easy" 3
              (VList [VStr "What is an index?"; VStr "What is a transaction?";
                      VStr "What is a deadlock?"]))
    as (data & questions & provided & items & Hd & Hq & Hp & Hi & Hf & Hl).
  - lia.
  - reflexivity.
  - injection Hd as <-. injection Hq as <-. injection Hp as <-.
    exists items. split; [exact Hi|]. split; [exact Hf | exact Hl].
Defined.

(** X2.  A reply object without a [questions] key, or with a [questions]
    value that Python reads as false (null, an empty list, an empty
    string, 0), makes [generate_questions] fail with 502 (UpstreamInvalid)
    for every [count], also for [count] = 0; a reply that is a bare JSON
    array is not handled at all: [data.get] raises an AttributeError. *)
Theorem generate_questions_rejects_missing_or_empty :
  forall (d : list (string * PyVal)) (role difficulty : string) (count : Z),
    (Py.dict_lookup "questions" d = None \/
     exists v, Py.dict_lookup "questions" d = Some v /\ Py.truthy v = false) ->
    AIService.generate_questions (Content (VDict d)) role difficulty count
    = inl (HTTPException 502 "AI did not return the expected number of questions.")
    /\ UpstreamInvalid
         (HTTPException 502 "AI did not return the expected number of questions.")
    /\ forall l, AIService.generate_questions (Content (VList l)) role difficulty count
                 = inl (PyError "AttributeError").
Proof.
  intros d role difficulty count H.
  unfold AIService.generate_questions, ResultMonad.bind.
  cbn [AIService._extract_json Py.get].
  split; [|split; reflexivity].
  destruct H as [->|(v & -> & Hv)].
  - reflexivity.
  - rewrite Hv. reflexivity.
Qed.

Lemma generate_questions_rejects_missing_or_empty_witness :
  AIService.generate_questions (Content (VDict [("items", VList [VStr "Q?"])]))
                               "SRE" "Easy" 0
  = inl (HTTPException 502 "AI did not return the expected number of questions.")
  /\ AIService.generate_questions (Content (VDict [("questions", VNone)]))
                                  "SRE" "Easy" 3
     = inl (HTTPException 502 "AI did not return the expected number of questions.").
Proof.
  split.
  - apply (generate_questions_rejects_missing_or_empty
             [("items", VList [VStr "Q?"])] "SRE" "Easy" 0).
    left. reflexivity.
  - apply (generate_questions_rejects_missing_or_empty
             [("questions", VNone)] "SRE" "Easy" 3).
    right. exists VNone. split; reflexivity.
Defined.

Lemma dict_store_keys (k : string) (v : PyVal) (d : list (string * PyVal)) :
  Py.dict_lookup k d <> None -> map fst (Py.dict_store k v d) = map fst d.
Proof.
  induction d as [|[k' v'] d IH]; simpl; [congruence|].
  destruct (String.eqb k k') eqn:E; simpl; [reflexivity|].
  intros H. rewrite IH by exact H. reflexivity.
Qed.

Lemma dict_store_unchanged (k : string) (v : PyVal) (d : list (string * PyVal)) :
  Py.dict_lookup k d = Some v -> Py.dict_store k v d = d.
Proof.
  induction d as [|[k' v'] d IH]; simpl; [discriminate|].
  destruct (String.eqb k k') eqn:E.
  - intros [= ->]. reflexivity.
  - intros H. rewrite IH by exact H. reflexivity.
Qed.

Lemma slice_to_5_idempotent (v v' : PyVal) :
  Py.slice_to 5 v = inr v' -> Py.slice_to 5 v' = inr v'.
Proof.
  destruct v; simpl; try discriminate; intros [= <-]; simpl; f_equal; f_equal.
  - change (Py.slice_string 5 s)
      with (String.substring 0 (Nat.min 5 (String.length s)) s).
    set (s' := String.substring 0 (Nat.min 5 (String.length s)) s).
    assert (Hlen : String.length s' = Nat.min 5 (String.length s))
      by (apply substring_length_exact; lia).
    change (Py.slice_string 5 s')
      with (String.substring 0 (Nat.min 5 (String.length s')) s').
    replace (Nat.min 5 (String.length s')) with (String.length s') by lia.
    apply substring_all.
  - rewrite !slice_list_5. rewrite firstn_firstn. reflexivity.
Qed.

Lemma clamp_idempotent (z : Z) : Py.clamp 0 100 (Py.clamp 0 100 z) = Py.clamp 0 100 z.
Proof. unfold Py.clamp. lia. Qed.

(** The record [evaluate_answer] returns is the parsed object with three
    of its entries overwritten. *)
Lemma evaluate_answer_inv
      (reply : GroqReply) (question answer role difficulty : string) (fd : PyVal) :
  AIService.evaluate_answer reply question answer role difficulty = inr fd ->
  exists d raw n st st' im im',
    AIService._extract_json reply "answer evaluation" = inr (VDict d) /\
    Py.issubset AIService.required_keys (map fst d) = true /\
    Py.dict_lookup "score" d = Some raw /\
    Py.int raw = inr n /\
    Py.dict_lookup "strengths" d = Some st /\
    Py.slice_to 5 st = inr st' /\
    Py.dict_lookup "improvements" d = Some im /\
    Py.slice_to 5 im = inr im' /\
    fd = VDict (Py.dict_store "improvements" im'
                  (Py.dict_store "strengths" st'
                     (Py.dict_store "score" (VInt (Py.clamp 0 100 n)) d))).
Proof.
  unfold AIService.evaluate_answer, ResultMonad.bind.
  destruct (AIService._extract_json reply "answer evaluation") as [e|data];
    [discriminate|].
  destruct data as [| | | | |l|d]; cbn [Py.keys]; try discriminate.
  destruct (Py.issubset AIService.required_keys (map fst d)) eqn:E; [|discriminate].
  cbn [negb Py.getitem Py.get Py.setitem].
  pose proof (proj1 (issubset_lookup _ _) E) as Hall.
  destruct (Hall "score") as [raw Hraw]; [simpl; tauto|].
  destruct (Hall "strengths") as [st Hst]; [simpl; tauto|].
  destruct (Hall "improvements") as [im Him]; [simpl; tauto|].
  rewrite Hraw.
  destruct (Py.int raw) as [e|n] eqn:Hn; [discriminate|].
  rewrite dict_lookup_store_other by reflexivity. rewrite Hst.
  destruct (Py.slice_to 5 st) as [e|st'] eqn:Hst'; [discriminate|].
  rewrite !dict_lookup_store_other by reflexivity. rewrite Him.
  destruct (Py.slice_to 5 im) as [e|im'] eqn:Him'; [discriminate|].
  intros [= <-].
  exists d, raw, n, st, st', im, im'. repeat split; assumption.
Qed.

(** X3.  The normalisation of [evaluate_answer] is idempotent: a record
    it returned, sent through it again (as the parsed reply of a later
    call), comes back unchanged.  The clamped score and the cut lists are
    fixed points of the clamp and of the cut. *)
Theorem evaluate_answer_idempotent :
  forall (reply : GroqReply) (question answer role difficulty : string)
         (question' answer' role' difficulty' : string) (fd : PyVal),
    AIService.evaluate_answer reply question answer role difficulty = inr fd ->
    AIService.evaluate_answer (Content fd) question' answer' role' difficulty' = inr fd.
Proof.
  intros reply q a r df q' a' r' df' fd H.
  apply evaluate_answer_inv in H.
  destruct H as (d & raw & n & st & st' & im & im' & _ & Hsub & Hraw & _ & Hst & Hst'
                 & Him & Him' & ->).
  set (d1 := Py.dict_store "score" (VInt (Py.clamp 0 100 n)) d).
  set (d2 := Py.dict_store "strengths" st' d1).
  set (d3 := Py.dict_store "improvements" im' d2).
  assert (K1 : map fst d1 = map fst d)
    by (apply dict_store_keys; congruence).
  assert (K2 : map fst d2 = map fst d1).
  { apply dict_store_keys. unfold d1.
    rewrite dict_lookup_store_other by reflexivity. congruence. }
  assert (K3 : map fst d3 = map fst d2).
  { apply dict_store_keys. unfold d2, d1.
    rewrite !dict_lookup_store_other by reflexivity. congruence. }
  assert (L1 : Py.dict_lookup "score" d3 = Some (VInt (Py.clamp 0 100 n))).
  { unfold d3, d2, d1. dict_simpl. reflexivity. }
  assert (L2 : Py.dict_lookup "strengths" d3 = Some st').
  { unfold d3, d2. dict_simpl. reflexivity. }
  assert (L3 : Py.dict_lookup "improvements" d3 = Some im').
  { unfold d3. dict_simpl. reflexivity. }
  unfold AIService.evaluate_answer, ResultMonad.bind.
  cbn [AIService._extract_json Py.keys].
  rewrite K3, K2, K1, Hsub.
  cbn [negb Py.getitem Py.get Py.setitem].
  rewrite L1. cbn [Py.int]. rewrite clamp_idempotent.
  rewrite (dict_store_unchanged _ _ _ L1).
  rewrite L2, (slice_to_5_idempotent _ _ Hst').
  rewrite (dict_store_unchanged _ _ _ L2).
  rewrite L3, (slice_to_5_idempotent _ _ Him').
  rewrite (dict_store_unchanged _ _ _ L3).
  reflexivity.
Qed.

Lemma evaluate_answer_idempotent_witness :
  AIService.evaluate_answer
    (Content (VDict [("score", VInt 100);
                     ("overall_feedback", VStr "Clear, but short.");
                     ("strengths", VList (map VStr ["a"; "b"; "c"; "d"; "e"]));
                     ("improvements", VList [])])) "q" "a" "r" "d"
  = inr (VDict [("score", VInt 100);
                ("overall_feedback", VStr "Clear, but short.");
                ("strengths", VList (map VStr ["a"; "b"; "c"; "d"; "e"]));
                ("improvements", VList [])]).
Proof.
  apply (evaluate_answer_idempotent
           (Scenario.evaluation_reply 150 Scenario.eight []) "q" "a" "r" "d").
  reflexivity.
Defined.

(** X4.  [evaluate_answer] returns the provider's object itself: the same
    keys in the same order, and under every key other than [score],
    [strengths] and [improvements] the value the provider sent; nothing
    is dropped and nothing is added. *)
Theorem evaluate_answer_changes_three_fields_only :
  forall (reply : GroqReply) (question answer role difficulty : string) (fd : PyVal),
    AIService.evaluate_answer reply question answer role difficulty = inr fd ->
    exists d d',
      AIService._extract_json reply "answer evaluation" = inr (VDict d) /\
      fd = VDict d' /\
      map fst d' = map fst d /\
      forall k, k <> "score" -> k <> "strengths" -> k <> "improvements" ->
                Py.dict_lookup k d' = Py.dict_lookup k d.
Proof.
  intros reply q a r df fd H.
  apply evaluate_answer_inv in H.
  destruct H as (d & raw & n & st & st' & im & im' & Hd & _ & Hraw & _ & Hst & _
                 & Him & _ & ->).
  eexists. eexists. split; [exact Hd|]. split; [reflexivity|]. split.
  - rewrite !dict_store_keys; try reflexivity.
    + congruence.
    + rewrite dict_lookup_store_other by reflexivity. congruence.
    + rewrite !dict_lookup_store_other by reflexivity. congruence.
  - intros k H1 H2 H3.
    rewrite !dict_lookup_store_other; try reflexivity;
      apply String.eqb_neq; assumption.
Qed.

Lemma evaluate_answer_changes_three_fields_only_witness :
  exists d',
    AIService.evaluate_answer
      (Content (VDict [("score", VInt 150); ("model", VStr "llama");
                       ("overall_feedback", VStr "Fine."); ("strengths", VList []);
                       ("improvements", VList [])])) "q" "a" "r" "d" = inr (VDict d')
    /\ map fst d' = ["score"; "model"; "overall_feedback"; "strengths"; "improvements"]
    /\ Py.dict_lookup "model" d' = Some (VStr "llama").
Proof.
  destruct (evaluate_answer_changes_three_fields_only
              (Content (VDict [("score", VInt 150); ("model", VStr "llama");
                               ("overall_feedback", VStr "Fine.");
                               ("strengths", VList []); ("improvements", VList [])]))
              "q" "a" "r" "d" _ eq_refl)
    as (d & d' & Hd & Hfd & Hk & Hv).
  injection Hd as <-.
  exists d'. split; [rewrite <- Hfd; reflexivity|]. split; [exact Hk|].
  rewrite Hv; [reflexivity | discriminate | discriminate | discriminate].
Defined.

(* ================================================================= *)
(** ** More on [submit_answer] *)

(** X5.  In a session of the caller, [submit_answer] answers a question
    id that no row carries and a question id that belongs to another
    session with the same error, 404 "Question not found." (NotFound),
    whatever the provider would have replied, and writes nothing in either
    case. *)
Theorem submit_answer_question_not_found_is_uniform :
  forall (env env' : Env) (uid sid qid : string) (data : SubmitAnswerRequest)
         (absent elsewhere : Database) (s s' : InterviewSession.t),
    SubmitAnswerRequest_valid data = true ->
    InterviewService.session_of_user sid uid absent = Some s ->
    InterviewService.session_of_user sid uid elsewhere = Some s' ->
    (forall q, In q (interview_questions absent) -> InterviewQuestion.id q <> qid) ->
    (exists q, In q (interview_questions elsewhere) /\
               InterviewQuestion.id q = qid /\
               InterviewQuestion.session_id q <> sid) ->
    (forall q, In q (interview_questions elsewhere) ->
               InterviewQuestion.id q = qid ->
               InterviewQuestion.session_id q <> sid) ->
    let o := submit_answer env uid sid qid data absent in
    let o' := submit_answer env' uid sid qid data elsewhere in
    response o = inl (HTTPException 404 "Question not found.") /\
    response o' = response o /\
    (forall e, response o = inl e -> NotFound e) /\
    database o = absent /\ committed o = [] /\
    database o' = elsewhere /\ committed o' = [].
Proof.
  intros env env' uid sid qid data absent elsewhere s s' Hvalid Hs Hs' Habs _ Hels o o'.
  assert (E : InterviewService.question_of_session qid sid absent = None).
  { apply find_none_iff. intros q Hq.
    destruct (String.eqb (InterviewQuestion.id q) qid) eqn:Eid; [|reflexivity].
    apply String.eqb_eq in Eid. destruct (Habs q Hq Eid). }
  assert (E' : InterviewService.question_of_session qid sid elsewhere = None).
  { apply find_none_iff. intros q Hq.
    destruct (String.eqb (InterviewQuestion.id q) qid) eqn:Eid; [|reflexivity].
    apply String.eqb_eq in Eid.
    destruct (String.eqb (InterviewQuestion.session_id q) sid) eqn:Es; [|reflexivity].
    apply String.eqb_eq in Es. destruct (Hels q Hq Eid Es). }
  subst o o'. unfold submit_answer. rewrite Hvalid.
  unfold InterviewService.submit_answer, InterviewService._get_session_for_user.
  unfold_orm. rewrite Hs, Hs'. cbn. rewrite E, E'. cbn.
  repeat split; try reflexivity.
  intros e [= <-]. reflexivity.
Qed.

Lemma submit_answer_question_not_found_is_uniform_witness :
  response (submit_answer Scenario.third_env "alice" "s-0" "t-1" Scenario.my_answer
                          (database Scenario.second))
  = inl (HTTPException 404 "Question not found.")
  /\ response (submit_answer Scenario.down_env "alice" "s-0" "t-1" Scenario.my_answer
                             Examples.two_sessions)
     = inl (HTTPException 404 "Question not found.").
Proof.
  destruct (submit_answer_question_not_found_is_uniform
              Scenario.third_env Scenario.down_env "alice" "s-0" "t-1"
              Scenario.my_answer (database Scenario.second) Examples.two_sessions
              (InterviewSession.mk "s-0" "alice" "Backend Engineer" "Easy" 3
                                   None "false" 1000)
              (InterviewSession.mk "s-0" "alice" "Backend Engineer" "Easy" 3
                                   None "false" 1000))
    as (H1 & H2 & _).
  - reflexivity.
  - vm_compute. reflexivity.
  - vm_compute. reflexivity.
  - vm_compute. intros q [<-|[<-|[<-|[]]]]; discriminate.
  - vm_compute. eexists. split; [do 3 right; left; reflexivity|].
    split; [reflexivity | discriminate].
  - vm_compute.
    intros q [<-|[<-|[<-|[<-|[<-|[<-|[]]]]]]] Hid; try discriminate Hid; discriminate.
  - split; [exact H1 | rewrite H2; exact H1].
Defined.

Lemma insert_feedback_inv (fid qid : string) (sc ov ss im : PyVal) (d d1 : Database) :
  insert_feedback fid qid sc ov ss im d = inr d1 ->
  exists z text,
    bind_integer sc = inr z /\
    bind_text ov = inr text /\
    (forall f, In f (question_feedback d) ->
               QuestionFeedback.id f <> fid /\ QuestionFeedback.question_id f <> qid) /\
    d1 = mkDatabase (dialect d) (interview_sessions d) (interview_questions d)
                    (question_feedback d
                       ++ [QuestionFeedback.mk fid qid z text ss im]).
Proof.
  unfold insert_feedback.
  destruct (bind_integer sc) as [e|z]; [discriminate|].
  destruct (bind_text ov) as [e|text]; [discriminate|].
  destruct (existsb _ _) eqn:E; [discriminate|]. intros [= <-].
  exists z, text. split; [reflexivity|]. split; [reflexivity|].
  split; [|reflexivity].
  intros f Hf.
  assert (Hb : String.eqb (QuestionFeedback.id f) fid
               || String.eqb (QuestionFeedback.question_id f) qid = false).
  { destruct (_ || _) eqn:Eb; [|reflexivity].
    rewrite <- E. symmetry. apply existsb_exists. exists f. auto. }
  apply orb_false_iff in Hb. destruct Hb as [H1 H2].
  apply String.eqb_neq in H1, H2. auto.
Qed.

Lemma find_app_last {A} (p : A -> bool) (l : list A) (x : A) :
  (forall y, In y l -> p y = false) -> p x = true -> find p (l ++ [x]) = Some x.
Proof.
  intros Hl Hx. induction l as [|a l IH]; cbn.
  - rewrite Hx. reflexivity.
  - rewrite (Hl a (or_introl eq_refl)). apply IH.
    intros y Hy. apply Hl. right. exact Hy.
Qed.

Lemma validate_str_list_error (l : list PyVal) (e : Exception) :
  validate_str_list l = inl e -> e = PyError "ValidationError".
Proof.
  induction l as [|v l IH]; cbn; [discriminate|].
  destruct v; try (intros [= <-]; reflexivity).
  destruct (validate_str_list l) as [e'|r]; [|discriminate].
  intros [= <-]. apply IH. reflexivity.
Qed.

Lemma validate_list_of_str_error (v : PyVal) (e : Exception) :
  validate_list_of_str v = inl e -> e = PyError "ValidationError".
Proof.
  destruct v; cbn; try (intros [= <-]; reflexivity).
  apply validate_str_list_error.
Qed.

Lemma FeedbackResponse_model_validate_error (f : QuestionFeedback.t) (e : Exception) :
  FeedbackResponse_model_validate f = inl e -> e = PyError "ValidationError".
Proof.
  unfold FeedbackResponse_model_validate.
  destruct (validate_list_of_str (QuestionFeedback.strengths f)) as [e1|r1] eqn:E1;
    destruct (validate_list_of_str (QuestionFeedback.improvements f)) as [e2|r2] eqn:E2;
    try discriminate; intros [= <-].
  - exact (validate_list_of_str_error _ _ E1).
  - exact (validate_list_of_str_error _ _ E1).
  - exact (validate_list_of_str_error _ _ E2).
Qed.

Ltac ends_before_commit H :=
  injection H as <- <-; left;
  split; [reflexivity|]; split; [reflexivity|]; eexists; reflexivity.

(** Every run of [submit_answer] ends in one of two ways: before the
    commit, with an exception and the database as it was; or after its
    one commit of the writes of the request, and then the response is
    what [FeedbackResponse.model_validate] makes of the stored feedback
    row, a validation error included. *)
Lemma submit_answer_outcomes
      (env : Env) (sid qid uid : string) (data : SubmitAnswerRequest)
      (db : Database) (res : Result SubmitAnswerResponse) (st : OrmSession) :
  InterviewService.submit_answer env sid qid uid data (SessionLocal db) = (res, st) ->
  (durable st = db /\ commits st = [] /\ exists e, res = inl e) \/
  (exists s q fd sc ov ss im final z text,
     InterviewService.session_of_user sid uid db = Some s /\
     InterviewService.question_of_session qid sid db = Some q /\
     InterviewService.truthy_text (InterviewQuestion.user_answer q) = false /\
     AIService.evaluate_answer
       (groq env) (InterviewQuestion.question_text q) (answer data)
       (InterviewSession.role s) (InterviewSession.difficulty s) = inr fd /\
     Py.getitem fd "score" = inr sc /\
     execute_all ([SetUserAnswer (InterviewQuestion.id q) (answer data);
                   AddFeedback (uuid4 env 0) (InterviewQuestion.id q) sc ov ss im]
                    ++ completion_writes s final)%list db
     = inr (durable st) /\
     commits st = [durable st] /\
     bind_integer sc = inr z /\
     bind_text ov = inr text /\
     match FeedbackResponse_model_validate
             (QuestionFeedback.mk (uuid4 env 0) (InterviewQuestion.id q) z text ss im) with
     | inl e => res = inl e
     | inr fr => exists last, res = inr (mkSubmitAnswerResponse qid fr last last)
     end).
Proof.
  intros H.
  unfold InterviewService.submit_answer, InterviewService._get_session_for_user,
    InterviewService.refresh_feedback in H.
  unfold_orm.
  destruct (InterviewService.session_of_user sid uid db)
    as [s|] eqn:Hs; orm_simpl; [|ends_before_commit H].
  destruct (InterviewService.question_of_session qid sid db)
    as [q|] eqn:Hq; orm_simpl; [|ends_before_commit H].
  destruct (InterviewService.truthy_text (InterviewQuestion.user_answer q))
    eqn:Ht; orm_simpl; [ends_before_commit H|].
  destruct (AIService.evaluate_answer _ _ _ _ _)
    as [e|fd] eqn:Hfd; orm_simpl; [ends_before_commit H|].
  destruct (Py.getitem fd "score")
    as [e|sc] eqn:Hsc; orm_simpl; [ends_before_commit H|].
  destruct (Py.getitem fd "overall_feedback")
    as [e|ov]; orm_simpl; [ends_before_commit H|].
  destruct (Py.getitem fd "strengths")
    as [e|ss]; orm_simpl; [ends_before_commit H|].
  destruct (Py.getitem fd "improvements")
    as [e|im]; orm_simpl; [ends_before_commit H|].
  destruct (InterviewSession.question_count s <=? _) eqn:Hlast; orm_simpl.
  - destruct (InterviewService.as_int sc)
      as [e|cur]; orm_simpl; [ends_before_commit H|].
    destruct (InterviewService.truediv _ _)
      as [e|v]; orm_simpl; [ends_before_commit H|].
    destruct (insert_feedback _ _ _ _ _ _ _) as [e|d1] eqn:Hins;
      orm_simpl; [ends_before_commit H|].
    destruct (insert_feedback_inv _ _ _ _ _ _ _ _ Hins)
      as (z & text & Hz & Htx & Hfresh & Hd1).
    assert (Hfind : forall X,
               question_feedback X = question_feedback d1 ->
               InterviewService.feedback_by_id (uuid4 env 0) X
               = Some (QuestionFeedback.mk (uuid4 env 0) (InterviewQuestion.id q)
                                           z text ss im)).
    { intros X HX. unfold InterviewService.feedback_by_id. rewrite HX, Hd1.
      cbn [question_feedback]. apply find_app_last.
      - intros y Hy. apply String.eqb_neq. apply (Hfresh y Hy).
      - cbn. apply String.eqb_refl. }
    rewrite Hfind in H by reflexivity.
    right. exists s, q, fd, sc, ov, ss, im, (Some v), z, text.
    cbn [completion_writes app execute_all execute]. rewrite Hins.
    destruct (FeedbackResponse_model_validate
                (QuestionFeedback.mk (uuid4 env 0) (InterviewQuestion.id q)
                                     z text ss im)) as [e|fr];
      injection H as <- <-; cbn [durable commits];
      (split; [reflexivity|]); (split; [reflexivity|]); (split; [exact Ht|]);
      (split; [exact Hfd|]); (split; [exact Hsc|]);
      (split; [reflexivity|]); (split; [reflexivity|]); (split; [exact Hz|]);
      (split; [exact Htx|]); [reflexivity | exists true; reflexivity].
  - destruct (insert_feedback _ _ _ _ _ _ _) as [e|d1] eqn:Hins;
      orm_simpl; [ends_before_commit H|].
    destruct (insert_feedback_inv _ _ _ _ _ _ _ _ Hins)
      as (z & text & Hz & Htx & Hfresh & Hd1).
    assert (Hfind : forall X,
               question_feedback X = question_feedback d1 ->
               InterviewService.feedback_by_id (uuid4 env 0) X
               = Some (QuestionFeedback.mk (uuid4 env 0) (InterviewQuestion.id q)
                                           z text ss im)).
    { intros X HX. unfold InterviewService.feedback_by_id. rewrite HX, Hd1.
      cbn [question_feedback]. apply find_app_last.
      - intros y Hy. apply String.eqb_neq. apply (Hfresh y Hy).
      - cbn. apply String.eqb_refl. }
    rewrite Hfind in H by reflexivity.
    right. exists s, q, fd, sc, ov, ss, im, None, z, text.
    cbn [completion_writes app execute_all execute]. rewrite Hins.
    destruct (FeedbackResponse_model_validate
                (QuestionFeedback.mk (uuid4 env 0) (InterviewQuestion.id q)
                                     z text ss im)) as [e|fr];
      injection H as <- <-; cbn [durable commits];
      (split; [reflexivity|]); (split; [reflexivity|]); (split; [exact Ht|]);
      (split; [exact Hfd|]); (split; [exact Hsc|]);
      (split; [reflexivity|]); (split; [reflexivity|]); (split; [exact Hz|]);
      (split; [exact Htx|]); [reflexivity | exists false; reflexivity].
Qed.

Lemma answer_written (qid sid a : string) (db db' : Database) (q : InterviewQuestion.t) :
  InterviewService.question_of_session qid sid db = Some q ->
  interview_questions db'
  = map (fun q0 => if String.eqb (InterviewQuestion.id q0) (InterviewQuestion.id q)
                   then InterviewQuestion.set_user_answer (Some a) q0 else q0)
        (interview_questions db) ->
  stored_answer qid sid db' = Some a.
Proof.
  intros Hq Hqs. unfold stored_answer, InterviewService.question_of_session in *.
  rewrite Hqs, find_map_preserved.
  - rewrite Hq. cbn. rewrite String.eqb_refl. reflexivity.
  - intros x.
    destruct (String.eqb (InterviewQuestion.id x) (InterviewQuestion.id q));
      reflexivity.
Qed.

(** X6.  A [submit_answer] request that ends in an error has either
    written nothing, or it failed after its commit: the only failure that
    leaves writes behind is the validation of the response, which runs
    after [db.commit()].  In that case the caller sees an unhandled
    validation error although the answer and the feedback row that did
    not validate are stored. *)
Theorem submit_answer_failure_keeps_nothing_or_all :
  forall (env : Env) (uid sid qid : string) (data : SubmitAnswerRequest)
         (db : Database) (e : Exception),
    let o := submit_answer env uid sid qid data db in
    response o = inl e ->
    (database o = db /\ committed o = []) \/
    (e = PyError "ValidationError" /\
     committed o = [database o] /\
     stored_answer qid sid (database o) = Some (answer data) /\
     exists f, In f (stored_feedback qid (database o)) /\
               FeedbackResponse_model_validate f = inl e).
Proof.
  intros env uid sid qid data db e o H. subst o. unfold submit_answer in *.
  destruct (SubmitAnswerRequest_valid data); [|left; split; reflexivity].
  rewrite run_request_eq in *.
  destruct (InterviewService.submit_answer env sid qid uid data (SessionLocal db))
    as [res st] eqn:E.
  cbn [response database committed fst snd] in *.
  apply submit_answer_outcomes in E.
  destruct E as [(Hd & Hc & _)
                |(s & q & fd & sc & ov & ss & im & final & z & text & Hs & Hq & Ht
                  & _ & _ & Hexec & Hc & Hz & Htx & Hres)].
  - left. split; assumption.
  - right. subst res.
    destruct (FeedbackResponse_model_validate
                (QuestionFeedback.mk (uuid4 env 0) (InterviewQuestion.id q)
                                     z text ss im)) as [e'|fr] eqn:Hv.
    2:{ destruct Hres as [last Hres]. discriminate Hres. }
    injection Hres as <-.
    apply submit_writes_effect in Hexec.
    destruct Hexec as (z' & text' & Hz' & Htx' & _ & Hqs & Hfs & _).
    assert (z' = z) by congruence. assert (text' = text) by congruence. subst z' text'.
    destruct (question_of_session_found _ _ _ _ Hq) as (_ & Hid & _).
    split; [exact (FeedbackResponse_model_validate_error _ _ Hv)|].
    split; [exact Hc|].
    split; [exact (answer_written _ _ _ _ _ _ Hq Hqs)|].
    eexists. split; [|exact Hv].
    unfold stored_feedback. apply filter_In. split.
    + rewrite Hfs. apply in_or_app. right. left. reflexivity.
    + cbn. apply String.eqb_eq. exact Hid.
Qed.

Lemma submit_answer_failure_keeps_nothing_or_all_witness :
  response Examples.unchecked_items = inl (PyError "ValidationError") /\
  stored_answer "s-2" "s-0" (database Examples.unchecked_items) = Some "My answer.".
Proof.
  split; [vm_compute; reflexivity|].
  destruct (submit_answer_failure_keeps_nothing_or_all
              Examples.unchecked_items_env "alice" "s-0" "s-2" Scenario.my_answer
              (database Scenario.started) (PyError "ValidationError"))
    as [[Hd _]|(_ & _ & Ha & _)].
  - vm_compute. reflexivity.
  - vm_compute in Hd. discriminate Hd.
  - exact Ha.
Defined.





(* ================================================================= *)
(** ** More on the databases the application reaches *)

Lemma NoDup_map_snoc {A B} (f : A -> B) (l : list A) (x : A) :
  NoDup (map f l) -> (forall y, In y l -> f y <> f x) -> NoDup (map f (l ++ [x])).
Proof.
  intros Hnd Hx. rewrite map_app. cbn [map].
  apply NoDup_app.
  - exact Hnd.
  - constructor; [intros [] | constructor].
  - intros b Hb [<-|[]]. apply in_map_iff in Hb. destruct Hb as (y & Hy & Hin).
    exact (Hx y Hin Hy).
Qed.

Lemma NoDup_map_inj {A B} (f : A -> B) (l : list A) (a b : A) :
  NoDup (map f l) -> In a l -> In b l -> f a = f b -> a = b.
Proof.
  induction l as [|x l IH]; cbn; intros Hnd Ha Hb Hf; [destruct Ha|].
  apply NoDup_cons_iff in Hnd. destruct Hnd as [Hx Hnd].
  destruct Ha as [->|Ha], Hb as [->|Hb].
  - reflexivity.
  - destruct Hx. rewrite Hf. apply in_map. exact Hb.
  - destruct Hx. rewrite <- Hf. apply in_map. exact Ha.
  - exact (IH Hnd Ha Hb Hf).
Qed.

Lemma filter_all {A} (p : A -> bool) (l : list A) :
  (forall x, In x l -> p x = true) -> filter p l = l.
Proof.
  induction l as [|a l IH]; intros H; cbn; [reflexivity|].
  rewrite (H a (or_introl eq_refl)). f_equal. apply IH.
  intros x Hx. apply H. right. exact Hx.
Qed.

Lemma filter_map_commute {A} (p : A -> bool) (f : A -> A) (l : list A) :
  (forall x, p (f x) = p x) -> filter p (map f l) = map f (filter p l).
Proof.
  intros Hp. induction l as [|a l IH]; cbn; [reflexivity|].
  rewrite Hp. destruct (p a); cbn; rewrite IH; reflexivity.
Qed.

Lemma filter_unique (g : QuestionFeedback.t -> string) (l : list QuestionFeedback.t)
      (x : QuestionFeedback.t) :
  NoDup (map g l) -> In x l ->
  filter (fun y => String.eqb (g y) (g x)) l = [x].
Proof.
  induction l as [|a l IH]; cbn; intros Hnd Hx; [destruct Hx|].
  apply NoDup_cons_iff in Hnd. destruct Hnd as [Ha Hnd].
  destruct Hx as [->|Hx].
  - rewrite String.eqb_refl. f_equal. apply filter_none.
    intros y Hy. apply String.eqb_neq. intros E. apply Ha. rewrite <- E.
    apply in_map. exact Hy.
  - destruct (String.eqb (g a) (g x)) eqn:E.
    + apply String.eqb_eq in E. destruct Ha. rewrite E. apply in_map. exact Hx.
    + apply IH; assumption.
Qed.

Lemma insert_question_inv (id sid : string) (text : PyVal) (idx : Z) (d d' : Database) :
  insert_question id sid text idx d = inr d' ->
  exists t,
    bind_text text = inr t /\
    (forall q, In q (interview_questions d) -> InterviewQuestion.id q <> id) /\
    d' = mkDatabase (dialect d) (interview_sessions d)
                    (interview_questions d ++ [InterviewQuestion.mk id sid t None idx])
                    (question_feedback d).
Proof.
  unfold insert_question.
  destruct (bind_text text) as [e|t]; [discriminate|].
  destruct (existsb _ _) eqn:E; [discriminate|]. intros [= <-].
  exists t. split; [reflexivity|]. split; [|reflexivity].
  intros q Hq Hid.
  assert (Hb : existsb (fun q' => String.eqb (InterviewQuestion.id q') id)
                       (interview_questions d) = true).
  { apply existsb_exists. exists q. split; [exact Hq|]. apply String.eqb_eq. exact Hid. }
  congruence.
Qed.

(** The primary key of [interview_questions] keeps question ids apart. *)
Lemma execute_question_writes_nodup (env : Env) (sid : string) (items : list PyVal) :
  forall (idx : nat) (d d' : Database),
    execute_all (question_writes env sid idx items) d = inr d' ->
    NoDup (map InterviewQuestion.id (interview_questions d)) ->
    NoDup (map InterviewQuestion.id (interview_questions d')).
Proof.
  induction items as [|text items IH]; intros idx d d'.
  - cbn. intros [= <-] H. exact H.
  - cbn [question_writes execute_all execute].
    destruct (insert_question _ _ _ _ d) as [e|d1] eqn:Hins; [discriminate|].
    intros Hrest Hnd. apply (IH _ _ _ Hrest).
    apply insert_question_inv in Hins. destruct Hins as (t & _ & Hfresh & ->).
    cbn [interview_questions]. apply NoDup_map_snoc; [exact Hnd|].
    intros y Hy. cbn. apply Hfresh. exact Hy.
Qed.

Lemma feedback_consistent_start_interview
      (env : Env) (uid : string) (data : StartInterviewRequest) (db : Database) :
  feedback_consistent db ->
  feedback_consistent (database (start_interview env uid data db)).
Proof.
  intros Hdb.
  destruct (StartInterviewRequest_valid data) eqn:Hvalid.
  2:{ unfold start_interview. rewrite Hvalid. exact Hdb. }
  rewrite (start_interview_run env uid data db Hvalid).
  destruct (insert_session (new_session env uid data) db) as [e|d1] eqn:Hins;
    [exact Hdb|].
  destruct (AIService.generate_questions _ _ _ _) as [e|v]; [exact Hdb|].
  destruct (Py.iter v) as [e|items]; [exact Hdb|].
  destruct (execute_all _ d1) as [e|d2] eqn:Hexec; [exact Hdb|].
  cbn [database].
  apply insert_session_inv in Hins. destruct Hins as (_ & ->).
  pose proof (execute_question_writes_nodup _ _ _ _ _ _ Hexec) as Hnd.
  apply execute_question_writes in Hexec.
  destruct Hexec as (texts & _ & _ & _ & Hq & Hf).
  cbn in Hq, Hf, Hnd.
  destruct (new_questions_shape env (uuid4 env 0) texts 0) as (_ & _ & _ & _ & Hrows).
  rewrite Forall_forall in Hrows.
  destruct Hdb as [J1 J2 J3 J4 J5].
  constructor.
  - apply Hnd. exact J1.
  - rewrite Hf. exact J2.
  - rewrite Hf, Hq. intros f Hin. destruct (J3 f Hin) as (q & Hq' & Hid & Ha).
    exists q. split; [apply in_or_app; left; exact Hq' | auto].
  - rewrite Hf, Hq. intros q Hin Ha. apply in_app_or in Hin.
    destruct Hin as [Hin|Hin]; [exact (J4 q Hin Ha)|].
    destruct (Hrows q Hin) as [_ Hnone]. contradiction.
  - rewrite Hf. exact J5.
Qed.

Lemma bind_integer_as_int (v : PyVal) (z : Z) :
  bind_integer v = inr z -> InterviewService.as_int v = inr z.
Proof. destruct v; cbn; congruence. Qed.

(** The unique index of [question_feedback] rejects a second row for a
    question. *)
Lemma submit_writes_fresh
      (qid a fid : string) (sc ov ss im : PyVal) (s : InterviewSession.t)
      (final : option Q) (db db' : Database) :
  execute_all ([SetUserAnswer qid a; AddFeedback fid qid sc ov ss im]
                 ++ completion_writes s final)%list db = inr db' ->
  forall f, In f (question_feedback db) ->
            QuestionFeedback.id f <> fid /\ QuestionFeedback.question_id f <> qid.
Proof.
  cbn [app execute_all execute].
  destruct (insert_feedback _ _ _ _ _ _ _) as [e|d1] eqn:Hins; [discriminate|].
  intros _. apply insert_feedback_inv in Hins.
  destruct Hins as (z & text & _ & _ & Hfresh & _). exact Hfresh.
Qed.

Lemma feedback_consistent_submit_answer
      (env : Env) (uid sid qid : string) (data : SubmitAnswerRequest) (db : Database) :
  feedback_consistent db ->
  feedback_consistent (database (submit_answer env uid sid qid data db)).
Proof.
  intros Hdb. unfold submit_answer.
  destruct (SubmitAnswerRequest_valid data) eqn:Hvalid; [|exact Hdb].
  rewrite run_request_eq. cbn [database].
  destruct (InterviewService.submit_answer env sid qid uid data (SessionLocal db))
    as [res st] eqn:E.
  apply submit_answer_outcomes in E. cbn [snd].
  destruct E as [(-> & _)
                |(s & q & fd & sc & ov & ss & im & final & z & text & Hs & Hq & Ht
                  & Hfd & Hsc & Hexec & _ & Hz & Htx & _)]; [exact Hdb|].
  pose proof (submit_writes_fresh _ _ _ _ _ _ _ _ _ _ _ Hexec) as Hfresh.
  apply submit_writes_effect in Hexec.
  destruct Hexec as (z' & text' & Hz' & Htx' & _ & Hqs & Hfs & _).
  assert (z' = z) by congruence. assert (text' = text) by congruence. subst z' text'.
  pose proof (evaluate_answer_score_range
                _ _ _ _ _ _ _ _ Hfd Hsc (bind_integer_as_int _ _ Hz)) as Hrange.
  destruct (question_of_session_found _ _ _ _ Hq) as (Hqin & _ & _).
  set (g := fun x => if String.eqb (InterviewQuestion.id x) (InterviewQuestion.id q)
                     then InterviewQuestion.set_user_answer (Some (answer data)) x
                     else x) in Hqs.
  assert (Hg : forall x, InterviewQuestion.id (g x) = InterviewQuestion.id x).
  { intros x. unfold g.
    destruct (String.eqb (InterviewQuestion.id x) (InterviewQuestion.id q));
      reflexivity. }
  destruct Hdb as [J1 J2 J3 J4 J5].
  constructor.
  - rewrite Hqs, map_map. rewrite (map_ext _ InterviewQuestion.id Hg). exact J1.
  - rewrite Hfs. apply NoDup_map_snoc; [exact J2|].
    intros y Hy. cbn. apply (Hfresh y Hy).
  - rewrite Hfs, Hqs. intros f Hin. apply in_app_or in Hin.
    destruct Hin as [Hin|[<-|[]]].
    + destruct (J3 f Hin) as (q0 & Hq0 & Hid & Ha).
      exists (g q0). split; [apply in_map; exact Hq0|]. split; [rewrite Hg; exact Hid|].
      unfold g.
      destruct (String.eqb (InterviewQuestion.id q0) (InterviewQuestion.id q));
        [discriminate | exact Ha].
    + exists (g q). split; [apply in_map; exact Hqin|]. split; [apply Hg|].
      unfold g. rewrite String.eqb_refl. discriminate.
  - rewrite Hfs, Hqs. intros q' Hin Ha. apply in_map_iff in Hin.
    destruct Hin as (x & <- & Hx). rewrite Hg.
    destruct (String.eqb (InterviewQuestion.id x) (InterviewQuestion.id q)) eqn:Ex.
    + apply String.eqb_eq in Ex. eexists. split.
      * apply in_or_app. right. left. reflexivity.
      * cbn. symmetry. exact Ex.
    + unfold g in Ha. rewrite Ex in Ha. destruct (J4 x Hx Ha) as (f & Hf & Hid).
      exists f. split; [apply in_or_app; left; exact Hf | exact Hid].
  - rewrite Hfs. intros f Hin. apply in_app_or in Hin.
    destruct Hin as [Hin|[<-|[]]]; [exact (J5 f Hin) | exact Hrange].
Qed.

Lemma reachable_feedback_consistent (db : Database) :
  reachable db -> feedback_consistent db.
Proof.
  induction 1 as [engine | env uid data db _ IH | env uid sid qid data db _ IH].
  - constructor; cbn;
      [constructor | constructor | intros x [] | intros x [] | intros x []].
  - apply feedback_consistent_start_interview. exact IH.
  - apply feedback_consistent_submit_answer. exact IH.
Qed.

(** X8.  In every database the application can be in, feedback and
    answers go together: a question without an answer has no feedback
    row, and an answered question has exactly one, whose score lies in
    [0,100]. *)
Theorem reachable_feedback_matches_answers :
  forall (db : Database) (q : InterviewQuestion.t),
    reachable db ->
    In q (interview_questions db) ->
    match InterviewQuestion.user_answer q with
    | None => stored_feedback (InterviewQuestion.id q) db = []
    | Some _ =>
        exists f, stored_feedback (InterviewQuestion.id q) db = [f] /\
                  0 <= QuestionFeedback.score f <= 100
    end.
Proof.
  intros db q Hdb Hq.
  destruct (reachable_feedback_consistent db Hdb) as [J1 J2 J3 J4 J5].
  destruct (InterviewQuestion.user_answer q) as [a|] eqn:Ha.
  - destruct (J4 q Hq) as (f & Hf & Hid); [congruence|].
    exists f. split; [|exact (J5 f Hf)].
    unfold stored_feedback. rewrite <- Hid.
    apply (filter_unique QuestionFeedback.question_id); assumption.
  - unfold stored_feedback. apply filter_none. intros f Hf.
    apply String.eqb_neq. intros Hid.
    destruct (J3 f Hf) as (q0 & Hq0 & Hid0 & Ha0).
    assert (q0 = q).
    { apply (NoDup_map_inj InterviewQuestion.id (interview_questions db));
        try assumption. congruence. }
    subst q0. congruence.
Qed.

Lemma reachable_feedback_matches_answers_witness :
  (exists f, stored_feedback "s-2" (database Scenario.second) = [f] /\
             0 <= QuestionFeedback.score f <= 100) /\
  stored_feedback "s-3" (database Scenario.second) = [].
Proof.
  assert (H : reachable (database Scenario.second)).
  { do 2 apply reachable_submit_answer. apply reachable_start_interview.
    apply reachable_empty. }
  split.
  - apply (reachable_feedback_matches_answers
             (database Scenario.second)
             (InterviewQuestion.mk "s-2" "s-0" "What is a transaction?"
                                   (Some "My answer.") 1) H).
    vm_compute. right. left. reflexivity.
  - apply (reachable_feedback_matches_answers
             (database Scenario.second)
             (InterviewQuestion.mk "s-3" "s-0" "What is a deadlock?" None 2) H).
    vm_compute. right. right. left. reflexivity.
Defined.

Lemma questions_numbered_start_interview
      (env : Env) (uid : string) (data : StartInterviewRequest) (db : Database) :
  consistent db -> questions_numbered db ->
  questions_numbered (database (start_interview env uid data db)).
Proof.
  intros Hc Hdb.
  destruct (StartInterviewRequest_valid data) eqn:Hvalid.
  2:{ unfold start_interview. rewrite Hvalid. exact Hdb. }
  rewrite (start_interview_run env uid data db Hvalid).
  destruct (insert_session (new_session env uid data) db) as [e|d1] eqn:Hins;
    [exact Hdb|].
  destruct (AIService.generate_questions _ _ _ _) as [e|v] eqn:Hgen; [exact Hdb|].
  destruct (Py.iter v) as [e|items] eqn:Hiter; [exact Hdb|].
  destruct (execute_all _ d1) as [e|d2] eqn:Hexec; [exact Hdb|].
  cbn [database].
  pose proof (valid_question_count data Hvalid) as Hrange.
  assert (Hcount : 0 <= req_question_count data) by lia.
  destruct (generate_questions_exact_length _ _ _ _ _ Hcount Hgen)
    as (items' & Hiter' & Hlen).
  rewrite Hiter in Hiter'. injection Hiter' as <-.
  apply execute_question_writes in Hexec.
  destruct Hexec as (texts & -> & _ & Hs & Hq & _).
  apply insert_session_inv in Hins. destruct Hins as (Hnone & ->).
  cbn in Hs, Hq, Hnone. rewrite length_map in Hlen.
  destruct (new_questions_shape env (uuid4 env 0) texts 0) as (_ & _ & Hidx & _ & Hrows).
  rewrite Forall_forall in Hrows.
  assert (Hold : forall s, In s (interview_sessions db) ->
                           InterviewSession.id s <> uuid4 env 0).
  { intros s Hin Heq.
    pose proof (proj1 (find_none_iff _ _) Hnone s Hin) as Hf. cbn in Hf.
    rewrite Heq, String.eqb_refl in Hf. discriminate. }
  intros s Hin. rewrite Hs in Hin. unfold questions_of. rewrite Hq, filter_app, map_app.
  apply in_app_or in Hin. destruct Hin as [Hin|[<-|[]]].
  - rewrite (filter_none _ (new_questions env (uuid4 env 0) 0 texts)).
    + cbn [map]. rewrite app_nil_r. exact (Hdb s Hin).
    + intros q Hq'. destruct (Hrows q Hq') as [-> _].
      apply String.eqb_neq. intros Heq. apply (Hold s Hin). symmetry. exact Heq.
  - rewrite (filter_none _ (interview_questions db)).
    + rewrite (filter_all _ (new_questions env (uuid4 env 0) 0 texts)).
      * cbn [map app]. rewrite Hidx.
        cbn [InterviewSession.question_count new_session]. split; [lia|].
        replace (Z.to_nat (req_question_count data)) with (List.length texts) by lia.
        reflexivity.
      * intros q Hq'. destruct (Hrows q Hq') as [-> _]. cbn. apply String.eqb_refl.
    + intros q Hq'. apply String.eqb_neq. intros Heq.
      destruct (questions_have_session db Hc q Hq') as (s0 & Hs0 & Hid).
      apply (Hold s0 Hs0). rewrite Hid. exact Heq.
Qed.

Lemma questions_numbered_submit_answer
      (env : Env) (uid sid qid : string) (data : SubmitAnswerRequest) (db : Database) :
  questions_numbered db ->
  questions_numbered (database (submit_answer env uid sid qid data db)).
Proof.
  intros Hdb. unfold submit_answer.
  destruct (SubmitAnswerRequest_valid data) eqn:Hvalid; [|exact Hdb].
  rewrite run_request_eq. cbn [database].
  destruct (InterviewService.submit_answer env sid qid uid data (SessionLocal db))
    as [res st] eqn:E.
  apply submit_answer_outcomes in E. cbn [snd].
  destruct E as [(-> & _)
                |(s & q & fd & sc & ov & ss & im & final & z & text & _ & _ & _
                  & _ & _ & Hexec & _)]; [exact Hdb|].
  apply submit_writes_effect in Hexec.
  destruct Hexec as (z' & text' & _ & _ & _ & Hqs & _ & Hss).
  set (g := fun x => if String.eqb (InterviewQuestion.id x) (InterviewQuestion.id q)
                     then InterviewQuestion.set_user_answer (Some (answer data)) x
                     else x) in Hqs.
  assert (Hg1 : forall x, InterviewQuestion.session_id (g x)
                          = InterviewQuestion.session_id x).
  { intros x. unfold g.
    destruct (String.eqb (InterviewQuestion.id x) (InterviewQuestion.id q));
      reflexivity. }
  assert (Hg2 : forall x, InterviewQuestion.order_index (g x)
                          = InterviewQuestion.order_index x).
  { intros x. unfold g.
    destruct (String.eqb (InterviewQuestion.id x) (InterviewQuestion.id q));
      reflexivity. }
  assert (Hof : forall i, map InterviewQuestion.order_index (questions_of i (durable st))
                          = map InterviewQuestion.order_index (questions_of i db)).
  { intros i. unfold questions_of.
    rewrite Hqs, filter_map_commute by (intros x; rewrite Hg1; reflexivity).
    rewrite map_map. apply map_ext. exact Hg2. }
  intros s' Hin. rewrite Hof. rewrite Hss in Hin. destruct final as [v|].
  - apply in_map_iff in Hin. destruct Hin as (x & <- & Hx).
    destruct (String.eqb (InterviewSession.id x) (InterviewSession.id s));
      exact (Hdb x Hx).
  - exact (Hdb s' Hin).
Qed.

Lemma reachable_questions_numbered (db : Database) :
  reachable db -> questions_numbered db.
Proof.
  induction 1 as [engine | env uid data db Hr IH | env uid sid qid data db Hr IH].
  - intros s [].
  - apply questions_numbered_start_interview;
      [apply reachable_consistent; exact Hr | exact IH].
  - apply questions_numbered_submit_answer. exact IH.
Qed.

(** X9.  In every database the application can be in, a session holds
    exactly the questions it was created with: its [question_count] lies
    in [3,10], it has [question_count] question rows, neither fewer nor
    more, and their [order_index] runs 0, 1, ..., [question_count] - 1 in
    the order of the table. *)
Theorem reachable_session_holds_its_questions :
  forall (db : Database) (s : InterviewSession.t),
    reachable db ->
    In s (interview_sessions db) ->
    3 <= InterviewSession.question_count s <= 10 /\
    Z.of_nat (List.length (questions_of (InterviewSession.id s) db))
    = InterviewSession.question_count s /\
    map InterviewQuestion.order_index (questions_of (InterviewSession.id s) db)
    = map Z.of_nat (seq 0 (Z.to_nat (InterviewSession.question_count s))).
Proof.
  intros db s Hdb Hs.
  destruct (reachable_questions_numbered db Hdb s Hs) as [Hrange Hidx].
  split; [exact Hrange|]. split; [|exact Hidx].
  apply (f_equal (@List.length Z)) in Hidx.
  rewrite !length_map, length_seq in Hidx. lia.
Qed.

Lemma reachable_session_holds_its_questions_witness :
  map InterviewQuestion.order_index (questions_of "t-0" Examples.two_sessions)
  = [0; 1; 2].
Proof.
  apply (reachable_session_holds_its_questions
           Examples.two_sessions
           (InterviewSession.mk "t-0" "bob" "Backend Engineer" "Easy" 3
                                None "false" 2000)).
  - apply reachable_start_interview. do 2 apply reachable_submit_answer.
    apply reachable_start_interview. apply reachable_empty.
  - vm_compute. right. left. reflexivity.
Defined.

Lemma evaluate_answer_of_typed_reply
      (d : list (string * PyVal)) (z : Z) (ov : PyVal) (ss im : list PyVal)
      (question answer role difficulty : string) :
  Py.dict_lookup "score" d = Some (VInt z) ->
  Py.dict_lookup "overall_feedback" d = Some ov ->
  Py.dict_lookup "strengths" d = Some (VList ss) ->
  Py.dict_lookup "improvements" d = Some (VList im) ->
  exists fd,
    AIService.evaluate_answer (Content (VDict d)) question answer role difficulty
    = inr fd /\
    Py.getitem fd "score" = inr (VInt (Py.clamp 0 100 z)) /\
    Py.getitem fd "overall_feedback" = inr ov /\
    Py.getitem fd "strengths" = inr (VList (firstn 5 ss)) /\
    Py.getitem fd "improvements" = inr (VList (firstn 5 im)).
Proof.
  intros Hraw Hov Hst Him.
  unfold AIService.evaluate_answer, ResultMonad.bind.
  cbn [AIService._extract_json Py.keys].
  assert (E : Py.issubset AIService.required_keys (map fst d) = true).
  { apply issubset_lookup. intros k Hk. simpl in Hk.
    destruct Hk as [<-|[<-|[<-|[<-|[]]]]]; eauto. }
  rewrite E. cbn [negb Py.getitem Py.get Py.setitem].
  rewrite Hraw. cbn [Py.int Py.getitem Py.get Py.setitem].
  rewrite dict_lookup_store_other by reflexivity. rewrite Hst.
  cbn [Py.slice_to Py.getitem Py.get Py.setitem].
  rewrite !dict_lookup_store_other by reflexivity. rewrite Him.
  cbn [Py.slice_to Py.getitem Py.get Py.setitem].
  eexists. split; [reflexivity|].
  cbn [Py.getitem]. dict_simpl. rewrite Hov. repeat split; reflexivity.
Qed.

Lemma validate_str_list_strings (l : list string) :
  validate_str_list (map VStr l) = inr l.
Proof.
  induction l as [|a l IH]; cbn; [reflexivity|]. rewrite IH. reflexivity.
Qed.

Lemma existsb_false {A} (p : A -> bool) (l : list A) :
  (forall x, In x l -> p x = false) -> existsb p l = false.
Proof.
  intros H. destruct (existsb p l) eqn:E; [|reflexivity].
  apply existsb_exists in E. destruct E as (x & Hx & Hp).
  rewrite (H x Hx) in Hp. discriminate.
Qed.

(** X10.  In every database the application can be in, answering an open
    question of one's own session succeeds whenever the provider replies
    with an integer score, a text, and two lists of strings, and the
    generated feedback id is new: the response carries the score clamped
    into [0,100] and the first five strengths and improvements, both
    completion flags are false, and the one commit stores the answer. *)
Theorem submit_answer_accepts_open_question :
  forall (env : Env) (uid sid qid : string) (data : SubmitAnswerRequest)
         (db : Database) (s : InterviewSession.t) (q : InterviewQuestion.t)
         (d : list (string * PyVal)) (z : Z) (ov : string) (ss im : list string),
    reachable db ->
    SubmitAnswerRequest_valid data = true ->
    InterviewService.session_of_user sid uid db = Some s ->
    InterviewService.question_of_session qid sid db = Some q ->
    InterviewQuestion.user_answer q = None ->
    groq env = Content (VDict d) ->
    Py.dict_lookup "score" d = Some (VInt z) ->
    Py.dict_lookup "overall_feedback" d = Some (VStr ov) ->
    Py.dict_lookup "strengths" d = Some (VList (map VStr ss)) ->
    Py.dict_lookup "improvements" d = Some (VList (map VStr im)) ->
    InterviewService.feedback_by_id (uuid4 env 0) db = None ->
    let o := submit_answer env uid sid qid data db in
    response o
    = inr (mkSubmitAnswerResponse
             qid
             (mkFeedbackResponse (uuid4 env 0) (Z.max 0 (Z.min 100 z)) ov
                                 (firstn 5 ss) (firstn 5 im))
             false false) /\
    committed o = [database o] /\
    stored_answer qid sid (database o) = Some (answer data) /\
    interview_sessions (database o) = interview_sessions db.
Proof.
  intros env uid sid qid data db s q d z ov ss im Hdb Hvalid Hs Hq Ha Hgroq
         Hraw Hov Hst Him Hfresh o.
  pose proof (reachable_consistent db Hdb) as Hc.
  pose proof (reachable_feedback_consistent db Hdb) as Hfc.
  destruct (question_of_session_found _ _ _ _ Hq) as (Hqin & Hqid & Hqsid).
  destruct (session_of_user_found _ _ _ _ Hs) as (Hsin & Hsid & _).
  destruct (evaluate_answer_of_typed_reply
              d z (VStr ov) (map VStr ss) (map VStr im)
              (InterviewQuestion.question_text q) (answer data)
              (InterviewSession.role s) (InterviewSession.difficulty s)
              Hraw Hov Hst Him) as (fd & Hfd & Hsc & Hovf & Hssf & Himf).
  assert (Hlast : (InterviewSession.question_count s
                   <=? Z.of_nat (List.length (InterviewService.answered_questions sid db)))
                  = false).
  { apply (stored_answers_below_count sid qid db s q Hq Ha).
    rewrite <- Hsid. exact (questions_within_count db Hc s Hsin). }
  assert (Hnew : forall f, In f (question_feedback db) ->
                           String.eqb (QuestionFeedback.id f) (uuid4 env 0)
                           || String.eqb (QuestionFeedback.question_id f)
                                         (InterviewQuestion.id q) = false).
  { intros f Hf. apply orb_false_iff. split.
    - exact (proj1 (find_none_iff _ _) Hfresh f Hf).
    - apply String.eqb_neq. intros Hid.
      destruct (feedback_of_answered db Hfc f Hf) as (q0 & Hq0 & Hid0 & Ha0).
      assert (q0 = q).
      { apply (NoDup_map_inj InterviewQuestion.id (interview_questions db));
          try assumption; [exact (question_ids_unique db Hfc) | congruence]. }
      subst q0. congruence. }
  set (f := QuestionFeedback.mk (uuid4 env 0) (InterviewQuestion.id q)
                                (Py.clamp 0 100 z) ov
                                (VList (firstn 5 (map VStr ss)))
                                (VList (firstn 5 (map VStr im)))).
  set (db' := mkDatabase
                (dialect db) (interview_sessions db)
                (map (fun q0 =>
                        if String.eqb (InterviewQuestion.id q0) (InterviewQuestion.id q)
                        then InterviewQuestion.set_user_answer (Some (answer data)) q0
                        else q0) (interview_questions db))
                (question_feedback db ++ [f])).
  assert (Hins : insert_feedback
                   (uuid4 env 0) (InterviewQuestion.id q) (VInt (Py.clamp 0 100 z))
                   (VStr ov) (VList (firstn 5 (map VStr ss)))
                   (VList (firstn 5 (map VStr im)))
                   (update_question (InterviewQuestion.id q)
                      (InterviewQuestion.set_user_answer (Some (answer data))) db)
                 = inr db').
  { unfold insert_feedback. cbn [bind_integer bind_text].
    rewrite existsb_false; [reflexivity | exact Hnew]. }
  assert (Hfind : InterviewService.feedback_by_id (uuid4 env 0) db' = Some f).
  { unfold InterviewService.feedback_by_id, db'. cbn [question_feedback].
    apply find_app_last.
    - intros y Hy. exact (proj1 (find_none_iff _ _) Hfresh y Hy).
    - cbn. apply String.eqb_refl. }
  assert (Hval : FeedbackResponse_model_validate f
                 = inr (mkFeedbackResponse (uuid4 env 0) (Z.max 0 (Z.min 100 z)) ov
                                           (firstn 5 ss) (firstn 5 im))).
  { unfold FeedbackResponse_model_validate, f.
    cbn [QuestionFeedback.strengths QuestionFeedback.improvements validate_list_of_str].
    rewrite !firstn_map, !validate_str_list_strings. reflexivity. }
  assert (Hrun : InterviewService.submit_answer env sid qid uid data (SessionLocal db)
                 = (inr (mkSubmitAnswerResponse
                           qid
                           (mkFeedbackResponse (uuid4 env 0) (Z.max 0 (Z.min 100 z)) ov
                                               (firstn 5 ss) (firstn 5 im))
                           false false),
                    mkOrmSession false db' db' [] [db'])).
  { unfold InterviewService.submit_answer, InterviewService._get_session_for_user,
      InterviewService.refresh_feedback.
    unfold db_commit, db_query, db_flush, db_add, rollback_state, SessionLocal,
      bind, ret, raise, lift.
    cbn [autoflush durable tx pending commits fst snd app].
    rewrite Hs. cbn [autoflush durable tx pending commits fst snd app].
    rewrite Hq. cbn [autoflush durable tx pending commits fst snd app].
    rewrite Ha. cbn [InterviewService.truthy_text]. rewrite Hgroq, Hfd.
    cbn [autoflush durable tx pending commits fst snd app].
    rewrite Hsc, Hovf, Hssf, Himf.
    cbn [autoflush durable tx pending commits fst snd app].
    rewrite Hlast.
    cbn [autoflush durable tx pending commits fst snd app execute_all execute].
    rewrite Hins.
    cbn [autoflush durable tx pending commits fst snd app execute_all execute].
    rewrite Hfind, Hval. reflexivity. }
  subst o. unfold submit_answer. rewrite Hvalid, run_request_eq, Hrun.
  cbn [response database committed fst snd durable commits].
  split; [reflexivity|]. split; [reflexivity|]. split; [|reflexivity].
  apply (answer_written qid sid (answer data) db db' q Hq). reflexivity.
Qed.

Lemma submit_answer_accepts_open_question_witness :
  response Scenario.third
  = inr (mkSubmitAnswerResponse
           "s-3"
           (mkFeedbackResponse "h-0" 0 "Clear, but short." [] ["a"; "b"; "c"; "d"; "e"])
           false false)
  /\ stored_answer "s-3" "s-0" (database Scenario.third) = Some "My answer.".
Proof.
  destruct (submit_answer_accepts_open_question
              Scenario.third_env "alice" "s-0" "s-3" Scenario.my_answer
              (database Scenario.second)
              (InterviewSession.mk "s-0" "alice" "Backend Engineer" "Easy" 3
                                   None "false" 1000)
              (InterviewQuestion.mk "s-3" "s-0" "What is a deadlock?" None 2)
              [("score", VInt (-5));
               ("overall_feedback", VStr "Clear, but short.");
               ("strengths", VList (map VStr []));
               ("improvements", VList (map VStr Scenario.eight))]
              (-5) "Clear, but short." [] Scenario.eight)
    as (H1 & _ & H3 & _).
  - do 2 apply reachable_submit_answer. apply reachable_start_interview.
    apply reachable_empty.
  - reflexivity.
  - vm_compute. reflexivity.
  - vm_compute. reflexivity.
  - reflexivity.
  - reflexivity.
  - reflexivity.
  - reflexivity.
  - reflexivity.
  - reflexivity.
  - vm_compute. reflexivity.
  - split; [exact H1 | exact H3].
Defined.

(* ================================================================= *)
(** ** Analytics *)

Lemma weekly_loop_run (round1 : Q -> Q) (uid : string) (today : Z) (db : Database) :
  forall (days_back : list Z) (result : list Q),
    InterviewAnalytics.weekly_loop round1 uid today days_back result (SessionLocal db)
    = (inr (result
              ++ map (fun i =>
                        round1
                          (InterviewService.score_or_zero
                             (InterviewAnalytics.sql_avg
                                (map InterviewSession.final_score
                                     (InterviewAnalytics.sessions_of_day
                                        uid
                                        (InterviewAnalytics.midnight (today - i))
                                        (InterviewAnalytics.midnight (today - i)
                                         + InterviewAnalytics.microseconds_per_day)
                                        db)))))
                     days_back)%list,
       SessionLocal db).
Proof.
  induction days_back as [|i rest IH]; intros result.
  - cbn. rewrite app_nil_r. reflexivity.
  - cbn [InterviewAnalytics.weekly_loop map].
    unfold bind. unfold db_query at 1. cbn [autoflush SessionLocal tx].
    rewrite IH, <- app_assoc. reflexivity.
Qed.

(** A calendar day is the half-open interval between two midnights. *)
Lemma within_day (day t : Z) :
  (InterviewAnalytics.midnight day <=? t)
  && (t <? InterviewAnalytics.midnight day + InterviewAnalytics.microseconds_per_day)
  = (InterviewAnalytics.date t =? day).
Proof.
  unfold InterviewAnalytics.midnight, InterviewAnalytics.date,
    InterviewAnalytics.microseconds_per_day.
  pose proof (Z.div_mod t 86400000000 ltac:(lia)) as Hdm.
  pose proof (Z.mod_pos_bound t 86400000000 ltac:(lia)) as Hb.
  destruct (t / 86400000000 =? day) eqn:E.
  - apply Z.eqb_eq in E. apply andb_true_iff. split; [apply Z.leb_le | apply Z.ltb_lt]; lia.
  - apply Z.eqb_neq in E. apply andb_false_iff.
    destruct (Z_lt_ge_dec t (day * 86400000000)) as [Hlt|Hge].
    + left. apply Z.leb_gt. exact Hlt.
    + right. apply Z.ltb_ge. lia.
Qed.

Lemma sessions_of_day_by_date (uid : string) (day : Z) (db : Database) :
  InterviewAnalytics.sessions_of_day
    uid (InterviewAnalytics.midnight day)
    (InterviewAnalytics.midnight day + InterviewAnalytics.microseconds_per_day) db
  = filter (fun s =>
              String.eqb (InterviewSession.user_id s) uid
              && String.eqb (InterviewSession.is_completed s) "true"
              && (InterviewAnalytics.date (InterviewSession.created_at s) =? day))
           (interview_sessions db).
Proof.
  unfold InterviewAnalytics.sessions_of_day. apply filter_ext. intros s.
  rewrite <- within_day, andb_assoc. reflexivity.
Qed.

Lemma get_analytics_service_run
      (round1 : Q -> Q) (clock : Z) (uid : string) (db : Database) :
  InterviewAnalytics.get_analytics round1 clock uid (SessionLocal db)
  = (inr (let scored := InterviewAnalytics.scored_sessions_of uid db in
          let column := map InterviewSession.final_score scored in
          if Z.of_nat (List.length scored) =? 0
          then mkAnalyticsResponse 0 0 0 (repeat 0%Q 7)
          else mkAnalyticsResponse
                 (Z.of_nat (List.length scored))
                 (round1 (InterviewService.score_or_zero
                            (InterviewAnalytics.sql_avg column)))
                 (round1 (InterviewService.score_or_zero
                            (InterviewAnalytics.sql_max column)))
                 (map (fun back =>
                         daily_average round1 uid db
                                       (InterviewAnalytics.date clock - back))
                      [6; 5; 4; 3; 2; 1; 0])),
     SessionLocal db).
Proof.
  unfold InterviewAnalytics.get_analytics, InterviewAnalytics._get_weekly_scores.
  unfold bind. unfold db_query at 1. cbn [autoflush SessionLocal tx].
  cbv zeta.
  destruct (Z.of_nat (List.length (InterviewAnalytics.scored_sessions_of uid db)) =? 0).
  - reflexivity.
  - unfold db_query at 1. cbn [autoflush SessionLocal tx].
    rewrite weekly_loop_run. cbn [app fst snd ret].
    unfold daily_average. cbn [map].
    rewrite !sessions_of_day_by_date. reflexivity.
Qed.

(** The outcome of [GET /interviews/analytics]. *)
Lemma get_analytics_run (round1 : Q -> Q) (clock : Z) (uid : string) (db : Database) :
  get_analytics round1 clock uid db
  = mkOutcome
      (inr (let scored := InterviewAnalytics.scored_sessions_of uid db in
            let column := map InterviewSession.final_score scored in
            if Z.of_nat (List.length scored) =? 0
            then mkAnalyticsResponse 0 0 0 (repeat 0%Q 7)
            else mkAnalyticsResponse
                   (Z.of_nat (List.length scored))
                   (round1 (InterviewService.score_or_zero
                              (InterviewAnalytics.sql_avg column)))
                   (round1 (InterviewService.score_or_zero
                              (InterviewAnalytics.sql_max column)))
                   (map (fun back =>
                           daily_average round1 uid db
                                         (InterviewAnalytics.date clock - back))
                        [6; 5; 4; 3; 2; 1; 0])))
      db [].
Proof.
  unfold get_analytics.
  rewrite run_request_eq, get_analytics_service_run. reflexivity.
Qed.


(** X12.  When the user has a scored session, [weekly_scores] lists the
    seven calendar days (UTC) that end today, oldest first: entry k is the
    rounded average over the completed sessions the user created on the
    day 6 - k days before today, and 0 rounded when there is none.  The
    last entry is today's, whatever the day of the week. *)
Theorem weekly_scores_are_the_last_seven_days :
  forall (round1 : Q -> Q) (clock : Z) (uid : string) (db : Database)
         (r : AnalyticsResponse),
    response (get_analytics round1 clock uid db) = inr r ->
    total_sessions r <> 0 ->
    let today := InterviewAnalytics.date clock in
    weekly_scores r
    = map (fun back => daily_average round1 uid db (today - back))
          [6; 5; 4; 3; 2; 1; 0].
Proof.
  intros round1 clock uid db r H Htotal today. subst today.
  rewrite get_analytics_run in H. cbv zeta in H. cbn [response] in H.
  destruct (Z.of_nat (List.length (InterviewAnalytics.scored_sessions_of uid db)) =? 0);
    injection H as <-; [cbn in Htotal; contradiction | reflexivity].
Qed.

Lemma weekly_scores_are_the_last_seven_days_witness :
  [0 # 10; 733 # 10; 0 # 10; 0 # 10; 0 # 10; 0 # 10; 0 # 10]%Q
  = map (fun back =>
           daily_average Dashboard.half_up "alice" Scenario.history_db
                         (InterviewAnalytics.date Dashboard.noon_of_day_5 - back))
        [6; 5; 4; 3; 2; 1; 0].
Proof.
  apply (weekly_scores_are_the_last_seven_days
           Dashboard.half_up Dashboard.noon_of_day_5 "alice" Scenario.history_db
           (mkAnalyticsResponse
              2 (733 # 10) (900 # 10)
              [0 # 10; 733 # 10; 0 # 10; 0 # 10; 0 # 10; 0 # 10; 0 # 10]%Q)).
  - vm_compute. reflexivity.
  - discriminate.
Defined.

Lemma filter_filter {A} (a p : A -> bool) (l : list A) :
  filter (fun x => a x && p x) l = filter p (filter a l).
Proof.
  induction l as [|x l IH]; cbn; [reflexivity|].
  destruct (a x); cbn; [destruct (p x); rewrite IH; reflexivity | exact IH].
Qed.

Lemma completed_sessions_of_owned (uid : string) (db : Database) :
  InterviewService.completed_sessions_of uid db
  = filter (fun s => String.eqb (InterviewSession.is_completed s) "true")
           (sessions_owned_by uid db).
Proof. apply filter_filter. Qed.

Lemma scored_sessions_of_owned (uid : string) (db : Database) :
  InterviewAnalytics.scored_sessions_of uid db
  = filter (fun s => String.eqb (InterviewSession.is_completed s) "true"
                     && InterviewService.isnot_None (InterviewSession.final_score s))
           (sessions_owned_by uid db).
Proof.
  unfold InterviewAnalytics.scored_sessions_of, sessions_owned_by.
  rewrite <- filter_filter. apply filter_ext. intros s. rewrite andb_assoc. reflexivity.
Qed.

Lemma daily_average_owned (round1 : Q -> Q) (uid : string) (db : Database) (day : Z) :
  daily_average round1 uid db day
  = round1
      (InterviewService.score_or_zero
         (InterviewAnalytics.sql_avg
            (map InterviewSession.final_score
                 (filter (fun s =>
                            String.eqb (InterviewSession.is_completed s) "true"
                            && (InterviewAnalytics.date (InterviewSession.created_at s)
                                =? day))
                         (sessions_owned_by uid db))))).
Proof.
  unfold daily_average, sessions_owned_by.
  rewrite <- filter_filter. do 4 f_equal. apply filter_ext. intros s.
  rewrite andb_assoc. reflexivity.
Qed.

(** X13.  What a user reads depends on that user's session rows only:
    on two databases of the same engine that hold the same rows for the
    user, [get_history] and [get_analytics] return the same response,
    whatever the rows of the other users are. *)
Theorem reads_depend_on_own_sessions_only :
  forall (round1 : Q -> Q) (clock : Z) (uid : string) (limit : Z) (db db' : Database),
    dialect db = dialect db' ->
    sessions_owned_by uid db = sessions_owned_by uid db' ->
    response (get_history uid limit db) = response (get_history uid limit db') /\
    response (get_analytics round1 clock uid db)
    = response (get_analytics round1 clock uid db').
Proof.
  intros round1 clock uid limit db db' Hd Hown. split.
  - rewrite !get_history_run. cbn [response].
    unfold InterviewService.select_history.
    rewrite !completed_sessions_of_owned, Hd, Hown. reflexivity.
  - rewrite !get_analytics_run. cbn [response]. cbv zeta.
    rewrite !scored_sessions_of_owned, Hown.
    assert (Hw : map (fun back =>
                        daily_average round1 uid db
                                      (InterviewAnalytics.date clock - back))
                     [6; 5; 4; 3; 2; 1; 0]
                 = map (fun back =>
                          daily_average round1 uid db'
                                        (InterviewAnalytics.date clock - back))
                       [6; 5; 4; 3; 2; 1; 0]).
    { apply map_ext. intros back. rewrite !daily_average_owned, Hown. reflexivity. }
    rewrite Hw. reflexivity.
Qed.

Lemma reads_depend_on_own_sessions_only_witness :
  response (get_history "alice" 2 Scenario.history_db)
  = response (get_history "alice" 2
                (mkDatabase SQLite
                   (sessions_owned_by "alice" Scenario.history_db) [] [])).
Proof.
  apply (reads_depend_on_own_sessions_only
           Dashboard.half_up Dashboard.noon_of_day_5 "alice" 2 Scenario.history_db
           (mkDatabase SQLite (sessions_owned_by "alice" Scenario.history_db) [] [])).
  - reflexivity.
  - vm_compute. reflexivity.
Defined.

(** X14.  No database the application can be in shows anything to a
    reader: since no session is ever marked completed there, [get_history]
    returns the empty list for every user and every limit of at least 0,
    and [get_analytics] returns the all-zero dashboard. *)
Theorem reachable_reads_are_empty :
  forall (round1 : Q -> Q) (clock : Z) (uid : string) (limit : Z) (db : Database),
    reachable db ->
    0 <= limit ->
    response (get_history uid limit db) = inr [] /\
    response (get_analytics round1 clock uid db)
    = inr (mkAnalyticsResponse 0 0 0 [0; 0; 0; 0; 0; 0; 0]%Q).
Proof.
  intros round1 clock uid limit db Hdb Hlimit.
  pose proof (reachable_consistent db Hdb) as Hc.
  assert (Hopen : forall s, In s (interview_sessions db) ->
                            String.eqb (InterviewSession.is_completed s) "true" = false).
  { intros s Hs. destruct (sessions_open db Hc s Hs) as [-> _]. reflexivity. }
  split.
  - rewrite get_history_run. cbn [response].
    unfold InterviewService.select_history, InterviewService.completed_sessions_of.
    rewrite filter_none.
    + unfold InterviewService.sql_limit.
      destruct (limit <? 0) eqn:E; [apply Z.ltb_lt in E; lia|].
      cbn. rewrite firstn_nil. reflexivity.
    + intros s Hs. rewrite (Hopen s Hs). apply andb_false_r.
  - rewrite get_analytics_run. cbn [response]. cbv zeta.
    unfold InterviewAnalytics.scored_sessions_of. rewrite filter_none.
    + reflexivity.
    + intros s Hs. rewrite (Hopen s Hs). rewrite andb_false_r. reflexivity.
Qed.

Lemma reachable_reads_are_empty_witness :
  response (get_history "alice" 20 (database Scenario.third)) = inr [] /\
  response (get_analytics Dashboard.half_up Dashboard.noon_of_day_5 "alice"
                          (database Scenario.third))
  = inr (mkAnalyticsResponse 0 0 0 [0; 0; 0; 0; 0; 0; 0]%Q).
Proof.
  apply (reachable_reads_are_empty
           Dashboard.half_up Dashboard.noon_of_day_5 "alice" 20
           (database Scenario.third)).
  - do 3 apply reachable_submit_answer. apply reachable_start_interview.
    apply reachable_empty.
  - lia.
Defined.

(* ================================================================= *)
(** ** Unpacking the provider's response *)

(** X15.  A response with a success status whose parsed body lacks
    [choices], whose first choice lacks [message], or whose message lacks
    [content], makes [_extract_json] fail with 502 (UpstreamInvalid); the
    detail names the operation and the missing key. *)
Theorem extract_json_missing_key_is_502 :
  forall (json_loads : string -> GroqWire.Parsed) (r : GroqWire.Response)
         (context : string) (d : list (string * PyVal)),
    GroqWire.status_error r = None ->
    GroqWire.json r = GroqWire.Decoded (VDict d) ->
    let run := AIService._extract_json
                 (GroqWire.reply_of json_loads (GroqWire.Responded r)) context in
    let invalid k :=
      HTTPException 502 ("AI returned invalid response during " ++ context
                           ++ ": '" ++ k ++ "'") in
    (Py.dict_lookup "choices" d = None ->
     run = inl (invalid "choices") /\ UpstreamInvalid (invalid "choices")) /\
    (forall c rest,
        Py.dict_lookup "choices" d = Some (VList (VDict c :: rest)) ->
        Py.dict_lookup "message" c = None ->
        run = inl (invalid "message")) /\
    (forall c rest m,
        Py.dict_lookup "choices" d = Some (VList (VDict c :: rest)) ->
        Py.dict_lookup "message" c = Some (VDict m) ->
        Py.dict_lookup "content" m = None ->
        run = inl (invalid "content")).
Proof.
  intros json_loads r context d Hstatus Hjson run invalid. subst run invalid.
  unfold GroqWire.reply_of, GroqWire.unpack. rewrite Hstatus, Hjson.
  cbn [GroqWire.item].
  split; [|split].
  - intros ->. split; reflexivity.
  - intros c rest -> . cbn [GroqWire.first_item GroqWire.item]. intros ->. reflexivity.
  - intros c rest m ->. cbn [GroqWire.first_item GroqWire.item]. intros ->.
    cbn [GroqWire.item]. intros ->. reflexivity.
Qed.

Lemma extract_json_missing_key_is_502_witness :
  AIService._extract_json
    (GroqWire.reply_of (fun _ => GroqWire.DecodeError "Expecting value")
       (GroqWire.Responded
          (GroqWire.mkResponse
             None (GroqWire.Decoded (VDict [("error", VStr "model overloaded")])))))
    "answer evaluation"
  = inl (HTTPException
           502 "AI returned invalid response during answer evaluation: 'choices'").
Proof.
  apply (extract_json_missing_key_is_502
           (fun _ => GroqWire.DecodeError "Expecting value")
           (GroqWire.mkResponse
              None (GroqWire.Decoded (VDict [("error", VStr "model overloaded")])))
           "answer evaluation" [("error", VStr "model overloaded")]
           eq_refl eq_refl).
  reflexivity.
Defined.

(** X16.  Shapes [_extract_json] does not handle.  With a success status
    and a parsed body, an empty [choices] list raises an IndexError, a
    null [choices] a TypeError, and a message whose [content] is null (or
    anything but a string) a TypeError in [json.loads]: none of them is
    caught, so they leave the gateway as they are, not as 502 or 503, from
    [generate_questions] and from [evaluate_answer] alike. *)
Theorem extract_json_unhandled_shapes :
  forall (json_loads : string -> GroqWire.Parsed) (r : GroqWire.Response)
         (d : list (string * PyVal)) (role difficulty question answer : string)
         (count : Z),
    GroqWire.status_error r = None ->
    GroqWire.json r = GroqWire.Decoded (VDict d) ->
    let reply := GroqWire.reply_of json_loads (GroqWire.Responded r) in
    let escapes name :=
      AIService.generate_questions reply role difficulty count = inl (PyError name) /\
      AIService.evaluate_answer reply question answer role difficulty
      = inl (PyError name) /\
      status_of (PyError name) = None in
    (Py.dict_lookup "choices" d = Some (VList []) -> escapes "IndexError") /\
    (Py.dict_lookup "choices" d = Some VNone -> escapes "TypeError") /\
    (forall c rest m raw_text,
        Py.dict_lookup "choices" d = Some (VList (VDict c :: rest)) ->
        Py.dict_lookup "message" c = Some (VDict m) ->
        Py.dict_lookup "content" m = Some raw_text ->
        (forall s, raw_text <> VStr s) ->
        escapes "TypeError").
Proof.
  intros json_loads r d role difficulty question answer count Hstatus Hjson
         reply escapes. subst reply escapes.
  unfold AIService.generate_questions, AIService.evaluate_answer, ResultMonad.bind,
    GroqWire.reply_of, GroqWire.unpack.
  rewrite Hstatus, Hjson. cbn [GroqWire.item].
  split; [|split].
  - intros ->. cbn. repeat split.
  - intros ->. cbn. repeat split.
  - intros c rest m raw_text -> . cbn [GroqWire.first_item GroqWire.item].
    intros ->. cbn [GroqWire.item]. intros -> Hraw.
    destruct raw_text; try (cbn; repeat split; reflexivity).
    destruct (Hraw s eq_refl).
Qed.

Lemma extract_json_unhandled_shapes_witness :
  AIService.evaluate_answer
    (GroqWire.reply_of (fun _ => GroqWire.Decoded VNone)
       (GroqWire.Responded
          (GroqWire.mkResponse None (GroqWire.Decoded (GroqWire.completion VNone)))))
    "q" "a" "SRE" "Easy"
  = inl (PyError "TypeError")
  /\ AIService.generate_questions
       (GroqWire.reply_of (fun _ => GroqWire.Decoded VNone)
          (GroqWire.Responded
             (GroqWire.mkResponse
                None (GroqWire.Decoded (VDict [("choices", VList [])])))))
       "SRE" "Easy" 3
     = inl (PyError "IndexError").
Proof.
  split.
  - destruct (extract_json_unhandled_shapes
                (fun _ => GroqWire.Decoded VNone)
                (GroqWire.mkResponse None (GroqWire.Decoded (GroqWire.completion VNone)))
                [("id", VStr "chatcmpl-1");
                 ("choices", VList [VDict [("index", VInt 0);
                                           ("message", VDict [("role", VStr "assistant");
                                                              ("content", VNone)])]])]
                "SRE" "Easy" "q" "a" 3 eq_refl eq_refl) as (_ & _ & H).
    destruct (H [("index", VInt 0);
                 ("message", VDict [("role", VStr "assistant"); ("content", VNone)])]
                [] [("role", VStr "assistant"); ("content", VNone)] VNone
                eq_refl eq_refl eq_refl ltac:(discriminate)) as (_ & H2 & _).
    exact H2.
  - destruct (extract_json_unhandled_shapes
                (fun _ => GroqWire.Decoded VNone)
                (GroqWire.mkResponse
                   None (GroqWire.Decoded (VDict [("choices", VList [])])))
                [("choices", VList [])]
                "SRE" "Easy" "q" "a" 3 eq_refl eq_refl) as (H & _).
    destruct (H eq_refl) as (H1 & _). exact H1.
Defined.

(** X17.  The status is checked before the body is read: a response with
    an error status gives 503 (UpstreamUnavailable) whatever its body
    holds, also a well-formed completion.  With a success status, a body
    whose first choice carries a message with a string [content] yields
    what [json.loads] makes of that string: the parsed data, or 502 with
    the parser's message when the string is not JSON. *)
Theorem extract_json_reads_status_then_content :
  forall (json_loads : string -> GroqWire.Parsed) (r : GroqWire.Response)
         (context : string),
    let run := AIService._extract_json
                 (GroqWire.reply_of json_loads (GroqWire.Responded r)) context in
    (forall msg,
        GroqWire.status_error r = Some msg ->
        run = inl (HTTPException 503 ("AI service error: " ++ msg)) /\
        UpstreamUnavailable (HTTPException 503 ("AI service error: " ++ msg))) /\
    (forall d c rest m text,
        GroqWire.status_error r = None ->
        GroqWire.json r = GroqWire.Decoded (VDict d) ->
        Py.dict_lookup "choices" d = Some (VList (VDict c :: rest)) ->
        Py.dict_lookup "message" c = Some (VDict m) ->
        Py.dict_lookup "content" m = Some (VStr text) ->
        (forall data, json_loads text = GroqWire.Decoded data -> run = inr data) /\
        (forall msg,
            json_loads text = GroqWire.DecodeError msg ->
            run = inl (HTTPException
                         502 ("AI returned invalid response during " ++ context
                                ++ ": " ++ msg)))).
Proof.
  intros json_loads r context run. subst run.
  unfold GroqWire.reply_of, GroqWire.unpack. split.
  - intros msg ->. split; reflexivity.
  - intros d c rest m text -> -> . cbn [GroqWire.item]. intros ->.
    cbn [GroqWire.first_item GroqWire.item]. intros ->.
    cbn [GroqWire.item]. intros ->. cbn [GroqWire.loads].
    split; [intros data -> | intros msg ->]; reflexivity.
Qed.

Lemma extract_json_reads_status_then_content_witness :
  AIService._extract_json
    (GroqWire.reply_of (fun _ => GroqWire.Decoded (VDict [("questions", VList [])]))
       (GroqWire.Responded
          (GroqWire.mkResponse
             (Some "Server error '500 Internal Server Error'")
             (GroqWire.Decoded (GroqWire.completion (VStr "{}"))))))
    "question generation"
  = inl (HTTPException 503 "AI service error: Server error '500 Internal Server Error'").
Proof.
  apply (extract_json_reads_status_then_content
           (fun _ => GroqWire.Decoded (VDict [("questions", VList [])]))
           (GroqWire.mkResponse
              (Some "Server error '500 Internal Server Error'")
              (GroqWire.Decoded (GroqWire.completion (VStr "{}"))))
           "question generation").
  reflexivity.
Defined.

(* ================================================================= *)
(** ** Accounts *)

(** X18.  [login] answers an address that no account carries and a wrong
    password for an existing account with the same error, 401 "Invalid
    email or password.", whether or not that account is disabled: the
    response does not tell whether an address is registered. *)
Theorem login_invalid_credentials_are_uniform :
  forall (sec : Security) (env env' : AuthEnv) (data : UserLogin)
         (unknown known : list User.t) (u : User.t),
    AuthService.user_by_email (login_email data) unknown = None ->
    AuthService.user_by_email (login_email data) known = Some u ->
    pwd_verify sec (login_password data) (User.hashed_password u) = inr false ->
    AuthService.login sec env data unknown
    = inl (HTTPException 401 "Invalid email or password.") /\
    AuthService.login sec env' data known = AuthService.login sec env data unknown.
Proof.
  intros sec env env' data unknown known u Hnone Hsome Hwrong.
  unfold AuthService.login, SecurityCore.verify_password.
  rewrite Hnone, Hsome, Hwrong. split; reflexivity.
Qed.

Lemma login_invalid_credentials_are_uniform_witness :
  AuthService.login Accounts.toy Accounts.env2
                    (mkUserLogin "bob@example.com" "guess") (snd Accounts.after_alice)
  = inl (HTTPException 401 "Invalid email or password.")
  /\ AuthService.login Accounts.toy Accounts.env2
                       (mkUserLogin "bob@example.com" "guess")
                       (snd Accounts.after_alice ++ [Accounts.disabled_bob])%list
     = inl (HTTPException 401 "Invalid email or password.").
Proof.
  destruct (login_invalid_credentials_are_uniform
              Accounts.toy Accounts.env2 Accounts.env2
              (mkUserLogin "bob@example.com" "guess")
              (snd Accounts.after_alice)
              (snd Accounts.after_alice ++ [Accounts.disabled_bob])%list
              Accounts.disabled_bob eq_refl eq_refl eq_refl) as (H1 & H2).
  split; [exact H1 | rewrite H2; exact H1].
Defined.

(** X19.  [login] issues a token only for an account that carries the
    address, whose stored hash the password verifies against, and that is
    active; the token is made for the id of that account and the response
    describes that account.  A disabled account never gets one. *)
Theorem login_issues_tokens_to_verified_active_accounts :
  forall (sec : Security) (env : AuthEnv) (data : UserLogin) (users : list User.t)
         (r : TokenResponse),
    AuthService.login sec env data users = inr r ->
    exists u,
      In u users /\
      User.email u = login_email data /\
      pwd_verify sec (login_password data) (User.hashed_password u) = inr true /\
      User.is_active u = true /\
      access_token r = SecurityCore.create_access_token sec env (User.id u) /\
      token_type r = "bearer" /\
      ur_id (token_user r) = User.id u /\
      ur_name (token_user r) = User.name u.
Proof.
  intros sec env data users r.
  unfold AuthService.login, SecurityCore.verify_password, AuthService.user_by_email.
  destruct (find _ users) as [u|] eqn:Hu; [|discriminate].
  destruct (pwd_verify sec _ _) as [e|[|]] eqn:Hv; try discriminate.
  destruct (User.is_active u) eqn:Ha; [|discriminate]. cbn [negb].
  unfold AuthSchemas.UserResponse_model_validate.
  destruct (validate_email sec (User.email u)) as [address|]; [|discriminate].
  destruct (AuthSchemas.length_within 2 100 (User.name u)); [|discriminate].
  intros [= <-]. apply find_some in Hu. destruct Hu as [Hin He].
  apply String.eqb_eq in He.
  exists u. cbn. repeat split; assumption.
Qed.

Lemma login_issues_tokens_to_verified_active_accounts_witness :
  exists u,
    In u (snd Accounts.after_alice) /\
    User.email u = "alice@example.com" /\
    User.is_active u = true.
Proof.
  destruct (login_issues_tokens_to_verified_active_accounts
              Accounts.toy Accounts.env2
              (mkUserLogin "alice@example.com" "correct horse 1")
              (snd Accounts.after_alice)
              (mkTokenResponse
                 "jwt:u-1" "bearer"
                 (mkUserResponse "alice@example.com" "Alice" "u-1" true 1000)))
    as (u & Hin & He & _ & Ha & _).
  - vm_compute. reflexivity.
  - exists u. repeat split; assumption.
Defined.

Lemma insert_user_inv (u : User.t) (users users' : list User.t) :
  AuthService.insert_user u users = inr users' ->
  users' = (users ++ [u])%list /\
  forall x, In x users -> User.id x <> User.id u /\ User.email x <> User.email u.
Proof.
  unfold AuthService.insert_user.
  destruct (existsb _ users) eqn:E; [discriminate|]. intros [= <-].
  split; [reflexivity|]. intros x Hx.
  assert (Hb : String.eqb (User.id x) (User.id u)
               || String.eqb (User.email x) (User.email u) = false).
  { destruct (_ || _) eqn:Eb; [|reflexivity].
    rewrite <- E. symmetry. apply existsb_exists. exists x. auto. }
  apply orb_false_iff in Hb. destruct Hb as [H1 H2].
  apply String.eqb_neq in H1, H2. auto.
Qed.

(** What a registration that changed the table, or returned a response,
    went through. *)
Lemma register_service_inv
      (sec : Security) (env : AuthEnv) (data : UserRegister) (users : list User.t) :
  let out := AuthService.register sec env data users in
  snd out = users /\ (exists e, fst out = inl e) \/
  exists hashed,
    let u := User.mk (new_uuid env) (reg_email data) (reg_name data) hashed
                     true false (server_now env) in
    AuthService.user_by_email (reg_email data) users = None /\
    pwd_hash sec (salt env) (reg_password data) = inr hashed /\
    (forall x, In x users -> User.id x <> User.id u /\ User.email x <> User.email u) /\
    snd out = (users ++ [u])%list /\
    fst out
    = match AuthSchemas.UserResponse_model_validate sec u with
      | inl e => inl e
      | inr response =>
          inr (mkTokenResponse
                 (SecurityCore.create_access_token sec env (new_uuid env))
                 "bearer" response)
      end.
Proof.
  cbv zeta. unfold AuthService.register, SecurityCore.hash_password.
  destruct (AuthService.user_by_email (reg_email data) users) as [x|] eqn:Hfree;
    [left; cbn; eauto|].
  destruct (pwd_hash sec (salt env) (reg_password data)) as [e|hashed] eqn:Hh;
    [left; cbn; eauto|].
  destruct (AuthService.insert_user _ users) as [e|users'] eqn:Hins;
    [left; cbn; eauto|].
  apply insert_user_inv in Hins. destruct Hins as (-> & Hnew).
  right. exists hashed. cbn [User.id] in *.
  unfold AuthService.user_by_id.
  rewrite find_app_last.
  - split; [reflexivity|]. split; [reflexivity|]. split; [exact Hnew|].
    cbn [User.id].
    destruct (AuthSchemas.UserResponse_model_validate sec _); split; reflexivity.
  - intros y Hy. apply String.eqb_neq. apply (Hnew y Hy).
  - cbn. apply String.eqb_refl.
Qed.

(** X20.  [register] is all-or-nothing.  A request that ends in an error
    leaves the table as it was, unless the error is the validation of the
    response after the commit.  An address that an account already
    carries is refused with 400.  A request that returns a response has
    added exactly one account: active, not verified, with the address and
    name of the request, a password hash made by the hashing library, and
    the id the response and the token speak of. *)
Theorem register_is_all_or_nothing :
  forall (sec : Security) (env : AuthEnv) (data : UserRegister) (users : list User.t),
    let out := AuthService.register sec env data users in
    (forall e, fst out = inl e ->
               snd out = users \/ e = PyError "ValidationError") /\
    (forall existing,
        AuthService.user_by_email (reg_email data) users = Some existing ->
        out = (inl (HTTPException 400 "An account with this email already exists."),
               users)) /\
    (forall r, fst out = inr r ->
       exists u,
         snd out = (users ++ [u])%list /\
         User.email u = reg_email data /\
         User.name u = reg_name data /\
         pwd_hash sec (salt env) (reg_password data) = inr (User.hashed_password u) /\
         User.is_active u = true /\
         User.is_verified u = false /\
         ur_id (token_user r) = User.id u /\
         access_token r = SecurityCore.create_access_token sec env (User.id u)).
Proof.
  intros sec env data users out.
  pose proof (register_service_inv sec env data users) as H. cbv zeta in H.
  fold out in H.
  split; [|split].
  - intros e He.
    destruct H as [[Hs _]|(hashed & _ & _ & _ & _ & Hf)]; [left; exact Hs|].
    right. rewrite Hf in He.
    unfold AuthSchemas.UserResponse_model_validate in He.
    destruct (validate_email sec _); [|injection He as <-; reflexivity].
    destruct (AuthSchemas.length_within 2 100 _);
      [discriminate | injection He as <-; reflexivity].
  - intros existing Hex. subst out. unfold AuthService.register. rewrite Hex.
    reflexivity.
  - intros r Hr.
    destruct H as [[_ [e He]]|(hashed & _ & Hh & _ & Hs & Hf)]; [congruence|].
    rewrite Hf in Hr.
    unfold AuthSchemas.UserResponse_model_validate in Hr.
    destruct (validate_email sec _) as [address|]; [|discriminate].
    destruct (AuthSchemas.length_within 2 100 _); [|discriminate].
    injection Hr as <-.
    eexists. split; [exact Hs|]. cbn. repeat split. exact Hh.
Qed.

Lemma register_is_all_or_nothing_witness :
  snd (AuthService.register
         Accounts.toy Accounts.env2
         (mkUserRegister "alice@example.com" "Alice B." "another pass 2")
         (snd Accounts.after_alice))
  = snd Accounts.after_alice
  /\ fst (AuthService.register
            Accounts.toy Accounts.env2
            (mkUserRegister "alice@example.com" "Alice B." "another pass 2")
            (snd Accounts.after_alice))
     = inl (HTTPException 400 "An account with this email already exists.").
Proof.
  destruct (register_is_all_or_nothing
              Accounts.toy Accounts.env2
              (mkUserRegister "alice@example.com" "Alice B." "another pass 2")
              (snd Accounts.after_alice)) as (_ & H & _).
  rewrite (H (User.mk "u-1" "alice@example.com" "Alice" "$correct horse 1"
                      true false 1000) eq_refl).
  split; reflexivity.
Defined.

Lemma UserRegister_model_validate_inv
      (sec : Security) (email name password : string) (data : UserRegister) :
  AuthSchemas.UserRegister_model_validate sec email name password = inr data ->
  validate_email sec email = Some (reg_email data) /\
  reg_name data = name /\
  reg_password data = password /\
  AuthSchemas.length_within 2 100 name = true /\
  AuthSchemas.length_within 8 100 password = true /\
  AuthSchemas.password_must_have_letter password = true.
Proof.
  unfold AuthSchemas.UserRegister_model_validate.
  destruct (validate_email sec email) as [address|]; [|discriminate].
  destruct (AuthSchemas.length_within 2 100 name) eqn:E1; [|discriminate].
  destruct (AuthSchemas.length_within 8 100 password) eqn:E2; [|discriminate].
  destruct (AuthSchemas.password_must_have_letter password) eqn:E3; [|discriminate].
  cbn. intros [= <-]. cbn. repeat split.
Qed.



(** X22.  Registration and login fit together: when the password
    library verifies every password against the hash it made of it, the
    credentials of a successful registration log in on the table that the
    registration left, and the response describes the same account. *)
Theorem register_then_login :
  forall (sec : Security) (env env' : AuthEnv) (email name password : string)
         (users : list User.t) (r : TokenResponse),
    (forall s p h, pwd_hash sec s p = inr h -> pwd_verify sec p h = inr true) ->
    fst (register sec env email name password users) = inr r ->
    login sec env' email password (snd (register sec env email name password users))
    = inr (mkTokenResponse
             (SecurityCore.create_access_token sec env' (ur_id (token_user r)))
             "bearer" (token_user r)).
Proof.
  intros sec env env' email name password users r Hlib.
  unfold register, login.
  destruct (AuthSchemas.UserRegister_model_validate sec email name password)
    as [e|data] eqn:Hdata; [discriminate|].
  apply UserRegister_model_validate_inv in Hdata.
  destruct Hdata as (Hemail & Hname & Hpw & _).
  unfold AuthSchemas.UserLogin_model_validate. rewrite Hemail.
  pose proof (register_service_inv sec env data users) as Hreg. cbv zeta in Hreg.
  destruct Hreg as [[_ [e He]]|(hashed & Hfree & Hh & _ & -> & ->)];
    [intros Hr; congruence|].
  set (u := User.mk (new_uuid env) (reg_email data) (reg_name data) hashed
                    true false (server_now env)).
  destruct (AuthSchemas.UserResponse_model_validate sec u) as [e|response] eqn:Hv;
    [discriminate|].
  intros [= <-].
  unfold AuthService.login, AuthService.user_by_email, SecurityCore.verify_password.
  cbn [login_email login_password].
  rewrite find_app_last.
  - rewrite <- Hpw. cbn [User.hashed_password u]. rewrite (Hlib _ _ _ Hh).
    cbn [User.is_active u negb]. rewrite Hv. cbn [token_user].
    unfold AuthSchemas.UserResponse_model_validate in Hv.
    destruct (validate_email sec (User.email u)); [|discriminate].
    destruct (AuthSchemas.length_within 2 100 (User.name u)); [|discriminate].
    injection Hv as <-. reflexivity.
  - exact (proj1 (find_none_iff _ _) Hfree).
  - cbn. apply String.eqb_refl.
Qed.

Lemma register_then_login_witness :
  login Accounts.toy Accounts.env2 "alice@example.com" "correct horse 1"
        (snd Accounts.after_alice)
  = inr (mkTokenResponse
           "jwt:u-1" "bearer"
           (mkUserResponse "alice@example.com" "Alice" "u-1" true 1000)).
Proof.
  apply (register_then_login
           Accounts.toy Accounts.env1 Accounts.env2
           "alice@example.com" "Alice" "correct horse 1" []
           (mkTokenResponse
              "jwt:u-1" "bearer"
              (mkUserResponse "alice@example.com" "Alice" "u-1" true 1000))).
  - intros s p h [= <-]. cbn. rewrite String.eqb_refl. reflexivity.
  - vm_compute. reflexivity.
Defined.

(* ================================================================= *)
(** ** Scores that are no numbers *)

Lemma int_error_is_python (v : PyVal) (e : Exception) :
  Py.int v = inl e -> e = PyError "TypeError" \/ e = PyError "ValueError".
Proof.
  destruct v; cbn; try discriminate; try (intros [= <-]; left; reflexivity).
  destruct (Py.int_of_string s); [discriminate|]. intros [= <-]. right. reflexivity.
Qed.

(** X23.  A reply that has all four keys but a [score] that [int()]
    cannot convert (null, a list, an object, a string such as "8/10") is
    not reported as an invalid upstream response: [evaluate_answer] lets
    the TypeError or ValueError of the conversion through, which is no
    [HTTPException] and so neither 502 nor 503. *)
Theorem evaluate_answer_unconvertible_score_escapes :
  forall (d : list (string * PyVal)) (raw : PyVal) (e : Exception)
         (question answer role difficulty : string),
    Py.issubset AIService.required_keys (map fst d) = true ->
    Py.dict_lookup "score" d = Some raw ->
    Py.int raw = inl e ->
    AIService.evaluate_answer (Content (VDict d)) question answer role difficulty
    = inl e /\
    (e = PyError "TypeError" \/ e = PyError "ValueError") /\
    status_of e = None /\
    ~ UpstreamInvalid e /\ ~ UpstreamUnavailable e.
Proof.
  intros d raw e question answer role difficulty Hkeys Hraw Hint.
  unfold AIService.evaluate_answer, ResultMonad.bind.
  cbn [AIService._extract_json Py.keys]. rewrite Hkeys.
  cbn [negb Py.getitem]. rewrite Hraw, Hint.
  split; [reflexivity|].
  pose proof (int_error_is_python raw e Hint) as He.
  split; [exact He|].
  destruct He as [-> | ->]; (split; [reflexivity|]); split; discriminate.
Qed.

Lemma evaluate_answer_unconvertible_score_escapes_witness :
  AIService.evaluate_answer
    (Content (VDict [("score", VStr "8/10"); ("overall_feedback", VStr "Good.");
                     ("strengths", VList []); ("improvements", VList [])]))
    "q" "a" "SRE" "Easy"
  = inl (PyError "ValueError")
  /\ AIService.evaluate_answer
       (Content (VDict [("score", VNone); ("overall_feedback", VStr "Good.");
                        ("strengths", VList []); ("improvements", VList [])]))
       "q" "a" "SRE" "Easy"
     = inl (PyError "TypeError").
Proof.
  split.
  - apply (evaluate_answer_unconvertible_score_escapes
             [("score", VStr "8/10"); ("overall_feedback", VStr "Good.");
              ("strengths", VList []); ("improvements", VList [])]
             (VStr "8/10") (PyError "ValueError") "q" "a" "SRE" "Easy");
      reflexivity.
  - apply (evaluate_answer_unconvertible_score_escapes
             [("score", VNone); ("overall_feedback", VStr "Good.");
              ("strengths", VList []); ("improvements", VList [])]
             VNone (PyError "TypeError") "q" "a" "SRE" "Easy");
      reflexivity.
Defined.

(** The dashboard of the sessions of [Scenario.history_db], read at noon
    of day 5: two scored sessions, and the day they were created on is
    the second entry of the week. *)
Example dashboard_of_alice :
  response Dashboard.of_alice
  = inr (mkAnalyticsResponse
           2 (733 # 10) (900 # 10)
           [0 # 10; 733 # 10; 0 # 10; 0 # 10; 0 # 10; 0 # 10; 0 # 10]%Q).
Proof. vm_compute. reflexivity. Qed.
